(** * svg-timeline: the layout engine, the string emitter and the config parser

    A shallow embedding of the Go package [svgtimeline]:
    - [Layout]  : timeline.go (the element-tree generator, the latest variant);
    - [Emitter] : svgtimeline.go, second unit (the strings.Builder generator);
    - [Configured] : svgtimeline.go, first unit (its checkEvents);
    - [Cfg]     : cmd/cli/svgtimeline.go, second unit (GenerateFromCFG).

    Conventions.  Go's [int], [int64] and [time.Duration] are 64-bit
    two's-complement integers: they are embedded as [Z] and every arithmetic
    operation of the source is written with the wrap-around of [Int64].
    [float64] is embedded as [Q]: conversions and the four operations are
    exact, rounding is not modelled (the source reaches none of its
    divisions with a zero divisor).  [time.Time] is embedded as the number of
    nanoseconds since the zero instant of package time (January 1, year 1,
    00:00:00 UTC), so that [IsZero] is the test against 0.  A Go [string] is a
    sequence of bytes, embedded as [string]. *)

From Stdlib Require Import ZArith QArith Qminmax Qround List String Ascii Bool Lia.
From Stdlib Require Import DecimalString.
Import ListNotations.

Local Open Scope Z_scope.

(** ** 64-bit integers *)

Module Int64.

Definition min_int : Z := - 2 ^ 63.
Definition max_int : Z := 2 ^ 63 - 1.

Definition in_range (z : Z) : Prop := min_int <= z <= max_int.

(** The value an int64 computation keeps of the mathematical result. *)
Definition wrap (z : Z) : Z := (z + 2 ^ 63) mod 2 ^ 64 - 2 ^ 63.

Definition add (a b : Z) : Z := wrap (a + b).
Definition sub (a b : Z) : Z := wrap (a - b).
Definition mul (a b : Z) : Z := wrap (a * b).
(** Go's [/] truncates toward zero; the callers guard the divisor. *)
Definition quo (a b : Z) : Z := wrap (Z.quot a b).

(** Saturation, as [time.Time.Sub] does on overflow. *)
Definition clamp (z : Z) : Z :=
  if z <? min_int then min_int else if max_int <? z then max_int else z.

End Int64.

(** ** Package time, as far as the source uses it *)

Module GoTime.

Definition Second : Z := 1000000000.

Definition IsZero (t : Z) : bool := t =? 0.
Definition Before (t u : Z) : bool := t <? u.
Definition After (t u : Z) : bool := u <? t.
(** [t.Sub(u)]: the difference, saturated to the range of a Duration. *)
Definition Sub (t u : Z) : Z := Int64.clamp (t - u).

(** [t.Add(d)]. *)
Definition Add (t d : Z) : Z := t + d.

Definition Nanosecond : Z := 1.
Definition Microsecond : Z := 1000 * Nanosecond.
Definition Millisecond : Z := 1000 * Microsecond.

(** [d.Round(m)]: to the nearest multiple of [m], halfway values away from
    zero, saturating; [d] itself when [m <= 0]. *)
Definition lessThanHalf (x y : Z) : bool := x + x <? y.

Definition Round (d m : Z) : Z :=
  if m <=? 0 then d
  else
    let r := Z.rem d m in
    if d <? 0 then
      let r := - r in
      if lessThanHalf r m then Int64.add d r
      else
        let d1 := Int64.add (Int64.sub d m) r in
        if d1 <? d then d1 else Int64.min_int
    else if lessThanHalf r m then Int64.sub d r
    else
      let d1 := Int64.sub (Int64.add d m) r in
      if d1 >? d then d1 else Int64.max_int.

End GoTime.

(** ** Results of Go calls that may stop with a run-time panic *)

Inductive outcome (A : Type) : Type :=
| Returned (a : A)
| Panics.
Arguments Returned {A} a.
Arguments Panics {A}.

(** [s[i]] on a slice: a run-time panic unless [0 <= i < len(s)]. *)
Definition index {A : Type} (s : list A) (i : Z) : outcome A :=
  if i <? 0 then Panics
  else match nth_error s (Z.to_nat i) with
       | Some a => Returned a
       | None => Panics
       end.

Definition len {A : Type} (s : list A) : Z := Z.of_nat (List.length s).

(** [strconv.Itoa]. *)
Definition Itoa (z : Z) : string := NilZero.string_of_int (Z.to_int z).

(** The byte [0x22], which the source writes inside raw string literals. *)
Definition dquote : string := String (ascii_of_nat 34) EmptyString.

(** ** The data model (shared by the three units) *)

Inductive EventType : Set :=
| EventTypeTask
| EventTypeEra.

Definition EventType_eqb (a b : EventType) : bool :=
  match a, b with
  | EventTypeTask, EventTypeTask | EventTypeEra, EventTypeEra => true
  | _, _ => false
  end.

Record Event : Set := mkEvent {
  Type_ : EventType;
  ID : string;
  Class : string;
  Text : string;
  Title : string;
  Duration : Z;
  Time : Z
}.

Record Row : Set := mkRow {
  height : Z;
  separatorHeight : Z;
  events : list Event
}.

(** [r.AddEvent(e)]. *)
Definition AddEvent (r : Row) (e : Event) : Row :=
  mkRow (height r) (separatorHeight r) (events r ++ [e]).

(** [r.StartTime()]: the loop body, then the loop from the zero instant. *)
Definition Row_StartTime_step (earliest : Z) (e : Event) : Z :=
  if GoTime.IsZero (Time e) then earliest
  else if GoTime.IsZero earliest || GoTime.Before (Time e) earliest
       then Time e else earliest.

Definition Row_StartTime (r : Row) : Z :=
  fold_left Row_StartTime_step (events r) 0.

(** [r.TotalDuration(earliest)]: the loop carries [(total, maxByTime)]. *)
Definition TotalDuration_step (earliest : Z) (acc : Z * Z) (event : Event) : Z * Z :=
  let '(total, maxByTime) := acc in
  let total := Int64.add total (Duration event) in
  if negb (GoTime.IsZero earliest) && negb (GoTime.IsZero (Time event)) then
    let byTime := Int64.add (GoTime.Sub (Time event) earliest) (Duration event) in
    if byTime >? maxByTime then (total, byTime) else (total, maxByTime)
  else (total, maxByTime).

Definition TotalDuration (r : Row) (earliest : Z) : Z :=
  let '(total, maxByTime) := fold_left (TotalDuration_step earliest) (events r) (0, 0) in
  Z.max total maxByTime.

(** [r.EndTime()]. *)
Definition Row_EndTime_step (latest : Z) (e : Event) : Z :=
  if GoTime.IsZero (Time e) then latest
  else
    let eventEnd := GoTime.Add (Time e) (Duration e) in
    if GoTime.IsZero latest || GoTime.After eventEnd latest then eventEnd else latest.

Definition Row_EndTime (r : Row) : Z :=
  fold_left Row_EndTime_step (events r) 0.

(** ** Helpers every unit of the package repeats *)

(** [int(f)] on a float: the fraction is discarded. *)
Definition Qtrunc (q : Q) : Z :=
  if Qlt_le_dec q 0 then Qceiling q else Qfloor q.

(** [formatDuration(d, digits)], given [time.Duration.String]. *)
Definition formatDuration (Duration_String : Z -> string) (d digits : Z) : string :=
  let div := 10 ^ digits in
  let d :=
    if d >? GoTime.Second then GoTime.Round d (Z.quot GoTime.Second div)
    else if d >? GoTime.Millisecond then GoTime.Round d (Z.quot GoTime.Millisecond div)
    else if d >? GoTime.Microsecond then GoTime.Round d (Z.quot GoTime.Microsecond div)
    else if d >? GoTime.Nanosecond then GoTime.Round d (Z.quot GoTime.Nanosecond div)
    else d in
  Duration_String d.

(** The values [0, 1, ..., n] of the loop variable of [for i := 0; i <= n; i++]
    (for [n] below the largest int, where the loop ends). *)
Definition upto (n : Z) : list Z := map Z.of_nat (seq 0 (Z.to_nat (n + 1))).

(** ** timeline.go: the element-tree generator *)

Module Layout.

Import GoTime.

(** The elements handed to the XML encoder (the structs of the package's
    element file, with the attributes the generator sets). *)
#[warnings="-register-all"]
Inductive Element : Type :=
| svgDefs (Elements : list Element)
| svgStyle (Content : string)
| g (ID Class : string) (Elements : list Element)
| rect (Class : string) (X Y Width Height : Q) (Fill StrokeDasharray : string)
| line (Class : string) (X1 Y1 X2 Y2 : Q)
| text (X Y : Q) (FontSize FontFamily DominantBaseline TextAnchor Content : string)
| title (Content : string).

Record svg : Type := mkSvg {
  svg_Xmlns : string;
  svg_ID : string;
  svg_Width : string;
  svg_Height : string;
  svg_ViewBox : string;
  svg_PreserveAspectRatio : string;
  svg_Elements : list Element
}.

(** The struct [Timeline]; its field [height] is [heightAttr] here, the
    name [height] being the row's. *)
Record Timeline : Type := mkTimeline {
  rows : list Row;
  id : string;
  width : string;
  heightAttr : string;
  precision : Q;
  numTicks : Z;
  tickHeight : Z;
  marginTop : Z;
  marginBottom : Z;
  marginLeft : Q;
  marginRight : Q;
  style : string;
  earliest : Z;
  maxDuration : Z;
  tickLabelMargin : Z;
  contentHeight : Z;
  totalHeight : Z;
  contentWidth : Q;
  totalWidth : Q
}.

(** The errors [setup] builds with [fmt.Errorf], and their messages. *)
Inductive SetupError : Set :=
| ErrNegativeDuration
| ErrInconsistentTime
| ErrNoPositiveDuration.

Definition Error (e : SetupError) : string :=
  match e with
  | ErrNegativeDuration => "duration of events cannot be negative"
  | ErrInconsistentTime =>
      "when " ++ dquote ++ "Time" ++ dquote
      ++ " is set on any Event, it must be set on all of them"
  | ErrNoPositiveDuration => "none of the events has a positive duration"
  end%string.

(** The failure kinds of the specification's taxonomy, and the kind each
    error of the source falls under. *)
Inductive FailureKind : Set :=
| NegativeDurationError
| InconsistentTimeModeError
| NoPositiveDurationError
| EmptyTimelineError.

Definition kindOf (e : SetupError) : FailureKind :=
  match e with
  | ErrNegativeDuration => NegativeDurationError
  | ErrInconsistentTime => InconsistentTimeModeError
  | ErrNoPositiveDuration => NoPositiveDurationError
  end.

(** [NewTimeline()], given the embedded asset default.css. *)
Definition NewTimeline (DefaultStyle : string) : Timeline :=
  {| rows := []; id := EmptyString; width := "100%"; heightAttr := EmptyString;
     precision := inject_Z 1000; numTicks := 8; tickHeight := 5;
     marginTop := 15; marginBottom := 15; marginLeft := inject_Z 10;
     marginRight := inject_Z 30; style := DefaultStyle;
     earliest := 0; maxDuration := 0; tickLabelMargin := 0;
     contentHeight := 0; totalHeight := 0; contentWidth := 0%Q; totalWidth := 0%Q |}.

Definition with_rows (t : Timeline) (rs : list Row) : Timeline :=
  mkTimeline rs (id t) (width t) (heightAttr t) (precision t) (numTicks t)
    (tickHeight t) (marginTop t) (marginBottom t) (marginLeft t) (marginRight t)
    (style t) (earliest t) (maxDuration t) (tickLabelMargin t) (contentHeight t)
    (totalHeight t) (contentWidth t) (totalWidth t).

Definition SetID (t : Timeline) (id' : string) : Timeline :=
  mkTimeline (rows t) id' (width t) (heightAttr t) (precision t) (numTicks t)
    (tickHeight t) (marginTop t) (marginBottom t) (marginLeft t) (marginRight t)
    (style t) (earliest t) (maxDuration t) (tickLabelMargin t) (contentHeight t)
    (totalHeight t) (contentWidth t) (totalWidth t).

Definition SetPrecision (t : Timeline) (p : Z) : Timeline :=
  mkTimeline (rows t) (id t) (width t) (heightAttr t) (inject_Z p) (numTicks t)
    (tickHeight t) (marginTop t) (marginBottom t) (marginLeft t) (marginRight t)
    (style t) (earliest t) (maxDuration t) (tickLabelMargin t) (contentHeight t)
    (totalHeight t) (contentWidth t) (totalWidth t).

Definition SetWidth (t : Timeline) (w : string) : Timeline :=
  mkTimeline (rows t) (id t) w (heightAttr t) (precision t) (numTicks t)
    (tickHeight t) (marginTop t) (marginBottom t) (marginLeft t) (marginRight t)
    (style t) (earliest t) (maxDuration t) (tickLabelMargin t) (contentHeight t)
    (totalHeight t) (contentWidth t) (totalWidth t).

Definition SetHeight (t : Timeline) (h : string) : Timeline :=
  mkTimeline (rows t) (id t) (width t) h (precision t) (numTicks t)
    (tickHeight t) (marginTop t) (marginBottom t) (marginLeft t) (marginRight t)
    (style t) (earliest t) (maxDuration t) (tickLabelMargin t) (contentHeight t)
    (totalHeight t) (contentWidth t) (totalWidth t).

Definition SetNumTicks (t : Timeline) (n : Z) : Timeline :=
  mkTimeline (rows t) (id t) (width t) (heightAttr t) (precision t) n
    (tickHeight t) (marginTop t) (marginBottom t) (marginLeft t) (marginRight t)
    (style t) (earliest t) (maxDuration t) (tickLabelMargin t) (contentHeight t)
    (totalHeight t) (contentWidth t) (totalWidth t).

Definition SetTickHeight (t : Timeline) (h : Z) : Timeline :=
  mkTimeline (rows t) (id t) (width t) (heightAttr t) (precision t) (numTicks t)
    h (marginTop t) (marginBottom t) (marginLeft t) (marginRight t)
    (style t) (earliest t) (maxDuration t) (tickLabelMargin t) (contentHeight t)
    (totalHeight t) (contentWidth t) (totalWidth t).

Definition SetMargins (t : Timeline) (top right bottom left : Z) : Timeline :=
  mkTimeline (rows t) (id t) (width t) (heightAttr t) (precision t) (numTicks t)
    (tickHeight t) top bottom (inject_Z left) (inject_Z right)
    (style t) (earliest t) (maxDuration t) (tickLabelMargin t) (contentHeight t)
    (totalHeight t) (contentWidth t) (totalWidth t).

Definition SetStyle (t : Timeline) (s : string) : Timeline :=
  mkTimeline (rows t) (id t) (width t) (heightAttr t) (precision t) (numTicks t)
    (tickHeight t) (marginTop t) (marginBottom t) (marginLeft t) (marginRight t)
    s (earliest t) (maxDuration t) (tickLabelMargin t) (contentHeight t)
    (totalHeight t) (contentWidth t) (totalWidth t).

(** [t.AddRow(height, separatorHeight)]; the pointer it returns designates
    the last row of the result. *)
Definition AddRow (t : Timeline) (height separatorHeight : Z) : Timeline :=
  with_rows t (rows t ++ [mkRow height separatorHeight []]).

Definition GetRows (t : Timeline) : list Row := rows t.

(** [t.GetRowByIndex(i)]; [None] is the nil pointer. *)
Definition GetRowByIndex (t : Timeline) (i : Z) : outcome (option Row) :=
  if i >=? len (rows t) then Returned None
  else match index (rows t) i with
       | Returned r => Returned (Some r)
       | Panics => Panics
       end.

(** [t.GetLastRow()]. *)
Definition GetLastRow (t : Timeline) : option Row :=
  if len (rows t) =? 0 then None
  else nth_error (rows t) (Z.to_nat (len (rows t) - 1)).

(** [t.GetLastRow().AddEvent(e)], the way the README fills a timeline: the
    row behind the pointer is updated in place (on a timeline that has a
    row; without one the call is a nil dereference, and is not made here). *)
Definition AddEventToLastRow (t : Timeline) (e : Event) : Timeline :=
  match rev (rows t) with
  | [] => t
  | r :: before => with_rows t (rev before ++ [AddEvent r e])
  end.

(** [t.StartTime()]. *)
Definition StartTime_step (earliest : Z) (r : Row) : Z :=
  let rowStartTime := Row_StartTime r in
  if IsZero earliest || Before rowStartTime earliest then rowStartTime else earliest.

Definition StartTime (t : Timeline) : Z :=
  fold_left StartTime_step (rows t) 0.

(** [t.MaxDuration()]. *)
Definition MaxDuration_step (t : Timeline) (m : Z) (row : Row) : Z :=
  let duration := TotalDuration row (StartTime t) in
  if duration >? m then duration else m.

Definition MaxDuration (t : Timeline) : Z :=
  fold_left (MaxDuration_step t) (rows t) 0.

(** [t.EndTime()]. *)
Definition EndTime_step (latest : Z) (r : Row) : Z :=
  let rowEndTime := Row_EndTime r in
  if IsZero latest || After rowEndTime latest then rowEndTime else latest.

Definition EndTime (t : Timeline) : Z :=
  fold_left EndTime_step (rows t) 0.

(** [t.TotalRowHeight()]. *)
Definition TotalRowHeight (t : Timeline) : Z :=
  fold_left (fun total row =>
               Int64.add total (Int64.add (height row) (separatorHeight row)))
            (rows t) 0.

(** *** Validation and the derived quantities *)

(** The three variables the loop of [setup] carries. *)
Record scan : Set := mkScan {
  hasTime : bool;
  hasNoTime : bool;
  duration : Z
}.

Fixpoint scanEvents (es : list Event) (s : scan) : SetupError + scan :=
  match es with
  | [] => inr s
  | e :: es' =>
      if Duration e <? 0 then inl ErrNegativeDuration
      else
        let duration := Int64.add (duration s) (Duration e) in
        if IsZero (Time e)
        then scanEvents es' (mkScan (hasTime s) true duration)
        else scanEvents es' (mkScan true (hasNoTime s) duration)
  end.

Fixpoint scanRows (rs : list Row) (s : scan) : SetupError + scan :=
  match rs with
  | [] => inr s
  | r :: rs' =>
      match scanEvents (events r) s with
      | inl err => inl err
      | inr s' => scanRows rs' s'
      end
  end.

(** The assignments of [setup] after its checks, in their order. *)
Definition initialise (t : Timeline) : Timeline :=
  let tickLabelMargin := 15 in
  let maxDuration := MaxDuration t in
  let contentHeight := TotalRowHeight t in
  let earliest := StartTime t in
  let totalHeight :=
    Int64.add (Int64.add (Int64.add (Int64.add contentHeight (marginTop t))
                                    (marginBottom t)) (tickHeight t)) tickLabelMargin in
  let heightAttr :=
    if String.eqb (heightAttr t) EmptyString then Itoa totalHeight else heightAttr t in
  let contentWidth := Qmin (precision t) (inject_Z maxDuration) in
  let totalWidth := (contentWidth + marginLeft t + marginRight t)%Q in
  mkTimeline (rows t) (id t) (width t) heightAttr (precision t) (numTicks t)
    (tickHeight t) (marginTop t) (marginBottom t) (marginLeft t) (marginRight t)
    (style t) earliest maxDuration tickLabelMargin contentHeight totalHeight
    contentWidth totalWidth.

(** [t.setup()]: the error, or the timeline with its derived fields set. *)
Definition setup (t : Timeline) : SetupError + Timeline :=
  match scanRows (rows t) (mkScan false false 0) with
  | inl err => inl err
  | inr s =>
      if hasTime s && hasNoTime s then inl ErrInconsistentTime
      else if duration s =? 0 then inl ErrNoPositiveDuration
      else inr (initialise t)
  end.

(** *** Drawing *)

Section Generator.

(** The verb [%f] of package fmt, [time.Duration.String], and the XML
    encoder ([None]: it reports an error). *)
Variable fmt_f : Q -> string.
Variable Duration_String : Z -> string.
Variable Encode : svg -> option string.

Definition textWidthFactor : Q := 7 # 10.

(** [t.drawEvent(root, event, currentY, rowHeight, currentDuration)]: the
    group appended to [root.Elements] and the duration returned. *)
Definition drawEvent (t : Timeline) (event : Event)
    (currentY rowHeight currentDuration : Z) : Element * Z :=
  let currentDuration :=
    if negb (IsZero (earliest t)) then Sub (Time event) (earliest t)
    else currentDuration in
  let startX :=
    (marginLeft t
     + contentWidth t * inject_Z currentDuration / inject_Z (maxDuration t))%Q in
  let eventWidth :=
    (contentWidth t * inject_Z (Duration event) / inject_Z (maxDuration t))%Q in
  let isEra := EventType_eqb (Type_ event) EventTypeEra in
  let height :=
    if isEra
    then Int64.sub (Int64.sub (Int64.sub (totalHeight t) currentY) (marginBottom t))
                   (Int64.mul (tickHeight t) 3)
    else rowHeight in
  let strokeDashArray :=
    if isEra then ("0," ++ fmt_f eventWidth ++ "," ++ Itoa height ++ ",0")%string
    else EmptyString in
  let textYOffset :=
    if isEra then (inject_Z rowHeight / 3)%Q else (inject_Z rowHeight / 2)%Q in
  let class := if isEra then "tl-era"%string else "tl-event"%string in
  let class :=
    if negb (String.eqb (Class event) EmptyString)
    then (class ++ " " ++ Class event)%string else class in
  let titleElements :=
    if negb (String.eqb (Title event) EmptyString) then [title (Title event)] else [] in
  let rectangle :=
    rect EmptyString startX (inject_Z currentY) eventWidth (inject_Z height)
         EmptyString strokeDashArray in
  let textElements :=
    if negb (String.eqb (Text event) EmptyString) then
      let textSize :=
        Qtrunc (Qmin (inject_Z (Int64.quo rowHeight 2))
                     (eventWidth
                      / (inject_Z (Z.of_nat (String.length (Text event)))
                         * textWidthFactor))%Q) in
      let textSize := if isEra then Int64.sub textSize 1 else textSize in
      if textSize >=? 3 then
        let textX := (startX + eventWidth / 2)%Q in
        let textY := (inject_Z currentY + textYOffset)%Q in
        [text textX textY (Itoa textSize) "monospace" "middle" "middle" (Text event)]
      else []
    else [] in
  let group := g (ID event) class (titleElements ++ [rectangle] ++ textElements) in
  let currentDuration :=
    if IsZero (earliest t) then Int64.add currentDuration (Duration event)
    else currentDuration in
  (group, currentDuration).

(** The inner loop of [Generate] over the events of one row. *)
Fixpoint drawEvents (t : Timeline) (currentY rowHeight : Z) (es : list Event)
    (currentDuration : Z) : list Element :=
  match es with
  | [] => []
  | event :: es' =>
      let '(group, currentDuration) :=
        drawEvent t event currentY rowHeight currentDuration in
      group :: drawEvents t currentY rowHeight es' currentDuration
  end.

(** The outer loop over the rows, with its [break]. *)
Fixpoint drawRows (t : Timeline) (rs : list Row) (currentY : Z) : list Element :=
  match rs with
  | [] => []
  | row :: rs' =>
      if maxDuration t <=? 0 then []
      else
        drawEvents t currentY (height row) (events row) 0
        ++ drawRows t rs' (Int64.add currentY
                                     (Int64.add (height row) (separatorHeight row)))
  end.

(** One pass of the tick loop: the tick mark and its label. *)
Definition tick (t : Timeline) (timelineY tickDuration i : Z) : list Element :=
  let currentDuration := Int64.mul tickDuration i in
  let x :=
    (marginLeft t
     + contentWidth t * inject_Z currentDuration / inject_Z (maxDuration t))%Q in
  let topY :=
    if (i =? 0) || (i =? numTicks t) then marginTop t
    else Int64.sub timelineY (tickHeight t) in
  let label := formatDuration Duration_String currentDuration 2 in
  [ line EmptyString x (inject_Z topY) x (inject_Z (Int64.add timelineY (tickHeight t)));
    text x (inject_Z (Int64.add (Int64.add timelineY (tickHeight t)) (tickLabelMargin t)))
         "12" "monospace" EmptyString "middle" label ].

(** The elements of the group [tl-ticks]. *)
Definition ticks (t : Timeline) (timelineY : Z) : list Element :=
  if (numTicks t >? 0) && (maxDuration t >? 0) then
    let tickDuration := Int64.quo (maxDuration t) (numTicks t) in
    flat_map (tick t timelineY tickDuration) (upto (numTicks t))
  else [].

(** The element tree [Generate] builds once [setup] has succeeded. *)
Definition root (t : Timeline) : svg :=
  let defs :=
    svgDefs (if negb (String.eqb (style t) EmptyString) then [svgStyle (style t)] else []) in
  let background :=
    rect "tl-bg" 0 0 (totalWidth t) (inject_Z (totalHeight t)) "none" EmptyString in
  let timelineY := Int64.add (Int64.add (marginTop t) (contentHeight t)) (tickHeight t) in
  let axis :=
    line "tl-axis" (marginLeft t) (inject_Z timelineY)
         (marginLeft t + contentWidth t)%Q (inject_Z timelineY) in
  {| svg_Xmlns := "http://www.w3.org/2000/svg";
     svg_ID := id t;
     svg_Width := width t;
     svg_Height := heightAttr t;
     svg_ViewBox :=
       ("0 0 " ++ fmt_f (totalWidth t) ++ " " ++ fmt_f (inject_Z (totalHeight t)))%string;
     svg_PreserveAspectRatio := "xMinYMin meet";
     svg_Elements :=
       [defs; background]
       ++ drawRows t (rows t) (marginTop t)
       ++ [axis; g EmptyString "tl-ticks" (ticks t timelineY)] |}.

(** What [Generate] reports: an error of [setup], or the encoder's. *)
Inductive GenerateError : Set :=
| SetupFailed (err : SetupError)
| EncodeFailed.

(** [t.Generate()]: the document and the error, as the source returns them. *)
Definition Generate (t : Timeline) : string * option GenerateError :=
  match setup t with
  | inl err => (EmptyString, Some (SetupFailed err))
  | inr t' =>
      match Encode (root t') with
      | None => (EmptyString, Some EncodeFailed)
      | Some document => (document, None)
      end
  end.

End Generator.

(** The rectangle of a drawn group, and its [x] and [width]. *)
Definition rectangleOf (e : Element) : option (Q * Q) :=
  match e with
  | g _ _ els =>
      match filter (fun x => match x with rect _ _ _ _ _ _ _ => true | _ => false end) els with
      | rect _ X _ Width _ _ _ :: _ => Some (X, Width)
      | _ => None
      end
  | _ => None
  end.

End Layout.

(** ** svgtimeline.go, second unit: the strings.Builder generator *)

Module Emitter.

Import GoTime.

Local Open Scope string_scope.

Definition nl : string := String (ascii_of_nat 10) EmptyString.

(** [strings.ReplaceAll(s, old, new)] for a one-byte [old], which is what
    every call of the source passes. *)
Fixpoint ReplaceAll (s : string) (old : ascii) (new : string) : string :=
  match s with
  | EmptyString => EmptyString
  | String c s' =>
      if Ascii.eqb c old then new ++ ReplaceAll s' old new
      else String c (ReplaceAll s' old new)
  end.

Definition amp : ascii := ascii_of_nat 38.
Definition lt : ascii := ascii_of_nat 60.
Definition gt : ascii := ascii_of_nat 62.
Definition quot : ascii := ascii_of_nat 34.
Definition apos : ascii := ascii_of_nat 39.

(** [escapeXML(s)]. *)
Definition escapeXML (s : string) : string :=
  let s := ReplaceAll s amp "&amp;" in
  let s := ReplaceAll s lt "&lt;" in
  let s := ReplaceAll s gt "&gt;" in
  let s := ReplaceAll s quot "&quot;" in
  let s := ReplaceAll s apos "&apos;" in
  s.

(** The struct [Timeline] of this unit: widths and margins are ints. *)
Record Timeline : Type := mkTimeline {
  rows : list Row;
  id : string;
  width : Z;
  numTicks : Z;
  tickHeight : Z;
  marginTop : Z;
  marginBottom : Z;
  marginLeft : Z;
  marginRight : Z;
  style : string;
  earliest : Z;
  maxDuration : Z;
  tickLabelMargin : Z;
  totalHeight : Z;
  svgHeight : Z;
  contentWidth : Z
}.

(** [NewTimeline()], given the embedded asset default.css. *)
Definition NewTimeline (DefaultStyle : string) : Timeline :=
  {| rows := []; id := EmptyString; width := 1000; numTicks := 8; tickHeight := 5;
     marginTop := 15; marginBottom := 15; marginLeft := 10; marginRight := 30;
     style := DefaultStyle; earliest := 0; maxDuration := 0; tickLabelMargin := 0;
     totalHeight := 0; svgHeight := 0; contentWidth := 0 |}.

Definition with_rows (t : Timeline) (rs : list Row) : Timeline :=
  mkTimeline rs (id t) (width t) (numTicks t) (tickHeight t) (marginTop t)
    (marginBottom t) (marginLeft t) (marginRight t) (style t) (earliest t)
    (maxDuration t) (tickLabelMargin t) (totalHeight t) (svgHeight t) (contentWidth t).

Definition SetID (t : Timeline) (id' : string) : Timeline :=
  mkTimeline (rows t) id' (width t) (numTicks t) (tickHeight t) (marginTop t)
    (marginBottom t) (marginLeft t) (marginRight t) (style t) (earliest t)
    (maxDuration t) (tickLabelMargin t) (totalHeight t) (svgHeight t) (contentWidth t).

Definition SetWidth (t : Timeline) (w : Z) : Timeline :=
  mkTimeline (rows t) (id t) w (numTicks t) (tickHeight t) (marginTop t)
    (marginBottom t) (marginLeft t) (marginRight t) (style t) (earliest t)
    (maxDuration t) (tickLabelMargin t) (totalHeight t) (svgHeight t) (contentWidth t).

Definition SetNumTicks (t : Timeline) (n : Z) : Timeline :=
  mkTimeline (rows t) (id t) (width t) n (tickHeight t) (marginTop t)
    (marginBottom t) (marginLeft t) (marginRight t) (style t) (earliest t)
    (maxDuration t) (tickLabelMargin t) (totalHeight t) (svgHeight t) (contentWidth t).

Definition SetTickHeight (t : Timeline) (h : Z) : Timeline :=
  mkTimeline (rows t) (id t) (width t) (numTicks t) h (marginTop t)
    (marginBottom t) (marginLeft t) (marginRight t) (style t) (earliest t)
    (maxDuration t) (tickLabelMargin t) (totalHeight t) (svgHeight t) (contentWidth t).

Definition SetMargins (t : Timeline) (top right bottom left : Z) : Timeline :=
  mkTimeline (rows t) (id t) (width t) (numTicks t) (tickHeight t) top
    bottom left right (style t) (earliest t)
    (maxDuration t) (tickLabelMargin t) (totalHeight t) (svgHeight t) (contentWidth t).

Definition SetStyle (t : Timeline) (s : string) : Timeline :=
  mkTimeline (rows t) (id t) (width t) (numTicks t) (tickHeight t) (marginTop t)
    (marginBottom t) (marginLeft t) (marginRight t) s (earliest t)
    (maxDuration t) (tickLabelMargin t) (totalHeight t) (svgHeight t) (contentWidth t).

Definition AddRow (t : Timeline) (height separatorHeight : Z) : Timeline :=
  with_rows t (rows t ++ [mkRow height separatorHeight []]).

(** [t.GetRowByIndex(i)]; [None] is the nil pointer. *)
Definition GetRowByIndex (t : Timeline) (i : Z) : outcome (option Row) :=
  if (i >=? len (rows t))%Z then Returned None
  else match index (rows t) i with
       | Returned r => Returned (Some r)
       | Panics => Panics
       end.

(** [t.GetLastRow()]. *)
Definition GetLastRow (t : Timeline) : option Row :=
  if (len (rows t) =? 0)%Z then None
  else nth_error (rows t) (Z.to_nat (len (rows t) - 1)).

(** [row.AddEvent(e)] through the pointer [GetLastRow] returned: the last
    row of the timeline is the one updated (the parser calls it once it has
    seen that the pointer is not nil). *)
Definition AddEventToLastRow (t : Timeline) (e : Event) : Timeline :=
  match rev (rows t) with
  | [] => t
  | r :: before => with_rows t (rev before ++ [AddEvent r e])
  end.

Definition StartTime_step (earliest : Z) (r : Row) : Z :=
  let rowStartTime := Row_StartTime r in
  if IsZero earliest || Before rowStartTime earliest then rowStartTime else earliest.

Definition StartTime (t : Timeline) : Z :=
  fold_left StartTime_step (rows t) 0%Z.

Definition MaxDuration_step (t : Timeline) (m : Z) (row : Row) : Z :=
  let duration := TotalDuration row (StartTime t) in
  if (duration >? m)%Z then duration else m.

Definition MaxDuration (t : Timeline) : Z :=
  fold_left (MaxDuration_step t) (rows t) 0%Z.

Definition TotalRowHeight (t : Timeline) : Z :=
  fold_left (fun total row =>
               Int64.add total (Int64.add (height row) (separatorHeight row)))
            (rows t) 0%Z.

(** The errors of this unit's [setup], and their messages. *)
Inductive SetupError : Set :=
| ErrInconsistentTime
| ErrNoPositiveDuration.

Definition Error (e : SetupError) : string :=
  match e with
  | ErrInconsistentTime =>
      "if 'Time' is set on any Event, it must be set on all of them"
  | ErrNoPositiveDuration => "none of the events has a positive duration"
  end.

Record scan : Set := mkScan {
  hasTime : bool;
  hasNoTime : bool;
  duration : Z
}.

Definition scanEvent (s : scan) (e : Event) : scan :=
  let duration := Int64.add (duration s) (Duration e) in
  if IsZero (Time e) then mkScan (hasTime s) true duration
  else mkScan true (hasNoTime s) duration.

Definition scanRows (rs : list Row) : scan :=
  fold_left (fun s r => fold_left scanEvent (events r) s) rs (mkScan false false 0).

Definition initialise (t : Timeline) : Timeline :=
  let tickLabelMargin := 15%Z in
  let maxDuration := MaxDuration t in
  let totalHeight := TotalRowHeight t in
  let earliest := StartTime t in
  let svgHeight :=
    Int64.add (Int64.add (Int64.add (Int64.add totalHeight (marginTop t))
                                    (marginBottom t)) (tickHeight t)) tickLabelMargin in
  let contentWidth := Int64.sub (Int64.sub (width t) (marginLeft t)) (marginRight t) in
  mkTimeline (rows t) (id t) (width t) (numTicks t) (tickHeight t) (marginTop t)
    (marginBottom t) (marginLeft t) (marginRight t) (style t) earliest
    maxDuration tickLabelMargin totalHeight svgHeight contentWidth.

(** [t.setup()]. *)
Definition setup (t : Timeline) : SetupError + Timeline :=
  let s := scanRows (rows t) in
  if hasTime s && hasNoTime s then inl ErrInconsistentTime
  else if (duration s =? 0)%Z then inl ErrNoPositiveDuration
  else inr (initialise t).

Section Writer.

(** The verb [%f] of package fmt, [time.Duration.String] and the embedded
    asset defs.xml. *)
Variable fmt_f : Q -> string.
Variable Duration_String : Z -> string.
Variable defs : string.

Definition textWidthFactor : Q := 7 # 10.

(** [t.drawEvent(sb, event, currentY, rowHeight, currentDuration)]: the text
    written to [sb] and the duration returned. *)
Definition drawEvent (t : Timeline) (event : Event)
    (currentY rowHeight currentDuration : Z) : string * Z :=
  let currentDuration :=
    if negb (IsZero (earliest t)) then Sub (Time event) (earliest t)
    else currentDuration in
  let startX :=
    (inject_Z (marginLeft t)
     + inject_Z (contentWidth t) * inject_Z currentDuration / inject_Z (maxDuration t))%Q in
  let eventWidth :=
    (inject_Z (contentWidth t) * inject_Z (Duration event) / inject_Z (maxDuration t))%Q in
  let isEra := EventType_eqb (Type_ event) EventTypeEra in
  let height :=
    if isEra
    then Int64.sub (Int64.sub (Int64.sub (svgHeight t) currentY) (marginBottom t))
                   (Int64.mul (tickHeight t) 3)
    else rowHeight in
  let strokeDashArray :=
    if isEra
    then " stroke-dasharray=" ++ dquote ++ "0," ++ fmt_f eventWidth ++ ","
         ++ Itoa height ++ ",0" ++ dquote
    else EmptyString in
  let textYOffset :=
    if isEra then (inject_Z rowHeight / 3)%Q else (inject_Z rowHeight / 2)%Q in
  let sb := "<g" in
  let sb :=
    if negb (String.eqb (ID event) EmptyString)
    then sb ++ " id=" ++ dquote ++ ID event ++ dquote else sb in
  let className := if isEra then "tl-era" else "tl-event" in
  let className :=
    if negb (String.eqb (Class event) EmptyString)
    then className ++ " " ++ Class event else className in
  let sb := sb ++ " class=" ++ dquote ++ className ++ dquote in
  let sb := sb ++ ">" ++ nl in
  let sb :=
    if negb (String.eqb (Title event) EmptyString)
    then sb ++ "<title>" ++ escapeXML (Title event) ++ "</title>" else sb in
  let sb :=
    sb ++ "<rect x=" ++ dquote ++ fmt_f startX ++ dquote
       ++ " y=" ++ dquote ++ Itoa currentY ++ dquote
       ++ " width=" ++ dquote ++ fmt_f eventWidth ++ dquote
       ++ " height=" ++ dquote ++ Itoa height ++ dquote
       ++ strokeDashArray ++ " />" in
  let sb := sb ++ nl in
  let sb :=
    if negb (String.eqb (Text event) EmptyString) then
      let textSize :=
        Qtrunc (Qmin (inject_Z (Int64.quo rowHeight 2))
                     (eventWidth
                      / (inject_Z (Z.of_nat (String.length (Text event)))
                         * textWidthFactor))%Q) in
      let textSize := if isEra then Int64.sub textSize 1 else textSize in
      if (textSize >=? 3)%Z then
        let textX := (startX + eventWidth / 2)%Q in
        let textY := (inject_Z currentY + textYOffset)%Q in
        sb ++ "<text x=" ++ dquote ++ fmt_f textX ++ dquote
           ++ " y=" ++ dquote ++ fmt_f textY ++ dquote
           ++ " font-family=" ++ dquote ++ "monospace" ++ dquote
           ++ " font-size=" ++ dquote ++ Itoa textSize ++ "px" ++ dquote
           ++ " dominant-baseline=" ++ dquote ++ "middle" ++ dquote
           ++ " text-anchor=" ++ dquote ++ "middle" ++ dquote ++ ">"
           ++ escapeXML (Text event) ++ "</text>" ++ nl
      else sb
    else sb in
  let sb := sb ++ "</g>" ++ nl in
  let currentDuration :=
    if IsZero (earliest t) then Int64.add currentDuration (Duration event)
    else currentDuration in
  (sb, currentDuration).

Fixpoint drawEvents (t : Timeline) (currentY rowHeight : Z) (es : list Event)
    (currentDuration : Z) : string :=
  match es with
  | [] => EmptyString
  | event :: es' =>
      let '(written, currentDuration) :=
        drawEvent t event currentY rowHeight currentDuration in
      written ++ drawEvents t currentY rowHeight es' currentDuration
  end.

Fixpoint drawRows (t : Timeline) (rs : list Row) (currentY : Z) : string :=
  match rs with
  | [] => EmptyString
  | row :: rs' =>
      if (maxDuration t <=? 0)%Z then EmptyString
      else
        drawEvents t currentY (height row) (events row) 0
        ++ drawRows t rs' (Int64.add currentY
                                     (Int64.add (height row) (separatorHeight row)))
  end.

Definition tick (t : Timeline) (timelineY tickDuration i : Z) : string :=
  let currentDuration := Int64.mul tickDuration i in
  let x :=
    (inject_Z (marginLeft t)
     + inject_Z (contentWidth t) * inject_Z currentDuration / inject_Z (maxDuration t))%Q in
  let topY :=
    if ((i =? 0) || (i =? numTicks t))%Z then marginTop t
    else Int64.sub timelineY (tickHeight t) in
  let label := formatDuration Duration_String currentDuration 2 in
  "<line x1=" ++ dquote ++ fmt_f x ++ dquote
  ++ " y1=" ++ dquote ++ Itoa topY ++ dquote
  ++ " x2=" ++ dquote ++ fmt_f x ++ dquote
  ++ " y2=" ++ dquote ++ Itoa (Int64.add timelineY (tickHeight t)) ++ dquote ++ "/>"
  ++ nl
  ++ "<text x=" ++ dquote ++ fmt_f x ++ dquote
  ++ " y=" ++ dquote
  ++ Itoa (Int64.add (Int64.add timelineY (tickHeight t)) (tickLabelMargin t)) ++ dquote
  ++ " font-family=" ++ dquote ++ "monospace" ++ dquote
  ++ " font-size=" ++ dquote ++ "12" ++ dquote
  ++ " text-anchor=" ++ dquote ++ "middle" ++ dquote ++ ">" ++ label ++ "</text>"
  ++ nl.

Definition ticks (t : Timeline) (timelineY : Z) : string :=
  if ((numTicks t >? 0) && (maxDuration t >? 0))%Z then
    let tickDuration := Int64.quo (maxDuration t) (numTicks t) in
    String.concat EmptyString (map (tick t timelineY tickDuration) (upto (numTicks t)))
  else EmptyString.

(** The document [Generate] writes once [setup] has succeeded. *)
Definition document (t : Timeline) : string :=
  let sb := "<svg" in
  let sb :=
    if negb (String.eqb (id t) EmptyString)
    then sb ++ " id=" ++ dquote ++ escapeXML (id t) ++ dquote else sb in
  let sb :=
    sb ++ " xmlns=" ++ dquote ++ "http://www.w3.org/2000/svg" ++ dquote
       ++ " width=" ++ dquote ++ Itoa (width t) ++ dquote
       ++ " height=" ++ dquote ++ Itoa (svgHeight t) ++ dquote
       ++ " viewBox=" ++ dquote ++ "0 0 " ++ Itoa (width t) ++ " " ++ Itoa (svgHeight t)
       ++ dquote ++ ">" in
  let sb := sb ++ nl in
  let sb := sb ++ "<defs>" ++ nl ++ defs ++ nl in
  let sb :=
    if negb (String.eqb (style t) EmptyString)
    then sb ++ "<style>" ++ nl ++ style t ++ "</style>" ++ nl else sb in
  let sb := sb ++ "</defs>" ++ nl in
  let sb :=
    sb ++ "<rect class=" ++ dquote ++ "tl-bg" ++ dquote
       ++ " x=" ++ dquote ++ "0" ++ dquote ++ " y=" ++ dquote ++ "0" ++ dquote
       ++ " width=" ++ dquote ++ Itoa (width t) ++ dquote
       ++ " height=" ++ dquote ++ Itoa (svgHeight t) ++ dquote
       ++ " fill=" ++ dquote ++ "none" ++ dquote ++ " />" in
  let sb := sb ++ drawRows t (rows t) (marginTop t) in
  let timelineY := Int64.add (Int64.add (marginTop t) (totalHeight t)) (tickHeight t) in
  let sb :=
    sb ++ "<line class=" ++ dquote ++ "tl-axis" ++ dquote
       ++ " x1=" ++ dquote ++ Itoa (marginLeft t) ++ dquote
       ++ " y1=" ++ dquote ++ Itoa timelineY ++ dquote
       ++ " x2=" ++ dquote ++ Itoa (Int64.add (marginLeft t) (contentWidth t)) ++ dquote
       ++ " y2=" ++ dquote ++ Itoa timelineY ++ dquote ++ "/>" in
  let sb := sb ++ nl in
  let sb := sb ++ "<g class=" ++ dquote ++ "tl-ticks" ++ dquote ++ ">" in
  let sb := sb ++ nl in
  let sb := sb ++ ticks t timelineY in
  let sb := sb ++ "</g>" ++ nl in
  sb ++ "</svg>".

(** [t.Generate()]. *)
Definition Generate (t : Timeline) : string * option SetupError :=
  match setup t with
  | inl err => (EmptyString, Some err)
  | inr t' => (document t', None)
  end.

End Writer.

End Emitter.

(** ** svgtimeline.go, first unit: the generator that takes a TimelineConfig

    Of this unit the model, [StartTime] and the validation [checkEvents],
    with which [Generate] starts and whose error is the only one it
    returns. *)

Module Configured.

Import GoTime.

Local Open Scope string_scope.

(** The struct [Timeline] of this unit: the rows. *)
Record Timeline : Type := mkTimeline {
  rows : list Row
}.

(** [NewTimeline()]. *)
Definition NewTimeline : Timeline := {| rows := [] |}.

Definition AddRow (t : Timeline) (height separatorHeight : Z) : Timeline :=
  mkTimeline (rows t ++ [mkRow height separatorHeight []]).

(** [row.AddEvent(e)] through the pointer [AddRow] returned last. *)
Definition AddEventToLastRow (t : Timeline) (e : Event) : Timeline :=
  match rev (rows t) with
  | [] => t
  | r :: before => mkTimeline (rev before ++ [AddEvent r e])
  end.

(** [t.StartTime()]. *)
Definition StartTime_step (earliest : Z) (r : Row) : Z :=
  let rowStartTime := Row_StartTime r in
  if IsZero earliest || Before rowStartTime earliest then rowStartTime else earliest.

Definition StartTime (t : Timeline) : Z :=
  fold_left StartTime_step (rows t) 0%Z.

(** The errors [checkEvents] builds with [fmt.Errorf], and their messages. *)
Inductive CheckError : Set :=
| ErrInconsistentTime
| ErrNoPositiveDuration.

Definition Error (e : CheckError) : string :=
  match e with
  | ErrInconsistentTime =>
      "if 'Time' is set on any Event, it must be set on all of them"
  | ErrNoPositiveDuration => "none of the events has a positive duration"
  end.

(** The three variables the loop of [checkEvents] carries. *)
Record scan : Set := mkScan {
  hasTime : bool;
  hasNoTime : bool;
  duration : Z
}.

Definition scanEvent (s : scan) (e : Event) : scan :=
  let duration := Int64.add (duration s) (Duration e) in
  if IsZero (Time e) then mkScan (hasTime s) true duration
  else mkScan true (hasNoTime s) duration.

Definition scanRows (rs : list Row) : scan :=
  fold_left (fun s r => fold_left scanEvent (events r) s) rs (mkScan false false 0).

(** [checkEvents(t)]: the time and the error it returns ([None] is nil). *)
Definition checkEvents (t : Timeline) : Z * option CheckError :=
  let s := scanRows (rows t) in
  if hasTime s && hasNoTime s then (0%Z, Some ErrInconsistentTime)
  else if (duration s =? 0)%Z then (0%Z, Some ErrNoPositiveDuration)
  else (StartTime t, None).

End Configured.

(** ** cmd/cli/svgtimeline.go, second unit: the config parser *)

Module Cfg.

Local Open Scope string_scope.

(** *** Package strings, on bytes

    [TrimSpace] removes the ASCII white space; the multi-byte Unicode spaces
    it also removes are not modelled.  [Split] and [Cut] take the one-byte
    separator of their calls. *)

Definition isSpace (c : ascii) : bool :=
  let n := nat_of_ascii c in
  (Nat.leb 9 n && Nat.leb n 13) || Nat.eqb n 32.

Fixpoint trimLeft (s : string) : string :=
  match s with
  | String c s' => if isSpace c then trimLeft s' else s
  | EmptyString => EmptyString
  end.

Fixpoint trimRight (s : string) : string :=
  match s with
  | EmptyString => EmptyString
  | String c s' =>
      match trimRight s' with
      | EmptyString => if isSpace c then EmptyString else String c EmptyString
      | rest => String c rest
      end
  end.

Definition TrimSpace (s : string) : string := trimRight (trimLeft s).

Fixpoint Split (s : string) (sep : ascii) : list string :=
  match s with
  | EmptyString => [EmptyString]
  | String c s' =>
      if Ascii.eqb c sep then EmptyString :: Split s' sep
      else match Split s' sep with
           | part :: parts => String c part :: parts
           | [] => [String c EmptyString]
           end
  end.

Fixpoint Cut (s : string) (sep : ascii) : string * string * bool :=
  match s with
  | EmptyString => (EmptyString, EmptyString, false)
  | String c s' =>
      if Ascii.eqb c sep then (EmptyString, s', true)
      else let '(before, after, found) := Cut s' sep in (String c before, after, found)
  end.

(** *** Errors *)

(** The errors [GenerateFromCFG] returns after the file is read; [cause] is
    the text of the library error the message embeds with [%v]. *)
Inductive CfgError : Set :=
| ErrNoRow (lineNum : Z)
| ErrUnknownValue (lineNum : Z)
| ErrNumber (lineNum : Z) (cause : string)
| ErrUnknownProperty (key : string) (lineNum : Z)
| ErrRowOption (lineNum : Z)
| ErrDuration (lineNum : Z) (cause : string)
| ErrTimeFormat (input : string)
| ErrUnknownEventProperty (key : string) (lineNum : Z)
| ErrUnknownSection (section : string)
| ErrGenerate (err : Emitter.SetupError).

Definition formats : list string :=
  [ "2006-01-02T15:04:05.99Z";
    "Mon Jan _2 15:04:05 MST 2006";
    "Mon Jan _2 15:04:05 2006";
    "2006-01-02T15:04:05Z07:00";
    "Mon, 02 Jan 2006 15:04:05 MST";
    "02 Jan 06 15:04 MST";
    "Monday, 02-Jan-06 15:04:05 MST";
    "2006-01-02 15:04:05";
    "2006/01/02 15:04:05";
    "02/01/2006 15:04:05";
    "2006-01-02";
    "02/01/2006";
    "02 Jan 2006";
    "02-Jan-2006";
    "15:04:05.99";
    "15:04:05";
    "15:04" ].

Definition Error (e : CfgError) : string :=
  match e with
  | ErrNoRow lineNum =>
      "error at line " ++ Itoa lineNum
      ++ ", cannot add an event without creating a row first"
  | ErrUnknownValue lineNum => "unknown value at line " ++ Itoa lineNum
  | ErrNumber lineNum cause => "error at line " ++ Itoa lineNum ++ ": " ++ cause
  | ErrUnknownProperty key lineNum =>
      "unknown property '" ++ key ++ "' at line " ++ Itoa lineNum
  | ErrRowOption lineNum =>
      "error at line " ++ Itoa lineNum ++ ", row has no configuration options"
  | ErrDuration lineNum cause =>
      "error at line " ++ Itoa lineNum ++ " while parsing duration of event, " ++ cause
  | ErrTimeFormat input =>
      "unrecognized time format: " ++ input ++ Emitter.nl
      ++ "you might use one of the following formats: ["
      ++ String.concat " " formats ++ "]"
  | ErrUnknownEventProperty key lineNum =>
      "unknown event property '" ++ key ++ "' at line " ++ Itoa lineNum
  | ErrUnknownSection section => "unknown section: " ++ section
  | ErrGenerate err => Emitter.Error err
  end.

(** How a piece of the parser ends: normally, with the error it returns, or
    with a run-time panic. *)
Inductive result (A : Type) : Type :=
| Ok (a : A)
| Fail (err : CfgError)
| Panic.
Arguments Ok {A} a.
Arguments Fail {A} err.
Arguments Panic {A}.

(** *** The parser *)

(** The local variables of [GenerateFromCFG] that live across lines. *)
Record state : Type := mkState {
  tl : Emitter.Timeline;
  margins : Z * Z * Z * Z;
  setMargins : bool;
  currentEvent : option Event;
  currentSection : string;
  lineNum : Z
}.

Definition with_tl (st : state) (tl' : Emitter.Timeline) : state :=
  mkState tl' (margins st) (setMargins st) (currentEvent st) (currentSection st)
          (lineNum st).

Definition with_margins (st : state) (m : Z * Z * Z * Z) : state :=
  mkState (tl st) m true (currentEvent st) (currentSection st) (lineNum st).

Definition with_event (st : state) (e : option Event) : state :=
  mkState (tl st) (margins st) (setMargins st) e (currentSection st) (lineNum st).

Definition with_section (st : state) (s : string) : state :=
  mkState (tl st) (margins st) (setMargins st) (currentEvent st) s (lineNum st).

Definition with_lineNum (st : state) (n : Z) : state :=
  mkState (tl st) (margins st) (setMargins st) (currentEvent st) (currentSection st) n.

(** [row.AddEvent( *currentEvent ); currentEvent = nil]: dereferencing the nil
    pointer is a run-time panic. *)
Definition addCurrentEvent (st : state) : result state :=
  match currentEvent st with
  | None => Panic
  | Some e => Ok (with_event (with_tl st (Emitter.AddEventToLastRow (tl st) e)) None)
  end.

(** The statements after the scanning loop, under the comment [Last event]. *)
Definition lastEvent (st : state) : result state :=
  match Emitter.GetLastRow (tl st) with
  | None => Fail (ErrNoRow (lineNum st))
  | Some _ => addCurrentEvent st
  end.

(** The head of [case '@']: an event of the section that ends is stored. *)
Definition flushEvent (st : state) : result state :=
  match currentEvent st with
  | None => Ok st
  | Some _ =>
      match Emitter.GetLastRow (tl st) with
      | None => Fail (ErrNoRow (lineNum st))
      | Some _ => addCurrentEvent st
      end
  end.

Section Parser.

(** [strconv.Atoi], [time.ParseDuration] and [time.Parse]: the value, or the
    text of the error; and the embedded asset default.css. *)
Variable Atoi : string -> string + Z.
Variable ParseDuration : string -> string + Z.
Variable time_Parse : string -> string -> option Z.
Variable DefaultStyle : string.

(** [parseIntDefault(parts, i, def)]. *)
Definition parseIntDefault (parts : list string) (i def : Z) : Z :=
  if (len parts <=? i)%Z then def
  else match nth_error parts (Z.to_nat i) with
       | Some part => match Atoi part with inr n => n | inl _ => def end
       | None => def
       end.

(** [parseTime(input)]: the first layout that parses. *)
Fixpoint parseTimeWith (layouts : list string) (input : string) : option Z :=
  match layouts with
  | [] => None
  | layout :: layouts' =>
      match time_Parse layout input with
      | Some t => Some t
      | None => parseTimeWith layouts' input
      end
  end.

Definition parseTime (input : string) : CfgError + Z :=
  match parseTimeWith formats input with
  | Some t => inr t
  | None => inl (ErrTimeFormat input)
  end.

Definition setEvent (st : state) (f : Event -> Event) : result state :=
  match currentEvent st with
  | None => Panic
  | Some e => Ok (with_event st (Some (f e)))
  end.

(** [case '@'] of the switch on the first byte. *)
Definition sectionLine (st : state) (parts : list string) : result state :=
  match flushEvent st with
  | Ok st =>
      match parts with
      | [] => Panic
      | section :: _ =>
          let st := with_section st section in
          if String.eqb section "@row" then
            let height := parseIntDefault parts 1 30 in
            let separator := parseIntDefault parts 2 5 in
            Ok (with_tl st (Emitter.AddRow (tl st) height separator))
          else if String.eqb section "@era" then
            Ok (with_event st (Some (mkEvent EventTypeEra EmptyString EmptyString
                                             EmptyString EmptyString 0 0)))
          else if String.eqb section "@task" then
            Ok (with_event st (Some (mkEvent EventTypeTask EmptyString EmptyString
                                             EmptyString EmptyString 0 0)))
          else Ok st
      end
  | other => other
  end.

Definition isNumberKey (key : string) : bool :=
  existsb (String.eqb key)
    ["width"; "num_ticks"; "tick_height"; "margin_top"; "margin_bottom";
     "margin_left"; "margin_right"].

Definition timelineKey (st : state) (key val : string) : result state :=
  if isNumberKey key then
    match Atoi val with
    | inl cause => Fail (ErrNumber (lineNum st) cause)
    | inr x =>
        let '(m0, m1, m2, m3) := margins st in
        if String.eqb key "width" then Ok (with_tl st (Emitter.SetWidth (tl st) x))
        else if String.eqb key "num_ticks" then Ok (with_tl st (Emitter.SetNumTicks (tl st) x))
        else if String.eqb key "tick_height" then Ok (with_tl st (Emitter.SetTickHeight (tl st) x))
        else if String.eqb key "margin_top" then Ok (with_margins st (x, m1, m2, m3))
        else if String.eqb key "margin_right" then Ok (with_margins st (m0, x, m2, m3))
        else if String.eqb key "margin_bottom" then Ok (with_margins st (m0, m1, x, m3))
        else Ok (with_margins st (m0, m1, m2, x))
    end
  else if String.eqb key "id" then Ok (with_tl st (Emitter.SetID (tl st) val))
  else Fail (ErrUnknownProperty key (lineNum st)).

Definition eventKey (st : state) (key val : string) : result state :=
  if String.eqb key "id" then
    setEvent st (fun e => mkEvent (Type_ e) val (Class e) (Text e) (Title e) (Duration e) (Time e))
  else if String.eqb key "class" then
    setEvent st (fun e => mkEvent (Type_ e) (ID e) val (Text e) (Title e) (Duration e) (Time e))
  else if String.eqb key "text" then
    setEvent st (fun e => mkEvent (Type_ e) (ID e) (Class e) val (Title e) (Duration e) (Time e))
  else if String.eqb key "title" then
    setEvent st (fun e => mkEvent (Type_ e) (ID e) (Class e) (Text e) val (Duration e) (Time e))
  else if String.eqb key "duration" then
    match ParseDuration val with
    | inl cause => Fail (ErrDuration (lineNum st) cause)
    | inr dur =>
        setEvent st (fun e => mkEvent (Type_ e) (ID e) (Class e) (Text e) (Title e) dur (Time e))
    end
  else if String.eqb key "time" then
    match parseTime val with
    | inl err => Fail err
    | inr t =>
        setEvent st (fun e => mkEvent (Type_ e) (ID e) (Class e) (Text e) (Title e) (Duration e) t)
    end
  else Fail (ErrUnknownEventProperty key (lineNum st)).

(** [default] of the switch on the first byte: a [key=value] line. *)
Definition keyLine (st : state) (line : string) : result state :=
  let '(key, val, ok) := Cut line (ascii_of_nat 61) in
  if ok then
    let key := TrimSpace key in
    let val := TrimSpace val in
    if String.eqb (currentSection st) "@timeline" then timelineKey st key val
    else if String.eqb (currentSection st) "@row" then Fail (ErrRowOption (lineNum st))
    else if String.eqb (currentSection st) "@task" || String.eqb (currentSection st) "@era"
         then eventKey st key val
    else Fail (ErrUnknownSection (currentSection st))
  else Fail (ErrUnknownValue (lineNum st)).

(** The body of the scanning loop, for one line of the input. *)
Definition scanLine (st : state) (text : string) : result state :=
  let line := TrimSpace text in
  let st := with_lineNum st (Int64.add (lineNum st) 1) in
  match line with
  | EmptyString => Ok st
  | String first _ =>
      if Ascii.eqb first (ascii_of_nat 35) then Ok st
      else if Ascii.eqb first (ascii_of_nat 64) then sectionLine st (Split line (ascii_of_nat 32))
      else keyLine st line
  end.

Fixpoint scanLines (st : state) (lines : list string) : result state :=
  match lines with
  | [] => Ok st
  | text :: lines' =>
      match scanLine st text with
      | Ok st' => scanLines st' lines'
      | other => other
      end
  end.

Definition initial : state :=
  mkState (Emitter.NewTimeline DefaultStyle) (0, 0, 0, 0)%Z false None EmptyString 0.

(** The part of [GenerateFromCFG] between reading the file and calling
    [Generate]: the timeline built from the lines the scanner yields, with
    the style read from the css file ([cssStyle], empty when none is given). *)
Definition parse (lines : list string) (cssStyle : string) : result Emitter.Timeline :=
  match scanLines initial lines with
  | Ok st =>
      match lastEvent st with
      | Ok st =>
          let tl1 :=
            if setMargins st then
              let '(m0, m1, m2, m3) := margins st in
              Emitter.SetMargins (tl st) m0 m1 m2 m3
            else tl st in
          let tl2 :=
            if negb (String.eqb cssStyle EmptyString) then Emitter.SetStyle tl1 cssStyle
            else tl1 in
          Ok tl2
      | Fail err => Fail err
      | Panic => Panic
      end
  | Fail err => Fail err
  | Panic => Panic
  end.

Variable fmt_f : Q -> string.
Variable Duration_String : Z -> string.
Variable defs : string.

(** [GenerateFromCFG], from the contents of its two files on. *)
Definition GenerateFromCFG (lines : list string) (cssStyle : string)
    : outcome (string * option CfgError) :=
  match parse lines cssStyle with
  | Ok t =>
      match Emitter.Generate fmt_f Duration_String defs t with
      | (svg, None) => Returned (svg, None)
      | (_, Some err) => Returned (EmptyString, Some (ErrGenerate err))
      end
  | Fail err => Returned (EmptyString, Some err)
  | Panic => Panics
  end.

End Parser.

End Cfg.

(** * The vocabulary of the statements *)

Module Spec.

Import GoTime Layout.

(** An event has an explicit start time when its [Time] is not the zero
    instant. *)
Definition timed (e : Event) : bool := negb (IsZero (Time e)).

Definition untimed (e : Event) : bool := IsZero (Time e).

Definition negativeDuration (e : Event) : bool := Duration e <? 0.

Definition allEvents (t : Timeline) : list Event := flat_map events (rows t).

(** The origin in the specification's words: the earliest start time over
    the events of the whole timeline that set one ([None] when none does). *)
Definition earlier (o : option Z) (e : Event) : option Z :=
  if timed e then
    match o with
    | None => Some (Time e)
    | Some m => Some (Z.min m (Time e))
    end
  else o.

Definition origin (t : Timeline) : option Z :=
  fold_left earlier (allEvents t) None.

(** An origin, when there is one, is not the zero instant. *)
Definition nonzero (o : option Z) : Prop := forall m, o = Some m -> m <> 0.

(** The instant that stands for an origin in the code: the zero instant when
    there is none. *)
Definition instant (o : option Z) : Z :=
  match o with
  | None => 0
  | Some m => m
  end.

(** The span of a row in the specification's words: the larger of the sum of
    its durations and of [(StartTime - origin) + Duration] over its events
    with an explicit start time. *)
Definition rowSpan (o : option Z) (r : Row) : Z :=
  let total := fold_left Z.add (map Duration (events r)) 0 in
  match o with
  | None => total
  | Some start =>
      fold_left Z.max
                (map (fun e => (Time e - start) + Duration e) (filter timed (events r)))
                total
  end.

Definition maxSpan (t : Timeline) : Z :=
  fold_left Z.max (map (rowSpan (origin t)) (rows t)) 0.

(** No sum the code forms for a span leaves the range of a Duration. *)
Definition fits (t : Timeline) : Prop :=
  forall r : Row,
    In r (rows t) ->
    fold_left Z.add (map Duration (events r)) 0 <= Int64.max_int
    /\ forall (start : Z) (e : Event),
        origin t = Some start -> In e (events r) -> timed e = true ->
        (Time e - start) + Duration e <= Int64.max_int.

(** Pixels per nanosecond. *)
Definition scale (t : Timeline) : Q := (contentWidth t / inject_Z (maxDuration t))%Q.

(** The cursor of a row once the events [pre] are drawn in sequential mode:
    zero at the start of the row, advanced by each duration. *)
Definition cursorAfter (pre : list Event) : Z :=
  fold_left (fun c e => Int64.add c (Duration e)) pre 0.

(** The elapsed time at which the event [e], which follows [pre] in its row,
    is placed: by its own start time when the origin is set (absolute mode),
    by the cursor otherwise (sequential mode). *)
Definition elapsed (t : Timeline) (pre : list Event) (e : Event) : Z :=
  if IsZero (earliest t) then cursorAfter pre else Sub (Time e) (earliest t).

(** Every event of a list, with the events before it. *)
Fixpoint splitsFrom (pre es : list Event) : list (list Event * Event) :=
  match es with
  | [] => []
  | e :: es' => (pre, e) :: splitsFrom (pre ++ [e]) es'
  end.

Definition splits (es : list Event) : list (list Event * Event) := splitsFrom [] es.

(** The drawn element [el] is a group whose rectangle is placed for [e] after
    [pre] by the scale. *)
Definition placed (t : Timeline) (el : Element) (pe : list Event * Event) : Prop :=
  exists x w,
    rectangleOf el = Some (x, w)
    /\ (x == marginLeft t + scale t * inject_Z (elapsed t (fst pe) (snd pe)))%Q
    /\ (w == scale t * inject_Z (Duration (snd pe)))%Q.

(** The axis: its ordinate and the tick marks among the elements of the
    group of ticks. *)
Definition timelineY (t : Timeline) : Z :=
  Int64.add (Int64.add (marginTop t) (contentHeight t)) (tickHeight t).



(** ** Inputs *)

(** 2025-11-01 12:20:50 UTC. *)
Definition T0 : Z := 63897596450 * Second.

Definition task (text : string) (d time : Z) : Event :=
  mkEvent EventTypeTask EmptyString EmptyString text EmptyString d time.

Definition era (text : string) (d time : Z) : Event :=
  mkEvent EventTypeEra EmptyString EmptyString text EmptyString d time.

Definition new : Timeline := NewTimeline EmptyString.

(** A timeline without rows. *)
Definition noRows : Timeline := new.

(** One row, a task of ten seconds and one of minus three. *)
Definition negative : Timeline :=
  AddEventToLastRow
    (AddEventToLastRow (AddRow new 30 5) (task "Long" (10 * Second) 0))
    (task "Short" (- 3 * Second) 0).

(** One row, a task with a start time and one without, the second of a
    negative duration. *)
Definition mixedNegative : Timeline :=
  AddEventToLastRow
    (AddEventToLastRow (AddRow new 30 5) (task "Long" (10 * Second) T0))
    (task "Short" (- 3 * Second) 0).

(** One row, a task with a start time and one without. *)
Definition mixed : Timeline :=
  AddEventToLastRow
    (AddEventToLastRow (AddRow new 30 5) (task "Long" (10 * Second) T0))
    (task "Short" (3 * Second) 0).

(** Three rows, the second without events: a task of four seconds at [T0],
    then one of three seconds at [T0 + 4s]. *)
Definition gap : Timeline :=
  AddEventToLastRow
    (AddRow (AddRow (AddEventToLastRow (AddRow new 30 5) (task "a" (4 * Second) T0))
                    30 5)
            30 5)
    (task "b" (3 * Second) (T0 + 4 * Second)).

(** An era of ten seconds above a row of two tasks of four and three. *)
Definition nested : Timeline :=
  AddEventToLastRow
    (AddEventToLastRow
       (AddRow (AddEventToLastRow (AddRow new 20 0) (era "Process" (10 * Second) 0)) 30 5)
       (task "create" (4 * Second) 0))
    (task "save" (3 * Second) 0).

(** An era of ten seconds at [T0] above a row of two tasks, of ten seconds
    at [T0 + 1s] and of three at [T0 + 10s]. *)
Definition staggered : Timeline :=
  AddEventToLastRow
    (AddEventToLastRow
       (AddRow (AddEventToLastRow (AddRow new 30 5) (era "262_req" (10 * Second) T0)) 30 5)
       (task "Long" (10 * Second) (T0 + Second)))
    (task "Short" (3 * Second) (T0 + 10 * Second)).


(** The row of two tasks of four and three seconds, starting at [t1] and
    [t2], in the configuration [cfg]. *)
Definition twoTasks (cfg : Timeline) (height separatorHeight : Z) (a b : Event)
    (t1 t2 : Z) : Timeline :=
  with_rows cfg
    [ mkRow height separatorHeight
        [ mkEvent EventTypeTask (ID a) (Class a) (Text a) (Title a) (4 * Second) t1;
          mkEvent EventTypeTask (ID b) (Class b) (Text b) (Title b) (3 * Second) t2 ] ].

(** A task whose identifier and tooltip hold a reserved character. *)
Definition marked : Event :=
  mkEvent EventTypeTask "a<b" EmptyString EmptyString "a<b" Second 0.

(** One row holding the task [marked], in the timeline of the string
    generator. *)
Definition markedTimeline : Emitter.Timeline :=
  Emitter.AddEventToLastRow (Emitter.AddRow (Emitter.NewTimeline EmptyString) 30 5) marked.

(** A config file whose last section is a row without events, and one that
    ends in a task. *)
Definition trailingRow : list string :=
  ["@row"; "@task"; "text=build"; "@row"]%string.

Definition trailingTask : list string := ["@row"; "@task"; "text=build"]%string.

(** The text [p] is part of the text [s]. *)
Definition within (p s : string) : Prop :=
  exists before after, s = (before ++ p ++ after)%string.

(** The byte [c] occurs in [s]. *)
Fixpoint occurs (c : ascii) (s : string) : bool :=
  match s with
  | EmptyString => false
  | String c' s' => Ascii.eqb c c' || occurs c s'
  end.

(** Stand-ins for the library functions where an input has to be run. *)
Definition plain_f (q : Q) : string := Itoa (Qfloor q).
Definition plain_d (d : Z) : string := Itoa d.
Definition plain_encode (root : svg) : option string := Some (svg_ViewBox root).

End Spec.

(** * Further vocabulary *)

Module Shape.

Import GoTime Layout Spec.

(** The end of an event, and the latest end over the events that set a start
    time ([None] when none does). *)
Definition endOf (e : Event) : Z := Time e + Duration e.

Definition later (o : option Z) (e : Event) : option Z :=
  if timed e then
    match o with
    | None => Some (endOf e)
    | Some m => Some (Z.max m (endOf e))
    end
  else o.

(** A latest end, when there is one, is after the zero instant. *)
Definition positive (o : option Z) : Prop := forall m, o = Some m -> 0 < m.

(** The total [setup] accumulates over the events, in the arithmetic of a
    Duration. *)
Definition scannedTotal (es : list Event) (total : Z) : Z :=
  fold_left (fun d e => Int64.add d (Duration e)) es total.

Definition positiveDuration (e : Event) : bool := 0 <? Duration e.

(** The start times of a timeline are consistent: no event sets one, or
    every event does. *)
Definition consistentTimes (t : Timeline) : Prop :=
  existsb timed (allEvents t) = false \/ existsb untimed (allEvents t) = false.

(** One row with a task without duration. *)
Definition idle : Timeline :=
  AddEventToLastRow (AddRow new 30 5) (task "Long" 0 0).

(** The sum of the durations of every row fits a Duration. *)
Definition rowsFit (t : Timeline) : Prop :=
  forall r : Row,
    In r (rows t) -> fold_left Z.add (map Duration (events r)) 0 <= Int64.max_int.

(** The groups [Generate] draws for the events of a validated timeline. *)
Definition drawn (fmt_f : Q -> string) (t : Timeline) : list Element :=
  drawRows fmt_f t (rows t) (marginTop t).

(** The drawn element [el] is a group whose rectangle lies between the left
    margin and the right end of the content. *)
Definition inside (t : Timeline) (el : Element) : Prop :=
  exists x w,
    rectangleOf el = Some (x, w)
    /\ (marginLeft t <= x)%Q /\ (0 <= w)%Q
    /\ (x + w <= marginLeft t + contentWidth t)%Q.

(** The ordinate and the height of the rectangle of a drawn group. *)
Definition boxOf (el : Element) : option (Q * Q) :=
  match el with
  | g _ _ els =>
      match filter (fun x => match x with rect _ _ _ _ _ _ _ => true | _ => false end) els with
      | rect _ _ Y _ Height _ _ :: _ => Some (Y, Height)
      | _ => None
      end
  | _ => None
  end.


(** The rows with the ordinate at which each starts, the first at [y]. *)
Fixpoint rowTops (y : Z) (rs : list Row) : list (Z * Row) :=
  match rs with
  | [] => []
  | r :: rs' =>
      (y, r) :: rowTops (Int64.add y (Int64.add (height r) (separatorHeight r))) rs'
  end.

(** The height of an era that starts at the ordinate [y]. *)
Definition eraHeight (t : Timeline) (y : Z) : Z :=
  Int64.sub (Int64.sub (Int64.sub (totalHeight t) y) (marginBottom t))
            (Int64.mul (tickHeight t) 3).

(** The group [el] is drawn for the event [e] of the row [r] that starts at
    the ordinate [y]: its rectangle starts there, with the height of the row
    for a task and the height down to the axis for an era. *)
Definition stacked (t : Timeline) (el : Element) (yre : Z * Row * Event) : Prop :=
  let '(y, r, e) := yre in
  boxOf el
  = Some (inject_Z y,
          inject_Z (match Type_ e with
                    | EventTypeEra => eraHeight t y
                    | EventTypeTask => height r
                    end)).




(** Two rows, the second without events: a task of four seconds at [T0]
    and one of three seconds at [T0 + 10s]. *)
Definition delayed : Timeline :=
  AddRow
    (AddEventToLastRow
       (AddEventToLastRow (AddRow new 30 5) (task "Long" (4 * Second) T0))
       (task "Short" (3 * Second) (T0 + 10 * Second)))
    30 5.

(** The elapsed time of the specification for the event [e] that follows
    [pre] in its row: its start time less the origin when there is one, and
    otherwise the sum of the durations before it. *)
Definition specElapsed (t : Timeline) (pre : list Event) (e : Event) : Z :=
  match origin t with
  | Some start => Time e - start
  | None => fold_left Z.add (map Duration pre) 0
  end.

(** The scale of the specification for the validated timeline [t']: the
    content width over the largest span of [t]. *)
Definition specScale (t t' : Timeline) : Q := (contentWidth t' / inject_Z (maxSpan t))%Q.

(** The drawn element [el] is a group whose rectangle is the one the
    specification gives the event [e] after [pre]. *)
Definition specified (t t' : Timeline) (el : Element) (pe : list Event * Event) : Prop :=
  exists x w,
    rectangleOf el = Some (x, w)
    /\ (x == marginLeft t'
             + specScale t t' * inject_Z (specElapsed t (fst pe) (snd pe)))%Q
    /\ (w == specScale t t' * inject_Z (Duration (snd pe)))%Q.

End Shape.

(** ** Of the string generator *)

Module Markup.

Import Emitter Spec.

Local Open Scope string_scope.

(** What stands for one byte in an escaped text. *)
Definition entity (c : ascii) : string :=
  if Ascii.eqb c amp then "&amp;"
  else if Ascii.eqb c lt then "&lt;"
  else if Ascii.eqb c gt then "&gt;"
  else if Ascii.eqb c quot then "&quot;"
  else if Ascii.eqb c apos then "&apos;"
  else String c EmptyString.

(** None of the five bytes [escapeXML] replaces occurs in [s]. *)
Definition clean (s : string) : Prop :=
  occurs amp s = false /\ occurs lt s = false /\ occurs gt s = false
  /\ occurs quot s = false /\ occurs apos s = false.

(** The timeline of [marked] under an identifier with an ampersand. *)
Definition named : Emitter.Timeline := SetID markedTimeline "a&b".

(** One row, a task of ten seconds and one of minus three, in the
    timelines of the two units of svgtimeline.go. *)
Definition negativeRow : Row :=
  mkRow 30 5 [task "Long" (10 * GoTime.Second) 0; task "Short" (- 3 * GoTime.Second) 0].

Definition negativeConfigured : Configured.Timeline :=
  Configured.AddEventToLastRow
    (Configured.AddEventToLastRow (Configured.AddRow Configured.NewTimeline 30 5)
                                  (task "Long" (10 * GoTime.Second) 0))
    (task "Short" (- 3 * GoTime.Second) 0).

Definition negativeBuilt : Emitter.Timeline :=
  Emitter.AddEventToLastRow
    (Emitter.AddEventToLastRow (Emitter.AddRow (Emitter.NewTimeline EmptyString) 30 5)
                               (task "Long" (10 * GoTime.Second) 0))
    (task "Short" (- 3 * GoTime.Second) 0).

End Markup.

(** ** Of the config parser *)

Module Files.

Import Cfg Spec.

Local Open Scope string_scope.

(** The section a line opens: the first word of a line whose first byte,
    once trimmed, is [@]. *)
Definition sectionOf (text : string) : option string :=
  match TrimSpace text with
  | EmptyString => None
  | String first _ =>
      if Ascii.eqb first (ascii_of_nat 35) then None
      else if Ascii.eqb first (ascii_of_nat 64)
           then hd_error (Split (TrimSpace text) (ascii_of_nat 32))
           else None
  end.


Definition rowLine (text : string) : bool :=
  match sectionOf text with
  | Some s => String.eqb s "@row"
  | None => false
  end.

(** The sections whose keys set the fields of an event. *)
Definition eventSection (s : string) : bool :=
  String.eqb s "@task" || String.eqb s "@era".


(** The line number an error carries. *)
Definition lineOf (err : CfgError) : option Z :=
  match err with
  | ErrNoRow n | ErrUnknownValue n | ErrNumber n _ | ErrUnknownProperty _ n
  | ErrRowOption n | ErrDuration n _ | ErrUnknownEventProperty _ n => Some n
  | ErrTimeFormat _ | ErrUnknownSection _ | ErrGenerate _ => None
  end.

(** The error [err] with the line number [n]. *)
Definition atLine (n : Z) (err : CfgError) : CfgError :=
  match err with
  | ErrNoRow _ => ErrNoRow n
  | ErrUnknownValue _ => ErrUnknownValue n
  | ErrNumber _ cause => ErrNumber n cause
  | ErrUnknownProperty key _ => ErrUnknownProperty key n
  | ErrRowOption _ => ErrRowOption n
  | ErrDuration _ cause => ErrDuration n cause
  | ErrUnknownEventProperty key _ => ErrUnknownEventProperty key n
  | ErrTimeFormat _ | ErrUnknownSection _ | ErrGenerate _ => err
  end.

(** An event is pending. *)
Definition pending (st : state) : bool :=
  match currentEvent st with
  | Some _ => true
  | None => false
  end.

(** An event is pending exactly in the sections of an event. *)
Definition pendingInEventSections (st : state) : Prop :=
  pending st = eventSection (currentSection st).

(** The height and the separator of a row. *)
Definition dims (r : Row) : Z * Z := (height r, separatorHeight r).

(** The height and the separator a row line asks for. *)
Definition rowDims (Atoi : string -> string + Z) (text : string) : Z * Z :=
  let parts := Split (TrimSpace text) (ascii_of_nat 32) in
  (parseIntDefault Atoi parts 1 30, parseIntDefault Atoi parts 2 5).














Definition rowWithKey : list string := ["@row"; "height=3"].




(** Stand-ins for the library functions where an input has to be run. *)
Definition plain_Atoi (s : string) : string + Z :=
  match NilZero.int_of_string s with
  | Some i => inr (Z.of_int i)
  | None => inl "invalid syntax"
  end.
Definition plain_ParseDuration (s : string) : string + Z :=
  match NilZero.int_of_string s with
  | Some i => inr (Z.of_int i)
  | None => inl "invalid duration"
  end.
Definition plain_Parse (layout input : string) : option Z := None.

End Files.

(** ** Case analysis along the branches of a function *)

Ltac split_on H :=
  repeat match type of H with
         | context [match ?x with _ => _ end] =>
             lazymatch x with
             | context [match _ with _ => _ end] => fail
             | _ => destruct x eqn:?
             end
         end.


(** * Facts *)

(** ** 64-bit integers *)

Module Int64Facts.

Import Int64.

Lemma wrap_in_range z : in_range (wrap z).
Proof.
unfold in_range, wrap, min_int, max_int.
pose proof (Z.mod_pos_bound (z + 2 ^ 63) (2 ^ 64) ltac:(lia)). lia.
Qed.

Lemma wrap_small z : in_range z -> wrap z = z.
Proof.
unfold in_range, wrap, min_int, max_int. intros H.
rewrite Z.mod_small by lia. lia.
Qed.

Lemma clamp_in_range z : in_range (clamp z).
Proof.
unfold in_range, clamp.
destruct (Z.ltb_spec z min_int); [unfold min_int, max_int; lia|].
destruct (Z.ltb_spec max_int z); unfold min_int, max_int in *; lia.
Qed.

Lemma clamp_small z : in_range z -> clamp z = z.
Proof.
unfold in_range, clamp. intros H.
destruct (Z.ltb_spec z min_int); [lia|].
destruct (Z.ltb_spec max_int z); lia.
Qed.

Lemma add_small a b : in_range (a + b) -> add a b = a + b.
Proof. apply wrap_small. Qed.

Lemma add_in_range a b : in_range (add a b).
Proof. apply wrap_in_range. Qed.

End Int64Facts.

(** ** timeline.go *)

Module LayoutFacts.

Import GoTime Layout Spec.

(** *** Row access *)

Lemma len_nonneg {A : Type} (s : list A) : 0 <= len s.
Proof. unfold len. lia. Qed.

(** Inside the bounds [GetRowByIndex] returns the row, from the length on it
    returns nil. *)
Lemma GetRowByIndex_in_bounds (t : Timeline) (i : Z) :
  0 <= i ->
  GetRowByIndex t i
  = Returned (if i <? len (rows t) then nth_error (rows t) (Z.to_nat i) else None).
Proof.
  intros Hi. unfold GetRowByIndex, index, len.
  destruct (Z.geb_spec i (Z.of_nat (List.length (rows t)))) as [Hge | Hlt].
  - destruct (Z.ltb_spec i (Z.of_nat (List.length (rows t)))); [lia | reflexivity].
  - destruct (Z.ltb_spec i (Z.of_nat (List.length (rows t)))); [| lia].
    destruct (Z.ltb_spec i 0); [lia |].
    destruct (nth_error (rows t) (Z.to_nat i)) eqn:E; [reflexivity |].
    apply nth_error_None in E. lia.
Qed.

(** C10.  [GetRowByIndex] is not total: at the index -1 the guard
    [i >= len(t.rows)] does not hold, whatever the rows are, and the slice
    access that follows stops with a run-time panic instead of returning
    nil; this holds in timeline.go and in svgtimeline.go alike. *)
Theorem GetRowByIndex_negative_index_panics :
  (forall t : Layout.Timeline, Layout.GetRowByIndex t (-1) = Panics)
  /\ (forall t : Emitter.Timeline, Emitter.GetRowByIndex t (-1) = Panics).
Proof.
  split; intros t.
  - unfold Layout.GetRowByIndex.
    pose proof (len_nonneg (Layout.rows t)).
    destruct (Z.geb_spec (-1) (len (Layout.rows t))); [lia | reflexivity].
  - unfold Emitter.GetRowByIndex.
    pose proof (len_nonneg (Emitter.rows t)).
    destruct (Z.geb_spec (-1) (len (Emitter.rows t))); [lia | reflexivity].
Qed.

(** *** Validation *)

(** The scan of [setup] stops at the first negative duration; otherwise it
    records whether some event is timed and whether some is not. *)
Lemma scanEvents_spec (es : list Event) (s : scan) :
  if existsb negativeDuration es
  then scanEvents es s = inl ErrNegativeDuration
  else exists d,
      scanEvents es s
      = inr (mkScan (hasTime s || existsb timed es)
                    (hasNoTime s || existsb untimed es) d)
      /\ (es = [] -> d = duration s).
Proof.
  revert s. induction es as [| e es IH]; intros s; simpl.
  - exists (duration s). rewrite !orb_false_r. destruct s; auto.
  - unfold negativeDuration at 1, timed at 1, untimed at 1.
    destruct (Duration e <? 0); simpl; [reflexivity |].
    destruct (IsZero (Time e)); simpl.
    + specialize (IH (mkScan (hasTime s) true (Int64.add (duration s) (Duration e)))).
      destruct (existsb negativeDuration es); [exact IH |].
      destruct IH as [d [IH _]]. exists d. simpl in IH. rewrite IH.
      rewrite orb_true_r. split; [reflexivity | discriminate].
    + specialize (IH (mkScan true (hasNoTime s) (Int64.add (duration s) (Duration e)))).
      destruct (existsb negativeDuration es); [exact IH |].
      destruct IH as [d [IH _]]. exists d. simpl in IH. rewrite IH.
      rewrite orb_true_r. split; [reflexivity | discriminate].
Qed.

Lemma scanRows_flat (rs : list Row) (s : scan) :
  scanRows rs s = scanEvents (flat_map events rs) s.
Proof.
  revert s. induction rs as [| r rs IH]; intros s; simpl; [reflexivity |].
  generalize (events r). intros es. revert s.
  induction es as [| e es IHes]; intros s; simpl; [apply IH |].
  destruct (Duration e <? 0); [reflexivity |].
  destruct (IsZero (Time e)); apply IHes.
Qed.

Lemma existsb_allEvents (f : Event -> bool) (t : Timeline) (r : Row) (e : Event) :
  In r (rows t) -> In e (events r) -> f e = true -> existsb f (allEvents t) = true.
Proof.
  intros Hr He Hf. apply existsb_exists. exists e. split; [| exact Hf].
  unfold allEvents. apply in_flat_map. exists r. auto.
Qed.

Lemma setup_negative (t : Timeline) :
  existsb negativeDuration (allEvents t) = true -> setup t = inl ErrNegativeDuration.
Proof.
  intros H. unfold setup. rewrite scanRows_flat.
  pose proof (scanEvents_spec (allEvents t) (mkScan false false 0)) as S.
  unfold allEvents in *. rewrite H in S. rewrite S. reflexivity.
Qed.

Lemma Generate_of_setup_error fmt_f Duration_String Encode (t : Timeline) err :
  setup t = inl err ->
  Generate fmt_f Duration_String Encode t = (EmptyString, Some (SetupFailed err)).
Proof. intros H. unfold Generate. rewrite H. reflexivity. Qed.

(** X29.  In timeline.go a timeline one of whose events has a negative
    duration is refused by [setup] with the negative-duration error,
    whatever its start times and its total are (the check comes first),
    and [Generate] returns the empty document with that error. *)
Theorem negative_duration_is_refused_first
    fmt_f Duration_String Encode (t : Timeline) (r : Row) (e : Event) :
  In r (rows t) -> In e (events r) -> Duration e < 0 ->
  exists err,
    setup t = inl err
    /\ Generate fmt_f Duration_String Encode t = (EmptyString, Some (SetupFailed err))
    /\ kindOf err = NegativeDurationError.
Proof.
  intros Hr He Hd. exists ErrNegativeDuration.
  assert (S : setup t = inl ErrNegativeDuration).
  { apply setup_negative. apply (existsb_allEvents _ t r e Hr He).
    unfold negativeDuration. apply Z.ltb_lt. exact Hd. }
  split; [exact S |]. split; [| reflexivity].
  apply Generate_of_setup_error. exact S.
Qed.

Lemma negative_duration_is_refused_first_witness :
  exists r e,
    In r (rows mixedNegative) /\ In e (events r) /\ Duration e < 0
    /\ exists err,
        setup mixedNegative = inl err
        /\ Generate plain_f plain_d plain_encode mixedNegative
           = (EmptyString, Some (SetupFailed err))
        /\ kindOf err = NegativeDurationError.
Proof.
  exists (mkRow 30 5 [task "Long" (10 * Second) T0; task "Short" (- 3 * Second) 0]).
  exists (task "Short" (- 3 * Second) 0).
  assert (Hr : In (mkRow 30 5 [task "Long" (10 * Second) T0; task "Short" (- 3 * Second) 0])
                  (rows mixedNegative)) by (left; reflexivity).
  assert (He : In (task "Short" (- 3 * Second) 0)
                  (events (mkRow 30 5 [task "Long" (10 * Second) T0;
                                       task "Short" (- 3 * Second) 0])))
    by (right; left; reflexivity).
  assert (Hd : Duration (task "Short" (- 3 * Second) 0) < 0) by (vm_compute; reflexivity).
  split; [exact Hr |]. split; [exact He |]. split; [exact Hd |].
  exact (negative_duration_is_refused_first plain_f plain_d plain_encode
           mixedNegative _ _ Hr He Hd).
Defined.

Lemma setup_no_rows (t : Timeline) :
  rows t = [] -> setup t = inl ErrNoPositiveDuration.
Proof. intros H. unfold setup. rewrite H. reflexivity. Qed.

(** C4, as the code has it.  A timeline without rows is refused, and
    [Generate] returns the empty document; the error is the one of the
    zero-total check, "none of the events has a positive duration":
    [setup] has three checks and none of its own for the absence of rows. *)
Theorem no_rows_is_refused_by_the_zero_total_check
    fmt_f Duration_String Encode (t : Timeline) :
  rows t = [] ->
  exists err,
    setup t = inl err
    /\ Generate fmt_f Duration_String Encode t = (EmptyString, Some (SetupFailed err))
    /\ kindOf err = NoPositiveDurationError.
Proof.
  intros H. exists ErrNoPositiveDuration.
  pose proof (setup_no_rows t H) as S.
  split; [exact S |]. split; [| reflexivity].
  apply Generate_of_setup_error. exact S.
Qed.

Lemma no_rows_is_refused_by_the_zero_total_check_witness :
  rows noRows = []
  /\ exists err,
      setup noRows = inl err
      /\ Generate plain_f plain_d plain_encode noRows
         = (EmptyString, Some (SetupFailed err))
      /\ kindOf err = NoPositiveDurationError.
Proof.
  split; [reflexivity |].
  apply (no_rows_is_refused_by_the_zero_total_check plain_f plain_d plain_encode noRows).
  reflexivity.
Defined.

(** C4, as stated, fails on the timeline [NewTimeline()] returns: generation
    fails there, but not with an error of the kind [EmptyTimelineError]. *)
Lemma no_rows_is_not_an_empty_timeline_error :
  rows noRows = []
  /\ exists err,
      Generate plain_f plain_d plain_encode noRows
      = (EmptyString, Some (SetupFailed err))
      /\ kindOf err <> EmptyTimelineError.
Proof.
  split; [reflexivity |].
  exists ErrNoPositiveDuration. split; [reflexivity | discriminate].
Qed.

Lemma no_negative_duration (t : Timeline) :
  (forall r e, In r (rows t) -> In e (events r) -> 0 <= Duration e) ->
  existsb negativeDuration (allEvents t) = false.
Proof.
  intros H. destruct (existsb negativeDuration (allEvents t)) eqn:E; [| reflexivity].
  apply existsb_exists in E. destruct E as [e [He Hn]].
  unfold allEvents in He. apply in_flat_map in He. destruct He as [r [Hr He]].
  specialize (H r e Hr He). unfold negativeDuration in Hn.
  apply Z.ltb_lt in Hn. lia.
Qed.

(** C7, as the code has it.  When no event has a negative duration, a
    timeline with an event that sets its start time and an event that does
    not, in whichever rows and of whichever kinds, is refused with the
    inconsistent-time error, and [Generate] returns the empty document. *)
Theorem mixed_start_times_are_refused
    fmt_f Duration_String Encode (t : Timeline) (r1 r2 : Row) (e1 e2 : Event) :
  (forall r e, In r (rows t) -> In e (events r) -> 0 <= Duration e) ->
  In r1 (rows t) -> In e1 (events r1) -> Time e1 <> 0 ->
  In r2 (rows t) -> In e2 (events r2) -> Time e2 = 0 ->
  exists err,
    setup t = inl err
    /\ Generate fmt_f Duration_String Encode t = (EmptyString, Some (SetupFailed err))
    /\ kindOf err = InconsistentTimeModeError.
Proof.
  intros Hpos Hr1 He1 Ht1 Hr2 He2 Ht2. exists ErrInconsistentTime.
  assert (S : setup t = inl ErrInconsistentTime).
  { unfold setup. rewrite scanRows_flat.
    pose proof (scanEvents_spec (allEvents t) (mkScan false false 0)) as S.
    rewrite (no_negative_duration t Hpos) in S. destruct S as [d [S _]].
    unfold allEvents in S. rewrite S. simpl.
    assert (H1 : existsb timed (allEvents t) = true).
    { apply (existsb_allEvents timed t r1 e1 Hr1 He1).
      unfold timed, IsZero. apply negb_true_iff. apply Z.eqb_neq. exact Ht1. }
    assert (H2 : existsb untimed (allEvents t) = true).
    { apply (existsb_allEvents untimed t r2 e2 Hr2 He2).
      unfold untimed, IsZero. apply Z.eqb_eq. exact Ht2. }
    unfold allEvents in H1, H2. rewrite H1, H2. reflexivity. }
  split; [exact S |]. split; [| reflexivity].
  apply Generate_of_setup_error. exact S.
Qed.

Lemma mixed_start_times_are_refused_witness :
  exists r e1 e2,
    (forall r' e, In r' (rows mixed) -> In e (events r') -> 0 <= Duration e)
    /\ In r (rows mixed) /\ In e1 (events r) /\ Time e1 <> 0
    /\ In e2 (events r) /\ Time e2 = 0
    /\ exists err,
        setup mixed = inl err
        /\ Generate plain_f plain_d plain_encode mixed
           = (EmptyString, Some (SetupFailed err))
        /\ kindOf err = InconsistentTimeModeError.
Proof.
  exists (mkRow 30 5 [task "Long" (10 * Second) T0; task "Short" (3 * Second) 0]).
  exists (task "Long" (10 * Second) T0), (task "Short" (3 * Second) 0).
  assert (Hpos : forall r' e, In r' (rows mixed) -> In e (events r') -> 0 <= Duration e).
  { intros r' e [Hr | []] He. subst r'.
    destruct He as [He | [He | []]]; subst e; vm_compute; discriminate. }
  assert (Hr : In (mkRow 30 5 [task "Long" (10 * Second) T0; task "Short" (3 * Second) 0])
                  (rows mixed)) by (left; reflexivity).
  assert (He1 : In (task "Long" (10 * Second) T0)
                   (events (mkRow 30 5 [task "Long" (10 * Second) T0;
                                        task "Short" (3 * Second) 0])))
    by (left; reflexivity).
  assert (He2 : In (task "Short" (3 * Second) 0)
                   (events (mkRow 30 5 [task "Long" (10 * Second) T0;
                                        task "Short" (3 * Second) 0])))
    by (right; left; reflexivity).
  assert (Ht1 : Time (task "Long" (10 * Second) T0) <> 0) by (vm_compute; discriminate).
  assert (Ht2 : Time (task "Short" (3 * Second) 0) = 0) by reflexivity.
  split; [exact Hpos |]. split; [exact Hr |]. split; [exact He1 |].
  split; [exact Ht1 |]. split; [exact He2 |]. split; [exact Ht2 |].
  exact (mixed_start_times_are_refused plain_f plain_d plain_encode mixed
           _ _ _ _ Hpos Hr He1 Ht1 Hr He2 Ht2).
Defined.

(** C7, as stated, fails on a row that mixes a timed and an untimed event
    when the untimed one has a negative duration: the error is the one of
    the first check. *)
Lemma mixed_start_times_behind_a_negative_duration :
  (exists r e1 e2,
      In r (rows mixedNegative) /\ In e1 (events r) /\ In e2 (events r)
      /\ Time e1 <> 0 /\ Time e2 = 0)
  /\ exists err,
      Generate plain_f plain_d plain_encode mixedNegative
      = (EmptyString, Some (SetupFailed err))
      /\ kindOf err <> InconsistentTimeModeError.
Proof.
  split.
  - exists (mkRow 30 5 [task "Long" (10 * Second) T0; task "Short" (- 3 * Second) 0]).
    exists (task "Long" (10 * Second) T0), (task "Short" (- 3 * Second) 0).
    split; [left; reflexivity |]. split; [left; reflexivity |].
    split; [right; left; reflexivity |].
    split; [vm_compute; discriminate | reflexivity].
  - exists ErrNegativeDuration. split; [reflexivity | discriminate].
Qed.

(** *** Placement of the events *)

(** What [drawEvent] draws and returns: the rectangle of the group starts at
    the elapsed time it used, and the cursor moves in sequential mode only. *)
Lemma drawEvent_rectangle fmt_f (t : Timeline) (e : Event) (y h c : Z) :
  rectangleOf (fst (drawEvent fmt_f t e y h c))
  = Some ((marginLeft t
           + contentWidth t
             * inject_Z (if IsZero (earliest t) then c else Sub (Time e) (earliest t))
             / inject_Z (maxDuration t))%Q,
          (contentWidth t * inject_Z (Duration e) / inject_Z (maxDuration t))%Q)
  /\ snd (drawEvent fmt_f t e y h c)
     = if IsZero (earliest t) then Int64.add c (Duration e)
       else Sub (Time e) (earliest t).
Proof.
  unfold drawEvent.
  destruct (IsZero (earliest t)); simpl;
    destruct (String.eqb (Title e) EmptyString); simpl; split; reflexivity.
Qed.

Lemma scale_times (t : Timeline) (d : Z) :
  (contentWidth t * inject_Z d / inject_Z (maxDuration t) == scale t * inject_Z d)%Q.
Proof. unfold scale, Qdiv. ring. Qed.

Lemma cursorAfter_snoc (pre : list Event) (e : Event) :
  cursorAfter (pre ++ [e]) = Int64.add (cursorAfter pre) (Duration e).
Proof. unfold cursorAfter. rewrite fold_left_app. reflexivity. Qed.

Lemma drawEvents_placed fmt_f (t : Timeline) (y h : Z) (es : list Event) :
  forall (pre : list Event) (c : Z),
    (IsZero (earliest t) = true -> c = cursorAfter pre) ->
    Forall2 (placed t) (drawEvents fmt_f t y h es c) (splitsFrom pre es).
Proof.
  induction es as [| e es IH]; intros pre c Hc; cbn [drawEvents splitsFrom];
    [constructor |].
  destruct (drawEvent_rectangle fmt_f t e y h c) as [Hrect Hcur].
  destruct (drawEvent fmt_f t e y h c) as [group c'] eqn:E.
  cbn [fst snd] in Hrect, Hcur.
  constructor.
  - unfold placed, elapsed. cbn [fst snd].
    eexists. eexists. split; [exact Hrect |].
    split.
    + rewrite scale_times.
      destruct (IsZero (earliest t)); [rewrite (Hc eq_refl) |]; reflexivity.
    + apply scale_times.
  - apply IH. intros Hz. rewrite Hcur, Hz, (Hc Hz). symmetry. apply cursorAfter_snoc.
Qed.

Lemma drawRows_placed fmt_f (t : Timeline) (rs : list Row) :
  forall y : Z,
    Forall2 (placed t) (drawRows fmt_f t rs y)
            (if maxDuration t <=? 0 then []
             else flat_map (fun r => splits (events r)) rs).
Proof.
  induction rs as [| r rs IH]; intros y; simpl.
  - destruct (maxDuration t <=? 0); constructor.
  - specialize (IH (Int64.add y (Int64.add (height r) (separatorHeight r)))).
    destruct (maxDuration t <=? 0); [constructor |].
    apply Forall2_app; [| exact IH].
    apply drawEvents_placed. reflexivity.
Qed.

(** The elements of the document: the definitions, the background, the
    groups of the events, the axis and the group of ticks. *)
Lemma root_elements fmt_f Duration_String (t : Timeline) :
  exists defs background axis,
    svg_Elements (root fmt_f Duration_String t)
    = [defs; background]
      ++ drawRows fmt_f t (rows t) (marginTop t)
      ++ [axis; g EmptyString "tl-ticks" (ticks Duration_String t (timelineY t))].
Proof. do 3 eexists. reflexivity. Qed.

(** *** Two tasks, with and without start times *)

Lemma drawEvents_cons fmt_f (t : Timeline) (y h c : Z) (e : Event) (es : list Event) :
  drawEvents fmt_f t y h (e :: es) c
  = fst (drawEvent fmt_f t e y h c)
    :: drawEvents fmt_f t y h es (snd (drawEvent fmt_f t e y h c)).
Proof. cbn [drawEvents]. destruct (drawEvent fmt_f t e y h c). reflexivity. Qed.

Lemma twoTasks_absolute (cfg : Timeline) (h s : Z) (a b : Event) (T : Z) :
  T <> 0 -> T + 4 * Second <> 0 ->
  StartTime (twoTasks cfg h s a b T (T + 4 * Second)) = T
  /\ MaxDuration (twoTasks cfg h s a b T (T + 4 * Second)) = 7 * Second
  /\ setup (twoTasks cfg h s a b T (T + 4 * Second))
     = inr (initialise (twoTasks cfg h s a b T (T + 4 * Second))).
Proof.
  intros H1 H2.
  assert (Z1 : IsZero T = false) by (apply Z.eqb_neq; exact H1).
  assert (Z2 : IsZero (T + 4 * Second) = false) by (apply Z.eqb_neq; exact H2).
  set (tl := twoTasks cfg h s a b T (T + 4 * Second)).
  assert (R : rows tl
              = [ mkRow h s
                    [ mkEvent EventTypeTask (ID a) (Class a) (Text a) (Title a) (4 * Second) T;
                      mkEvent EventTypeTask (ID b) (Class b) (Text b) (Title b) (3 * Second)
                              (T + 4 * Second) ] ]) by reflexivity.
  assert (S : StartTime tl = T).
  { unfold StartTime. rewrite R.
    unfold StartTime_step, Row_StartTime, Row_StartTime_step.
    cbn [fold_left events Time]. rewrite Z1, Z2. cbn [IsZero Z.eqb orb].
    unfold Before. destruct (Z.ltb_spec (T + 4 * Second) T) as [L|L].
    - unfold Second in L. lia.
    - rewrite Z1. reflexivity. }
  assert (M : MaxDuration tl = 7 * Second).
  { unfold MaxDuration. rewrite R. cbn [fold_left]. unfold MaxDuration_step. rewrite S.
    unfold TotalDuration, TotalDuration_step. cbn [fold_left events Time Duration].
    rewrite Z1, Z2. cbn [negb andb]. unfold Sub.
    rewrite Z.sub_diag. replace (T + 4 * Second - T) with (4 * Second) by lia.
    reflexivity. }
  split; [exact S |]. split; [exact M |].
  unfold setup. rewrite R. cbn [scanRows scanEvents events Duration Time].
  rewrite Z1, Z2. reflexivity.
Qed.

Lemma twoTasks_sequential (cfg : Timeline) (h s : Z) (a b : Event) :
  StartTime (twoTasks cfg h s a b 0 0) = 0
  /\ MaxDuration (twoTasks cfg h s a b 0 0) = 7 * Second
  /\ setup (twoTasks cfg h s a b 0 0) = inr (initialise (twoTasks cfg h s a b 0 0)).
Proof. repeat split. Qed.

Lemma two_events_rectangles fmt_f (t : Timeline) (h s y : Z) (e1 e2 : Event) :
  0 < maxDuration t ->
  map rectangleOf (drawRows fmt_f t [mkRow h s [e1; e2]] y)
  = [ Some ((marginLeft t
             + contentWidth t
               * inject_Z (if IsZero (earliest t) then 0 else Sub (Time e1) (earliest t))
               / inject_Z (maxDuration t))%Q,
            (contentWidth t * inject_Z (Duration e1) / inject_Z (maxDuration t))%Q);
      Some ((marginLeft t
             + contentWidth t
               * inject_Z (if IsZero (earliest t) then Int64.add 0 (Duration e1)
                           else Sub (Time e2) (earliest t))
               / inject_Z (maxDuration t))%Q,
            (contentWidth t * inject_Z (Duration e2) / inject_Z (maxDuration t))%Q) ].
Proof.
  intros Hm. cbn [drawRows].
  destruct (Z.leb_spec (maxDuration t) 0) as [L | _]; [lia |].
  cbn [events height]. rewrite !drawEvents_cons. cbn [drawEvents app map].
  rewrite (proj1 (drawEvent_rectangle fmt_f t e1 y h 0)).
  rewrite (proj2 (drawEvent_rectangle fmt_f t e1 y h 0)).
  rewrite (proj1 (drawEvent_rectangle fmt_f t e2 y h _)).
  destruct (IsZero (earliest t)); reflexivity.
Qed.

(** C9.  One row of two tasks of four and three seconds, in any
    configuration: with the start times [T] and [T + 4s] and with no start
    times both timelines are valid, and the two rectangles drawn have the
    same [x] and the same [width] in the one and in the other. *)
Theorem explicit_and_sequential_placement_agree
    fmt_f (cfg : Timeline) (h s : Z) (a b : Event) (T : Z) :
  T <> 0 -> T + 4 * Second <> 0 ->
  exists ta ts x1 w1 x2 w2,
    setup (twoTasks cfg h s a b T (T + 4 * Second)) = inr ta
    /\ setup (twoTasks cfg h s a b 0 0) = inr ts
    /\ map rectangleOf (drawRows fmt_f ta (rows ta) (marginTop ta))
       = [Some (x1, w1); Some (x2, w2)]
    /\ map rectangleOf (drawRows fmt_f ts (rows ts) (marginTop ts))
       = [Some (x1, w1); Some (x2, w2)].
Proof.
  intros H1 H2.
  destruct (twoTasks_absolute cfg h s a b T H1 H2) as [Sa [Ma Ea]].
  destruct (twoTasks_sequential cfg h s a b) as [Ss [Ms Es]].
  exists (initialise (twoTasks cfg h s a b T (T + 4 * Second))).
  exists (initialise (twoTasks cfg h s a b 0 0)).
  do 4 eexists. split; [exact Ea |]. split; [exact Es |].
  assert (Z1 : IsZero T = false) by (apply Z.eqb_neq; exact H1).
  split.
  - cbn [rows initialise twoTasks with_rows marginTop].
    rewrite two_events_rectangles.
    + cbn [earliest maxDuration contentWidth marginLeft initialise].
      fold (twoTasks cfg h s a b T (T + 4 * Second)).
      rewrite Sa, Ma, Z1. cbn [Time Duration]. unfold Sub.
      rewrite Z.sub_diag. replace (T + 4 * Second - T) with (4 * Second) by lia.
      reflexivity.
    + cbn [maxDuration initialise]. fold (twoTasks cfg h s a b T (T + 4 * Second)).
      rewrite Ma. reflexivity.
  - cbn [rows initialise twoTasks with_rows marginTop].
    rewrite two_events_rectangles.
    + cbn [earliest maxDuration contentWidth marginLeft initialise].
      fold (twoTasks cfg h s a b 0 0).
      rewrite Ss, Ms. cbn [Time Duration]. 
      reflexivity.
    + cbn [maxDuration initialise]. fold (twoTasks cfg h s a b 0 0).
      rewrite Ms. reflexivity.
Qed.

Lemma explicit_and_sequential_placement_agree_witness :
  T0 <> 0 /\ T0 + 4 * Second <> 0
  /\ exists ta ts x1 w1 x2 w2,
      setup (twoTasks new 30 5 (task "create" 0 0) (task "save" 0 0) T0 (T0 + 4 * Second))
      = inr ta
      /\ setup (twoTasks new 30 5 (task "create" 0 0) (task "save" 0 0) 0 0) = inr ts
      /\ map rectangleOf (drawRows plain_f ta (rows ta) (marginTop ta))
         = [Some (x1, w1); Some (x2, w2)]
      /\ map rectangleOf (drawRows plain_f ts (rows ts) (marginTop ts))
         = [Some (x1, w1); Some (x2, w2)].
Proof.
  assert (H1 : T0 <> 0) by (vm_compute; discriminate).
  assert (H2 : T0 + 4 * Second <> 0) by (vm_compute; discriminate).
  split; [exact H1 |]. split; [exact H2 |].
  exact (explicit_and_sequential_placement_agree plain_f new 30 5
           (task "create" 0 0) (task "save" 0 0) T0 H1 H2).
Defined.

(** *** The ticks *)

Lemma TotalDuration_in_range (r : Row) (o : Z) : Int64.in_range (TotalDuration r o).
Proof.
  unfold TotalDuration.
  assert (H : forall es acc,
             Int64.in_range (fst acc) -> Int64.in_range (snd acc) ->
             Int64.in_range (fst (fold_left (TotalDuration_step o) es acc))
             /\ Int64.in_range (snd (fold_left (TotalDuration_step o) es acc))).
  { induction es as [| e es IH]; intros [total m] Ht Hm; cbn [fold_left]; [auto |].
    apply IH; unfold TotalDuration_step;
      destruct (negb (IsZero o) && negb (IsZero (Time e)));
      try destruct (_ >? m); cbn [fst snd];
      try apply Int64Facts.add_in_range; assumption. }
  specialize (H (events r) (0, 0)).
  destruct (fold_left (TotalDuration_step o) (events r) (0, 0)) as [total m].
  cbn [fst snd] in H.
  destruct H as [Ht Hm]; [unfold Int64.in_range, Int64.min_int, Int64.max_int; lia ..|].
  unfold Int64.in_range in *. lia.
Qed.

Lemma MaxDuration_in_range (t : Timeline) : Int64.in_range (MaxDuration t).
Proof.
  unfold MaxDuration.
  assert (H : forall rs m, Int64.in_range m ->
                           Int64.in_range (fold_left (MaxDuration_step t) rs m)).
  { induction rs as [| r rs IH]; intros m Hm; cbn [fold_left]; [exact Hm |].
    apply IH. unfold MaxDuration_step.
    destruct (_ >? m); [apply TotalDuration_in_range | exact Hm]. }
  apply H. unfold Int64.in_range, Int64.min_int, Int64.max_int. lia.
Qed.

Lemma setup_fields (t t' : Timeline) :
  setup t = inr t' -> t' = initialise t.
Proof.
  unfold setup. destruct (scanRows (rows t) _) as [err | s]; [discriminate |].
  destruct (hasTime s && hasNoTime s); [discriminate |].
  destruct (duration s =? 0); [discriminate |].
  intros H. injection H as H. symmetry. exact H.
Qed.











(** *** The origin and the spans *)

Lemma earlier_nonzero (o : option Z) (e : Event) :
  nonzero o -> nonzero (earlier o e).
Proof.
  unfold nonzero, earlier, timed, IsZero. intros H m.
  destruct (Z.eqb_spec (Time e) 0) as [E | N]; cbn [negb]; [apply H |].
  destruct o as [a |]; intros [= <-]; [| exact N].
  specialize (H a eq_refl). lia.
Qed.

Lemma fold_earlier_nonzero (es : list Event) (o : option Z) :
  nonzero o -> nonzero (fold_left earlier es o).
Proof.
  revert o. induction es as [| e es IH]; intros o H; cbn [fold_left]; [exact H |].
  apply IH, earlier_nonzero, H.
Qed.

(** The loop of [Row.StartTime] keeps the earliest start time seen. *)
Lemma Row_StartTime_step_earlier (o : option Z) (e : Event) :
  nonzero o -> Row_StartTime_step (instant o) e = instant (earlier o e).
Proof.
  intros H. unfold Row_StartTime_step, earlier, timed.
  destruct (IsZero (Time e)); cbn [negb]; [reflexivity |].
  destruct o as [a |]; cbn [instant]; [| reflexivity].
  specialize (H a eq_refl). unfold IsZero, Before.
  destruct (Z.eqb_spec a 0); [contradiction |]. cbn [orb].
  destruct (Z.ltb_spec (Time e) a); lia.
Qed.

Lemma Row_StartTime_fold (es : list Event) (o : option Z) :
  nonzero o ->
  fold_left Row_StartTime_step es (instant o) = instant (fold_left earlier es o).
Proof.
  revert o. induction es as [| e es IH]; intros o H; cbn [fold_left]; [reflexivity |].
  rewrite Row_StartTime_step_earlier by exact H.
  apply IH, earlier_nonzero, H.
Qed.

Lemma nonzero_None : nonzero None.
Proof. intros m H. discriminate. Qed.

Lemma Row_StartTime_earliest (r : Row) :
  Row_StartTime r = instant (fold_left earlier (events r) None).
Proof. apply (Row_StartTime_fold (events r) None nonzero_None). Qed.

(** Starting the minimum from [a] or joining [a] afterwards is the same. *)
Lemma fold_earlier_from (es : list Event) (a : Z) :
  fold_left earlier es (Some a)
  = Some (match fold_left earlier es None with
          | None => a
          | Some m => Z.min a m
          end).
Proof.
  revert a. induction es as [| e es IH]; intros a; cbn [fold_left]; [reflexivity |].
  unfold earlier at 2 4. destruct (timed e); [| apply IH].
  rewrite !IH. destruct (fold_left earlier es None); f_equal; lia.
Qed.

Lemma fold_earlier_untimed (es : list Event) (o : option Z) :
  existsb timed es = false -> fold_left earlier es o = o.
Proof.
  revert o. induction es as [| e es IH]; intros o H; cbn [fold_left]; [reflexivity |].
  cbn [existsb] in H. apply orb_false_iff in H. destruct H as [He H].
  unfold earlier at 2. rewrite He. apply IH, H.
Qed.

Lemma fold_earlier_timed (es : list Event) :
  existsb timed es = true -> exists m, fold_left earlier es None = Some m.
Proof.
  induction es as [| e es IH]; intros H; [discriminate |].
  cbn [fold_left existsb] in *. unfold earlier at 2.
  destruct (timed e).
  - rewrite fold_earlier_from. eexists. reflexivity.
  - apply IH. exact H.
Qed.

(** The loop of [Timeline.StartTime] over rows that each hold a timed event,
    and over rows none of which does. *)
Lemma StartTime_fold_timed (rs : list Row) (o : option Z) :
  nonzero o ->
  (forall r, In r rs -> existsb timed (events r) = true) ->
  fold_left StartTime_step rs (instant o)
  = instant (fold_left earlier (flat_map events rs) o).
Proof.
  revert o. induction rs as [| r rs IH]; intros o Ho H; cbn [fold_left flat_map];
    [reflexivity |].
  rewrite fold_left_app.
  destruct (fold_earlier_timed (events r) (H r (or_introl eq_refl))) as [m Hm].
  assert (Nm : m <> 0) by (apply (fold_earlier_nonzero (events r) None nonzero_None m Hm)).
  assert (E : StartTime_step (instant o) r = instant (fold_left earlier (events r) o)).
  { unfold StartTime_step. rewrite Row_StartTime_earliest, Hm. cbn [instant].
    destruct o as [a |]; cbn [instant].
    - rewrite fold_earlier_from, Hm. cbn [instant].
      specialize (Ho a eq_refl). unfold IsZero, Before.
      destruct (Z.eqb_spec a 0); [contradiction |]. cbn [orb].
      destruct (Z.ltb_spec m a); lia.
    - rewrite Hm. reflexivity. }
  rewrite E. apply IH.
  - apply fold_earlier_nonzero, Ho.
  - intros r' Hr'. apply H. right. exact Hr'.
Qed.

Lemma StartTime_fold_untimed (rs : list Row) :
  existsb timed (flat_map events rs) = false ->
  fold_left StartTime_step rs 0 = 0.
Proof.
  induction rs as [| r rs IH]; intros H; cbn [fold_left flat_map] in *; [reflexivity |].
  rewrite existsb_app in H. apply orb_false_iff in H. destruct H as [Hr H].
  unfold StartTime_step at 2. rewrite Row_StartTime_earliest.
  rewrite (fold_earlier_untimed _ _ Hr). cbn [instant IsZero Z.eqb orb].
  apply IH, H.
Qed.

(** Outside the defect [StartTime] is the origin of the specification. *)
Lemma StartTime_is_origin (t : Timeline) :
  existsb timed (allEvents t) = false
  \/ (forall r, In r (rows t) -> existsb timed (events r) = true) ->
  StartTime t = instant (origin t).
Proof.
  unfold StartTime, origin, allEvents. intros [H | H].
  - rewrite (StartTime_fold_untimed _ H), (fold_earlier_untimed _ _ H). reflexivity.
  - apply (StartTime_fold_timed (rows t) None nonzero_None H).
Qed.

Lemma fold_earlier_lower_bound (es : list Event) (o : option Z) (start : Z) :
  fold_left earlier es o = Some start ->
  (forall a, o = Some a -> start <= a)
  /\ (forall e, In e es -> timed e = true -> start <= Time e).
Proof.
  revert o. induction es as [| e es IH]; intros o H; cbn [fold_left] in H.
  - split; [intros a Ha; rewrite Ha in H; injection H; lia | intros e []].
  - destruct (IH _ H) as [Hacc Hes]. split.
    + intros a ->. unfold earlier in Hacc.
      destruct (timed e); specialize (Hacc _ eq_refl); lia.
    + intros e' [<- | Hin] Ht; [| apply Hes; assumption].
      unfold earlier in Hacc. rewrite Ht in Hacc.
      destruct o; specialize (Hacc _ eq_refl); lia.
Qed.

Lemma fold_add_ge (l : list Z) (a : Z) :
  (forall x, In x l -> 0 <= x) -> a <= fold_left Z.add l a.
Proof.
  revert a. induction l as [| x l IH]; intros a H; cbn [fold_left]; [lia |].
  specialize (IH (a + x) (fun y Hy => H y (or_intror Hy))).
  specialize (H x (or_introl eq_refl)). lia.
Qed.

Lemma fold_max_init (l : list Z) (a b : Z) :
  fold_left Z.max l (Z.max a b) = Z.max a (fold_left Z.max l b).
Proof.
  revert b. induction l as [| x l IH]; intros b; cbn [fold_left]; [reflexivity |].
  rewrite <- Z.max_assoc. apply IH.
Qed.

Lemma fold_max_ge (l : list Z) (a : Z) : a <= fold_left Z.max l a.
Proof.
  revert a. induction l as [| x l IH]; intros a; cbn [fold_left]; [lia |].
  specialize (IH (Z.max a x)). lia.
Qed.

(** The loop of [TotalDuration] from an origin: exact sums, and the running
    maximum of the ends of the timed events. *)
Lemma TotalDuration_fold_timed (start : Z) (es : list Event) :
  start <> 0 ->
  forall total m : Z,
    (forall e, In e es -> 0 <= Duration e) ->
    0 <= total ->
    fold_left Z.add (map Duration es) total <= Int64.max_int ->
    (forall e, In e es -> timed e = true ->
               start <= Time e /\ (Time e - start) + Duration e <= Int64.max_int) ->
    fold_left (TotalDuration_step start) es (total, m)
    = (fold_left Z.add (map Duration es) total,
       fold_left Z.max
                 (map (fun e => (Time e - start) + Duration e) (filter timed es)) m).
Proof.
  intros Hs. induction es as [| e es IH]; intros total m Hd Ht Hsum Hb;
    cbn [fold_left map filter]; [reflexivity |].
  cbn [map fold_left] in Hsum.
  assert (De : 0 <= Duration e) by (apply Hd; left; reflexivity).
  assert (Hle : total + Duration e <= Int64.max_int).
  { etransitivity; [| exact Hsum]. apply fold_add_ge.
    intros x Hx. apply in_map_iff in Hx. destruct Hx as [e' [<- He']].
    apply Hd. right. exact He'. }
  assert (Ea : Int64.add total (Duration e) = total + Duration e).
  { apply Int64Facts.add_small.
    unfold Int64.in_range, Int64.min_int, Int64.max_int in *. lia. }
  unfold TotalDuration_step at 2. rewrite Ea.
  assert (Z0 : IsZero start = false) by (apply Z.eqb_neq; exact Hs).
  rewrite Z0. cbn [negb andb]. fold (timed e).
  destruct (timed e) eqn:T.
  - destruct (Hb e (or_introl eq_refl) T) as [B1 B2].
    assert (Eb : Int64.add (Sub (Time e) start) (Duration e)
                 = (Time e - start) + Duration e).
    { unfold Sub. unfold Int64.max_int in B2.
      rewrite Int64Facts.clamp_small
        by (unfold Int64.in_range, Int64.min_int, Int64.max_int; lia).
      apply Int64Facts.add_small.
      unfold Int64.in_range, Int64.min_int, Int64.max_int; lia. }
    rewrite Eb. cbn [map fold_left].
    replace (if (Time e - start + Duration e >? m)
             then (total + Duration e, Time e - start + Duration e)
             else (total + Duration e, m))
      with (total + Duration e, Z.max m (Time e - start + Duration e))
      by (destruct (Z.gtb_spec (Time e - start + Duration e) m); f_equal; lia).
    apply IH; try lia; intros e' He'; [apply Hd | apply Hb]; right; exact He'.
  - apply IH; try lia; intros e' He'; [apply Hd | apply Hb]; right; exact He'.
Qed.

Lemma TotalDuration_fold_untimed (es : list Event) :
  forall total m : Z,
    (forall e, In e es -> 0 <= Duration e) ->
    0 <= total ->
    fold_left Z.add (map Duration es) total <= Int64.max_int ->
    fold_left (TotalDuration_step 0) es (total, m)
    = (fold_left Z.add (map Duration es) total, m).
Proof.
  induction es as [| e es IH]; intros total m Hd Ht Hsum; cbn [fold_left map];
    [reflexivity |].
  cbn [map fold_left] in Hsum.
  assert (De : 0 <= Duration e) by (apply Hd; left; reflexivity).
  assert (Hle : total + Duration e <= Int64.max_int).
  { etransitivity; [| exact Hsum]. apply fold_add_ge.
    intros x Hx. apply in_map_iff in Hx. destruct Hx as [e' [<- He']].
    apply Hd. right. exact He'. }
  assert (Ea : Int64.add total (Duration e) = total + Duration e).
  { apply Int64Facts.add_small.
    unfold Int64.in_range, Int64.min_int, Int64.max_int in *. lia. }
  unfold TotalDuration_step at 2. rewrite Ea. cbn [IsZero Z.eqb negb andb].
  apply IH; try lia. intros e' He'. apply Hd. right. exact He'.
Qed.

(** Outside the defect, and as long as the sums fit a Duration, the span
    [TotalDuration] returns for a row is the one of the specification, and
    [MaxDuration] is the largest of them. *)
Lemma TotalDuration_is_rowSpan (t : Timeline) (r : Row) :
  (forall e, In e (events r) -> 0 <= Duration e) ->
  fits t -> In r (rows t) ->
  TotalDuration r (instant (origin t)) = rowSpan (origin t) r.
Proof.
  intros Hd Hf Hr. destruct (Hf r Hr) as [Hsum Hb].
  unfold TotalDuration, rowSpan.
  assert (S0 : 0 <= fold_left Z.add (map Duration (events r)) 0).
  { apply fold_add_ge. intros x Hx. apply in_map_iff in Hx.
    destruct Hx as [e [<- He]]. apply Hd, He. }
  destruct (origin t) as [start |] eqn:O; cbn [instant].
  - assert (Ns : start <> 0).
    { apply (fold_earlier_nonzero (allEvents t) None nonzero_None start O). }
    rewrite (TotalDuration_fold_timed start (events r) Ns 0 0 Hd (Z.le_refl 0) Hsum).
    + rewrite <- (Z.max_l _ 0 S0) at 2. rewrite fold_max_init. reflexivity.
    + intros e He Te. split; [| apply (Hb start e eq_refl He Te)].
      apply (proj2 (fold_earlier_lower_bound _ _ _ O)); [| exact Te].
      unfold allEvents. apply in_flat_map. exists r. auto.
  - rewrite (TotalDuration_fold_untimed (events r) 0 0 Hd (Z.le_refl 0) Hsum). lia.
Qed.

Lemma MaxDuration_fold (t : Timeline) (f : Row -> Z) (rs : list Row) (m : Z) :
  (forall r, In r rs -> TotalDuration r (StartTime t) = f r) ->
  fold_left (MaxDuration_step t) rs m = fold_left Z.max (map f rs) m.
Proof.
  revert m. induction rs as [| r rs IH]; intros m H; cbn [fold_left map]; [reflexivity |].
  unfold MaxDuration_step at 2. rewrite (H r (or_introl eq_refl)).
  replace (if f r >? m then f r else m) with (Z.max m (f r))
    by (destruct (Z.gtb_spec (f r) m); lia).
  apply IH. intros r' Hr'. apply H. right. exact Hr'.
Qed.

Lemma spans_are_measured_from_the_earliest_start (t : Timeline) :
  (forall r e, In r (rows t) -> In e (events r) -> 0 <= Duration e) ->
  existsb timed (allEvents t) = false
  \/ (forall r, In r (rows t) -> existsb timed (events r) = true) ->
  fits t ->
  StartTime t = instant (origin t)
  /\ (forall r, In r (rows t) -> TotalDuration r (StartTime t) = rowSpan (origin t) r)
  /\ MaxDuration t = maxSpan t.
Proof.
  intros Hd Hrows Hf.
  pose proof (StartTime_is_origin t Hrows) as S.
  assert (R : forall r, In r (rows t) ->
                        TotalDuration r (StartTime t) = rowSpan (origin t) r).
  { intros r Hr. rewrite S. apply TotalDuration_is_rowSpan; [| exact Hf | exact Hr].
    intros e He. apply (Hd r e Hr He). }
  split; [exact S |]. split; [exact R |].
  unfold MaxDuration, maxSpan. apply MaxDuration_fold. exact R.
Qed.

(** The hypotheses hold on [staggered], whose largest span is thirteen
    seconds, from the era's start to the end of the last task. *)
Lemma spans_of_staggered :
  StartTime staggered = T0 /\ MaxDuration staggered = 13 * Second.
Proof.
  assert (Hd : forall r e, In r (rows staggered) -> In e (events r) -> 0 <= Duration e).
  { intros r e [<- | [<- | []]] He; cbn [events] in He;
      repeat (destruct He as [<- | He]; [vm_compute; discriminate |]); destruct He. }
  assert (Ht : forall r, In r (rows staggered) -> existsb timed (events r) = true).
  { intros r [<- | [<- | []]]; reflexivity. }
  assert (Hf : fits staggered).
  { intros r Hr. split.
    - destruct Hr as [<- | [<- | []]]; vm_compute; discriminate.
    - intros start e Ho He _. injection Ho as <-.
      destruct Hr as [<- | [<- | []]]; cbn [events] in He;
        repeat (destruct He as [<- | He]; [vm_compute; discriminate |]); destruct He. }
  destruct (spans_are_measured_from_the_earliest_start staggered Hd (or_intror Ht) Hf)
    as [S [_ M]].
  rewrite S, M. split; reflexivity.
Qed.

(** In a validated timeline the origin [setup] stores is then the earliest
    start time, and the zero instant when no event sets one. *)
Lemma setup_stores_the_origin (t t' : Timeline) :
  setup t = inr t' ->
  existsb timed (allEvents t) = false
  \/ (forall r, In r (rows t) -> existsb timed (events r) = true) ->
  earliest t' = instant (origin t).
Proof.
  intros S H. rewrite (setup_fields t t' S). apply (StartTime_is_origin t H).
Qed.

(** C2.  On the valid timeline [gap], whose second row has no events,
    [StartTime] does not return the earliest start time: the empty row
    resets the running minimum to the zero instant and the third row sets it
    anew.  The spans are then measured from [T0 + 4s] and the largest is
    four seconds, where the earliest start time [T0] gives seven.  (When
    every row holds a timed event, or no event is timed, the spans are the
    specified ones: [spans_are_measured_from_the_earliest_start].) *)
Theorem an_empty_row_moves_the_origin :
  exists t',
    setup gap = inr t'
    /\ origin gap = Some T0
    /\ StartTime gap = T0 + 4 * Second
    /\ earliest t' = T0 + 4 * Second
    /\ maxSpan gap = 7 * Second
    /\ MaxDuration gap = 4 * Second
    /\ maxDuration t' = 4 * Second.
Proof.
  exists (initialise gap).
  repeat split; vm_compute; reflexivity.
Qed.

End LayoutFacts.

(** ** svgtimeline.go: the strings.Builder generator *)

Module EmitterFacts.

Import Emitter Spec.

Local Open Scope string_scope.

Lemma occurs_app (c : ascii) (s1 s2 : string) :
  occurs c (s1 ++ s2) = occurs c s1 || occurs c s2.
Proof.
  induction s1 as [| c1 s1 IH]; cbn [append occurs]; [reflexivity |].
  rewrite IH. apply orb_assoc.
Qed.

(** A pass of [ReplaceAll] removes the byte it replaces, and brings in no
    byte that is neither in the text nor in the replacement. *)
Lemma ReplaceAll_absent (c old : ascii) (new s : string) :
  occurs c new = false ->
  c = old \/ occurs c s = false ->
  occurs c (ReplaceAll s old new) = false.
Proof.
  intros Hnew Hs. induction s as [| c' s IH]; cbn [ReplaceAll occurs]; [reflexivity |].
  destruct (Ascii.eqb_spec c' old) as [E | N].
  - rewrite occurs_app, Hnew. cbn [orb]. apply IH.
    destruct Hs as [Hs | Hs]; [left; exact Hs |].
    right. cbn [occurs] in Hs. apply orb_false_iff in Hs. tauto.
  - cbn [occurs]. destruct (Ascii.eqb_spec c c') as [E' | N'].
    + subst c'. destruct Hs as [Hs | Hs]; [congruence |].
      cbn [occurs] in Hs. rewrite Ascii.eqb_refl in Hs. discriminate.
    + cbn [orb]. apply IH.
      destruct Hs as [Hs | Hs]; [left; exact Hs |].
      right. cbn [occurs] in Hs. apply orb_false_iff in Hs. tauto.
Qed.

(** What [escapeXML] returns holds none of the bytes [<], [>], the double
    quote and the apostrophe. *)
Lemma escapeXML_leaves_no_markup (s : string) :
  occurs lt (escapeXML s) = false
  /\ occurs gt (escapeXML s) = false
  /\ occurs quot (escapeXML s) = false
  /\ occurs apos (escapeXML s) = false.
Proof.
  unfold escapeXML. repeat split.
  - apply ReplaceAll_absent; [reflexivity | right].
    apply ReplaceAll_absent; [reflexivity | right].
    apply ReplaceAll_absent; [reflexivity | right].
    apply ReplaceAll_absent; [reflexivity | left; reflexivity].
  - apply ReplaceAll_absent; [reflexivity | right].
    apply ReplaceAll_absent; [reflexivity | right].
    apply ReplaceAll_absent; [reflexivity | left; reflexivity].
  - apply ReplaceAll_absent; [reflexivity | right].
    apply ReplaceAll_absent; [reflexivity | left; reflexivity].
  - apply ReplaceAll_absent; [reflexivity | left; reflexivity].
Qed.

Lemma append_assoc (s1 s2 s3 : string) : (s1 ++ s2) ++ s3 = s1 ++ (s2 ++ s3).
Proof. induction s1 as [| c s1 IH]; cbn [append]; [reflexivity | rewrite IH; reflexivity]. Qed.

Lemma append_nil_r (s : string) : s ++ EmptyString = s.
Proof. induction s as [| c s IH]; cbn [append]; [reflexivity | rewrite IH; reflexivity]. Qed.

Lemma within_refl (p : string) : within p p.
Proof. exists EmptyString, EmptyString. rewrite append_nil_r. reflexivity. Qed.

Lemma within_prefix (p rest : string) : within p (p ++ rest).
Proof. exists EmptyString, rest. reflexivity. Qed.

Lemma within_left (p s x : string) : within p s -> within p (s ++ x).
Proof.
  intros [b [a H]]. exists b, (a ++ x). rewrite H, !append_assoc. reflexivity.
Qed.

Lemma within_right (p s x : string) : within p x -> within p (s ++ x).
Proof.
  intros [b [a H]]. exists (s ++ b), a. rewrite H, !append_assoc. reflexivity.
Qed.

Lemma within_trans (p q s : string) : within p q -> within q s -> within p s.
Proof.
  intros [b [a H]] [b' [a' H']]. exists (b' ++ b), (a ++ a').
  rewrite H', H, !append_assoc. reflexivity.
Qed.

(** The group of an event with an identifier opens with it, as it stands. *)
Lemma drawEvent_opens fmt_f (t : Timeline) (e : Event) (y h c : Z) :
  ID e <> EmptyString ->
  exists rest,
    fst (drawEvent fmt_f t e y h c) = "<g id=" ++ dquote ++ ID e ++ dquote ++ rest.
Proof.
  intros H. apply String.eqb_neq in H. unfold drawEvent. cbn [fst]. rewrite H.
  cbn [negb].
  repeat match goal with
         | |- context [if ?b then _ else _] => destruct b
         end;
    eexists; rewrite !append_assoc; cbn [append]; reflexivity.
Qed.

Lemma drawEvents_hold fmt_f (t : Timeline) (y h : Z) (e : Event) (es : list Event) :
  In e es ->
  forall c : Z, exists c' : Z,
      within (fst (drawEvent fmt_f t e y h c')) (drawEvents fmt_f t y h es c).
Proof.
  induction es as [| e' es IH]; intros Hin c; [destruct Hin |].
  cbn [drawEvents]. destruct (drawEvent fmt_f t e' y h c) as [written c1] eqn:E.
  destruct Hin as [-> | Hin].
  - exists c. rewrite E. apply within_prefix.
  - destruct (IH Hin c1) as [c' H]. exists c'. apply within_right. exact H.
Qed.

Lemma drawRows_hold fmt_f (t : Timeline) (r : Row) (e : Event) (rs : list Row) :
  0 < maxDuration t -> In r rs -> In e (events r) ->
  forall y : Z, exists y' c' : Z,
      within (fst (drawEvent fmt_f t e y' (height r) c')) (drawRows fmt_f t rs y).
Proof.
  intros Hm. induction rs as [| r' rs IH]; intros Hr He y; [destruct Hr |].
  cbn [drawRows]. destruct (Z.leb_spec (maxDuration t) 0) as [L | _]; [lia |].
  destruct Hr as [-> | Hr].
  - destruct (drawEvents_hold fmt_f t y (height r) e (events r) He 0) as [c' H].
    exists y, c'. apply within_left. exact H.
  - destruct (IH Hr He (Int64.add y (Int64.add (height r') (separatorHeight r'))))
      as [y' [c' H]].
    exists y', c'. apply within_right. exact H.
Qed.

Lemma document_holds_the_rows fmt_f Duration_String defs (t : Timeline) :
  within (drawRows fmt_f t (rows t) (marginTop t))
         (document fmt_f Duration_String defs t).
Proof.
  unfold document. cbv zeta.
  do 7 apply within_left. apply within_right. apply within_refl.
Qed.

(** C8.  The string generator of svgtimeline.go writes the identifier of
    every event it draws as it stands: in the document of a validated
    timeline (with a positive largest span, so that events are drawn) the
    group of an event with an identifier opens with the attribute [id]
    holding the identifier itself, not its escaped form. *)
Theorem event_identifiers_are_written_unescaped
    fmt_f Duration_String defs (t t' : Timeline) (r : Row) (e : Event) :
  setup t = inr t' -> 0 < maxDuration t' ->
  In r (rows t') -> In e (events r) -> ID e <> EmptyString ->
  exists document,
    Generate fmt_f Duration_String defs t = (document, None)
    /\ within ("<g id=" ++ dquote ++ ID e ++ dquote) document.
Proof.
  intros S Hm Hr He Hid. exists (Emitter.document fmt_f Duration_String defs t').
  split; [unfold Generate; rewrite S; reflexivity |].
  apply within_trans with (q := drawRows fmt_f t' (rows t') (marginTop t'));
    [| apply document_holds_the_rows].
  destruct (drawRows_hold fmt_f t' r e (rows t') Hm Hr He (marginTop t')) as [y' [c' H]].
  apply within_trans with (q := fst (drawEvent fmt_f t' e y' (height r) c')); [| exact H].
  destruct (drawEvent_opens fmt_f t' e y' (height r) c' Hid) as [rest E].
  rewrite E. exists EmptyString, rest. rewrite !append_assoc. reflexivity.
Qed.

(** On the row holding [marked], whose identifier is [a<b], the document
    holds [<g id="a<b"], and the escaped form of the identifier differs. *)
Lemma event_identifiers_are_written_unescaped_witness :
  setup markedTimeline = inr (initialise markedTimeline)
  /\ 0 < maxDuration (initialise markedTimeline)
  /\ In (mkRow 30 5 [marked]) (rows (initialise markedTimeline))
  /\ In marked (events (mkRow 30 5 [marked]))
  /\ ID marked <> EmptyString
  /\ escapeXML (ID marked) = "a&lt;b"
  /\ exists document,
      Generate plain_f plain_d EmptyString markedTimeline = (document, None)
      /\ within ("<g id=" ++ dquote ++ "a<b" ++ dquote) document.
Proof.
  assert (S : setup markedTimeline = inr (initialise markedTimeline)) by reflexivity.
  assert (Hm : 0 < maxDuration (initialise markedTimeline)) by reflexivity.
  assert (Hr : In (mkRow 30 5 [marked]) (rows (initialise markedTimeline)))
    by (left; reflexivity).
  assert (He : In marked (events (mkRow 30 5 [marked]))) by (left; reflexivity).
  assert (Hid : ID marked <> EmptyString) by discriminate.
  split; [exact S |]. split; [exact Hm |]. split; [exact Hr |]. split; [exact He |].
  split; [exact Hid |]. split; [reflexivity |].
  exact (event_identifiers_are_written_unescaped plain_f plain_d EmptyString
           markedTimeline (initialise markedTimeline) _ _ S Hm Hr He Hid).
Defined.

End EmitterFacts.

(** ** cmd/cli/svgtimeline.go: the config parser *)

Module CfgFacts.

Import Cfg Spec.

(** At the end of the input an event that is pending goes to the last row. *)
Lemma lastEvent_pending (st : state) (e : Event) (r : Row) :
  currentEvent st = Some e ->
  Emitter.GetLastRow (tl st) = Some r ->
  lastEvent st
  = Ok (with_event (with_tl st (Emitter.AddEventToLastRow (tl st) e)) None).
Proof.
  intros He Hr. unfold lastEvent, addCurrentEvent. rewrite Hr, He. reflexivity.
Qed.

(** Without a row the end of the input is the error of the missing row. *)
Lemma lastEvent_without_row (st : state) :
  Emitter.GetLastRow (tl st) = None ->
  lastEvent st = Fail (ErrNoRow (lineNum st)).
Proof. intros Hr. unfold lastEvent. rewrite Hr. reflexivity. Qed.

(** With no event pending the end of the input never completes: the error
    of the missing row, or the panic of the nil pointer. *)
Lemma lastEvent_nothing_pending (st : state) :
  currentEvent st = None ->
  lastEvent st = Fail (ErrNoRow (lineNum st)) \/ lastEvent st = Panic.
Proof.
  intros He. unfold lastEvent, addCurrentEvent. rewrite He.
  destruct (Emitter.GetLastRow (tl st)); [right | left]; reflexivity.
Qed.

(** The section marker, in contrast, skips the step when nothing is pending. *)
Lemma flushEvent_nothing_pending (st : state) :
  currentEvent st = None -> flushEvent st = Ok st.
Proof. intros He. unfold flushEvent. rewrite He. reflexivity. Qed.

(** C3.  The step at the end of the input has no test for a pending event.
    On the file [trailingRow], which ends with a row section, nothing is
    pending at the end and the step dereferences the nil pointer:
    [GenerateFromCFG] stops with a run-time panic.  On the empty file it
    returns the error of the missing row although no event is pending.  A
    file that ends in a task, [trailingTask], is parsed to the end, the
    task being the one event of its row. *)
Theorem end_of_input_without_pending_event
    Atoi ParseDuration time_Parse DefaultStyle fmt_f Duration_String defs cssStyle :
  GenerateFromCFG Atoi ParseDuration time_Parse DefaultStyle fmt_f Duration_String defs
                  trailingRow cssStyle
  = Panics
  /\ GenerateFromCFG Atoi ParseDuration time_Parse DefaultStyle fmt_f Duration_String defs
                     [] cssStyle
     = Returned (EmptyString, Some (ErrNoRow 0))
  /\ Error (ErrNoRow 0)
     = "error at line 0, cannot add an event without creating a row first"%string
  /\ exists t,
      parse Atoi ParseDuration time_Parse DefaultStyle trailingTask EmptyString = Ok t
      /\ Emitter.rows t
         = [mkRow 30 5 [mkEvent EventTypeTask EmptyString EmptyString "build"
                                EmptyString 0 0]].
Proof.
  split; [reflexivity |]. split; [reflexivity |]. split; [reflexivity |].
  eexists. split; reflexivity.
Qed.

End CfgFacts.

(** * Further facts *)

(** ** timeline.go: rows, start and end times, spans *)

Module ModelFacts.

Import GoTime Layout Spec Shape.

Lemma nth_error_last {A : Type} (l : list A) (a : A) :
  nth_error (l ++ [a]) (List.length l) = Some a.
Proof. rewrite nth_error_app2 by lia. rewrite Nat.sub_diag. reflexivity. Qed.

(** X1.  From the index 0 on [GetRowByIndex] does what its comment says: it
    returns the row at the index when there is one, and nil from the number
    of rows on. *)
Theorem GetRowByIndex_returns_the_row_or_nil (t : Timeline) (i : Z) :
  (0 <= i < len (GetRows t) ->
   exists r, nth_error (GetRows t) (Z.to_nat i) = Some r
             /\ GetRowByIndex t i = Returned (Some r))
  /\ (len (GetRows t) <= i -> GetRowByIndex t i = Returned None).
Proof.
  unfold GetRows. pose proof (LayoutFacts.len_nonneg (rows t)) as N. split; intros H.
  - rewrite LayoutFacts.GetRowByIndex_in_bounds by lia.
    destruct (Z.ltb_spec i (len (rows t))); [| lia].
    destruct (nth_error (rows t) (Z.to_nat i)) as [r |] eqn:E.
    + exists r. split; reflexivity.
    + apply nth_error_None in E. unfold len in *. lia.
  - rewrite LayoutFacts.GetRowByIndex_in_bounds by lia.
    destruct (Z.ltb_spec i (len (rows t))); [lia | reflexivity].
Qed.

(** X2.  [AddRow] appends: the timeline has one row more, the new row, of
    the given height and separator and without events, is the last one and
    the one at the former length, and every former index still returns the
    row it returned. *)
Theorem AddRow_appends_a_row (t : Timeline) (h s : Z) :
  len (GetRows (AddRow t h s)) = len (GetRows t) + 1
  /\ GetLastRow (AddRow t h s) = Some (mkRow h s [])
  /\ GetRowByIndex (AddRow t h s) (len (GetRows t)) = Returned (Some (mkRow h s []))
  /\ forall i : Z,
      0 <= i < len (GetRows t) ->
      GetRowByIndex (AddRow t h s) i = GetRowByIndex t i.
Proof.
  unfold GetRows.
  assert (R : rows (AddRow t h s) = rows t ++ [mkRow h s []]) by reflexivity.
  assert (L : len (rows (AddRow t h s)) = len (rows t) + 1).
  { rewrite R. unfold len. rewrite length_app. cbn [List.length]. lia. }
  pose proof (LayoutFacts.len_nonneg (rows t)) as N.
  split; [exact L |]. split; [| split].
  - unfold GetLastRow. rewrite L.
    destruct (Z.eqb_spec (len (rows t) + 1) 0); [lia |].
    rewrite R. replace (Z.to_nat (len (rows t) + 1 - 1)) with (List.length (rows t))
      by (unfold len; lia).
    apply nth_error_last.
  - rewrite LayoutFacts.GetRowByIndex_in_bounds by lia. rewrite L.
    destruct (Z.ltb_spec (len (rows t)) (len (rows t) + 1)); [| lia].
    rewrite R. replace (Z.to_nat (len (rows t))) with (List.length (rows t))
      by (unfold len; lia).
    rewrite nth_error_last. reflexivity.
  - intros i Hi. rewrite !LayoutFacts.GetRowByIndex_in_bounds by lia. rewrite L.
    destruct (Z.ltb_spec i (len (rows t) + 1)); [| lia].
    destruct (Z.ltb_spec i (len (rows t))); [| lia].
    rewrite R. rewrite nth_error_app1 by (unfold len in *; lia). reflexivity.
Qed.

(** X3.  [GetLastRow] returns nil on a timeline without rows and on no
    other, and otherwise the row at the index [len - 1]. *)
Theorem GetLastRow_is_the_row_at_the_last_index (t : Timeline) :
  (GetLastRow t = None <-> GetRows t = [])
  /\ (GetRows t <> [] ->
      GetRowByIndex t (len (GetRows t) - 1) = Returned (GetLastRow t)).
Proof.
  unfold GetRows, GetLastRow.
  destruct (rows t) as [| r rs] eqn:R.
  - split; [split; reflexivity | intros H; contradiction].
  - assert (L : len (r :: rs) = Z.of_nat (List.length rs) + 1)
      by (unfold len; cbn [List.length]; lia).
    destruct (Z.eqb_spec (len (r :: rs)) 0) as [E | _]; [lia |].
    split.
    + split; [| discriminate]. intros H. apply nth_error_None in H.
      cbn [List.length] in H. lia.
    + intros _. rewrite LayoutFacts.GetRowByIndex_in_bounds by lia.
      rewrite R. destruct (Z.ltb_spec (len (r :: rs) - 1) (len (r :: rs))); [| lia].
      reflexivity.
Qed.

(** *** Start times *)

Lemma fold_earlier_attained (es : list Event) (o : option Z) (start : Z) :
  fold_left earlier es o = Some start ->
  o = Some start \/ exists e, In e es /\ timed e = true /\ Time e = start.
Proof.
  revert o. induction es as [| e es IH]; intros o H; cbn [fold_left] in H;
    [left; exact H |].
  destruct (IH _ H) as [E | [e' [Hin [Ht Hs]]]].
  - unfold earlier in E. destruct (timed e) eqn:T; [| left; exact E].
    destruct o as [a |]; injection E as E.
    + destruct (Z.min_spec a (Time e)) as [[_ M] | [_ M]]; rewrite M in E.
      * left. f_equal. exact E.
      * right. exists e. split; [left; reflexivity | split; assumption].
    + right. exists e. split; [left; reflexivity | split; assumption].
  - right. exists e'. split; [right; exact Hin | split; assumption].
Qed.

(** X4.  [Row.StartTime] returns the zero instant when no event of the row
    sets a start time; otherwise it returns the start time of one of the
    events, which is not the zero instant and is the earliest of the row. *)
Theorem Row_StartTime_is_the_earliest_of_the_row (r : Row) :
  (existsb timed (events r) = false -> Row_StartTime r = 0)
  /\ (existsb timed (events r) = true ->
      Row_StartTime r <> 0
      /\ (exists e, In e (events r) /\ timed e = true /\ Time e = Row_StartTime r)
      /\ (forall e, In e (events r) -> timed e = true -> Row_StartTime r <= Time e)).
Proof.
  rewrite LayoutFacts.Row_StartTime_earliest. split; intros H.
  - rewrite (LayoutFacts.fold_earlier_untimed _ _ H). reflexivity.
  - destruct (LayoutFacts.fold_earlier_timed _ H) as [m Hm]. rewrite Hm. cbn [instant].
    split; [| split].
    + apply (LayoutFacts.fold_earlier_nonzero _ None LayoutFacts.nonzero_None m Hm).
    + destruct (fold_earlier_attained _ _ _ Hm) as [E | E]; [discriminate | exact E].
    + apply (proj2 (LayoutFacts.fold_earlier_lower_bound _ _ _ Hm)).
Qed.

(** X5.  [Timeline.StartTime] returns the zero instant when no event sets a
    start time; when every row holds an event that sets one, it returns the
    start time of one of the events, which is the earliest of the timeline. *)
Theorem StartTime_is_the_earliest_of_the_timeline (t : Timeline) :
  (existsb timed (allEvents t) = false -> StartTime t = 0)
  /\ ((forall r, In r (GetRows t) -> existsb timed (events r) = true) ->
      GetRows t <> [] ->
      StartTime t <> 0
      /\ (exists r e, In r (GetRows t) /\ In e (events r) /\ timed e = true
                      /\ Time e = StartTime t)
      /\ (forall r e, In r (GetRows t) -> In e (events r) -> timed e = true ->
                      StartTime t <= Time e)).
Proof.
  unfold GetRows. split.
  - intros H. rewrite (LayoutFacts.StartTime_is_origin t (or_introl H)).
    unfold origin. rewrite (LayoutFacts.fold_earlier_untimed _ _ H). reflexivity.
  - intros H Hne. rewrite (LayoutFacts.StartTime_is_origin t (or_intror H)).
    assert (T : existsb timed (allEvents t) = true).
    { destruct (rows t) as [| r rs] eqn:R; [contradiction |].
      specialize (H r (or_introl eq_refl)). apply existsb_exists in H.
      destruct H as [e [He Te]].
      apply (LayoutFacts.existsb_allEvents timed t r e); [rewrite R; left; reflexivity | |];
        assumption. }
    destruct (LayoutFacts.fold_earlier_timed _ T) as [m Hm].
    unfold origin. rewrite Hm. cbn [instant]. split; [| split].
    + apply (LayoutFacts.fold_earlier_nonzero _ None LayoutFacts.nonzero_None m Hm).
    + destruct (fold_earlier_attained _ _ _ Hm) as [E | [e [He [Te Ee]]]]; [discriminate |].
      unfold allEvents in He. apply in_flat_map in He. destruct He as [r [Hr He]].
      exists r, e. auto.
    + intros r e Hr He Te.
      apply (proj2 (LayoutFacts.fold_earlier_lower_bound _ _ _ Hm)); [| exact Te].
      unfold allEvents. apply in_flat_map. exists r. auto.
Qed.

(** *** End times *)

Lemma later_positive (o : option Z) (e : Event) :
  (timed e = true -> 0 < endOf e) -> positive o -> positive (later o e).
Proof.
  unfold positive, later. intros He Ho m.
  destruct (timed e); [| apply Ho].
  specialize (He eq_refl). destruct o as [a |]; intros [= <-]; [| exact He].
  specialize (Ho a eq_refl). lia.
Qed.

Lemma fold_later_positive (es : list Event) (o : option Z) :
  (forall e, In e es -> timed e = true -> 0 < endOf e) ->
  positive o -> positive (fold_left later es o).
Proof.
  revert o. induction es as [| e es IH]; intros o H Ho; cbn [fold_left]; [exact Ho |].
  apply IH; [intros e' He'; apply H; right; exact He' |].
  apply later_positive; [apply H; left; reflexivity | exact Ho].
Qed.

Lemma positive_None : positive None.
Proof. intros m H. discriminate. Qed.

Lemma Row_EndTime_fold (es : list Event) (o : option Z) :
  (forall e, In e es -> timed e = true -> 0 < endOf e) ->
  positive o ->
  fold_left Row_EndTime_step es (instant o) = instant (fold_left later es o).
Proof.
  revert o. induction es as [| e es IH]; intros o H Ho; cbn [fold_left]; [reflexivity |].
  assert (E : Row_EndTime_step (instant o) e = instant (later o e)).
  { unfold Row_EndTime_step, later, timed, Add. fold (endOf e).
    destruct (IsZero (Time e)); cbn [negb]; [reflexivity |].
    destruct o as [a |]; cbn [instant]; [| reflexivity].
    specialize (Ho a eq_refl). unfold IsZero, After.
    destruct (Z.eqb_spec a 0); [lia |]. cbn [orb].
    destruct (Z.ltb_spec a (endOf e)); lia. }
  rewrite E. apply IH; [intros e' He'; apply H; right; exact He' |].
  apply later_positive; [apply H; left; reflexivity | exact Ho].
Qed.

Lemma fold_later_from (es : list Event) (a : Z) :
  fold_left later es (Some a)
  = Some (match fold_left later es None with
          | None => a
          | Some m => Z.max a m
          end).
Proof.
  revert a. induction es as [| e es IH]; intros a; cbn [fold_left]; [reflexivity |].
  unfold later at 2 4. destruct (timed e); [| apply IH].
  rewrite !IH. destruct (fold_left later es None); f_equal; lia.
Qed.

Lemma EndTime_fold (rs : list Row) (o : option Z) :
  (forall r e, In r rs -> In e (events r) -> timed e = true -> 0 < endOf e) ->
  positive o ->
  fold_left EndTime_step rs (instant o)
  = instant (fold_left later (flat_map events rs) o).
Proof.
  revert o. induction rs as [| r rs IH]; intros o H Ho; cbn [fold_left flat_map];
    [reflexivity |].
  rewrite fold_left_app.
  assert (Hr : forall e, In e (events r) -> timed e = true -> 0 < endOf e)
    by (intros e; apply H; left; reflexivity).
  assert (E : EndTime_step (instant o) r = instant (fold_left later (events r) o)).
  { unfold EndTime_step, Row_EndTime.
    pose proof (Row_EndTime_fold (events r) None Hr positive_None) as RE.
    change (instant None) with 0 in RE. rewrite RE.
    pose proof (fold_later_positive (events r) None Hr positive_None) as P.
    destruct o as [a |]; cbn [instant].
    - rewrite fold_later_from. specialize (Ho a eq_refl). unfold IsZero, After.
      destruct (Z.eqb_spec a 0); [lia |]. cbn [orb].
      destruct (fold_left later (events r) None) as [m |]; cbn [instant].
      + specialize (P m eq_refl). destruct (Z.ltb_spec a m); lia.
      + destruct (Z.ltb_spec a 0); [lia | reflexivity].
    - destruct (fold_left later (events r) None); reflexivity. }
  rewrite E. apply IH; [intros r' e Hr'; apply H; right; exact Hr' |].
  apply fold_later_positive; assumption.
Qed.

Lemma fold_later_bounds (es : list Event) (o : option Z) (latest : Z) :
  fold_left later es o = Some latest ->
  (forall e, In e es -> timed e = true -> endOf e <= latest)
  /\ (o = Some latest \/ exists e, In e es /\ timed e = true /\ endOf e = latest).
Proof.
  revert o. induction es as [| e es IH]; intros o H; cbn [fold_left] in H.
  - split; [intros e [] | left; exact H].
  - destruct (IH _ H) as [Hub Hat].
    assert (Ho : forall a, later o e = Some a -> a <= latest).
    { intros a Ha. rewrite Ha in H. rewrite fold_later_from in H. injection H as H.
      destruct (fold_left later es None); lia. }
    split.
    + intros e' [<- | Hin] Ht; [| apply Hub; assumption].
      unfold later in Ho. rewrite Ht in Ho. destruct o; specialize (Ho _ eq_refl); lia.
    + destruct Hat as [E | [e' [Hin [Ht Hs]]]].
      * unfold later in E. destruct (timed e) eqn:T; [| left; exact E].
        destruct o as [a |]; injection E as E.
        -- destruct (Z.max_spec a (endOf e)) as [[_ M] | [_ M]]; rewrite M in E.
           ++ right. exists e. split; [left; reflexivity | split; assumption].
           ++ left. f_equal. exact E.
        -- right. exists e. split; [left; reflexivity | split; assumption].
      * right. exists e'. split; [right; exact Hin | split; assumption].
Qed.

Lemma fold_later_untimed (es : list Event) (o : option Z) :
  existsb timed es = false -> fold_left later es o = o.
Proof.
  revert o. induction es as [| e es IH]; intros o H; cbn [fold_left]; [reflexivity |].
  cbn [existsb] in H. apply orb_false_iff in H. destruct H as [He H].
  unfold later at 2. rewrite He. apply IH, H.
Qed.

Lemma fold_later_timed (es : list Event) :
  existsb timed es = true -> exists m, fold_left later es None = Some m.
Proof.
  induction es as [| e es IH]; intros H; [discriminate |].
  cbn [fold_left existsb] in *. unfold later at 2.
  destruct (timed e).
  - rewrite fold_later_from. eexists. reflexivity.
  - apply IH. exact H.
Qed.

(** X6.  When the timed events end after the zero instant, [EndTime]
    returns the zero instant if no event sets a start time, and otherwise
    the latest end [Time + Duration] of the timed events of the timeline,
    rows without events included. *)
Theorem EndTime_is_the_latest_end (t : Timeline) :
  (forall r e, In r (GetRows t) -> In e (events r) -> timed e = true -> 0 < endOf e) ->
  (existsb timed (allEvents t) = false -> EndTime t = 0)
  /\ (forall r e, In r (GetRows t) -> In e (events r) -> timed e = true ->
                  endOf e <= EndTime t)
  /\ (existsb timed (allEvents t) = true ->
      exists r e, In r (GetRows t) /\ In e (events r) /\ timed e = true
                  /\ EndTime t = endOf e).
Proof.
  unfold GetRows. intros H.
  assert (E : EndTime t = instant (fold_left later (allEvents t) None))
    by (apply (EndTime_fold (rows t) None H positive_None)).
  rewrite E. split; [| split].
  - intros U. rewrite (fold_later_untimed _ _ U). reflexivity.
  - intros r e Hr He Te.
    assert (T : existsb timed (allEvents t) = true)
      by (apply (LayoutFacts.existsb_allEvents timed t r e Hr He Te)).
    destruct (fold_later_timed _ T) as [m Hm]. rewrite Hm. cbn [instant].
    apply (proj1 (fold_later_bounds _ _ _ Hm)); [| exact Te].
    unfold allEvents. apply in_flat_map. exists r. auto.
  - intros T. destruct (fold_later_timed _ T) as [m Hm]. rewrite Hm. cbn [instant].
    destruct (proj2 (fold_later_bounds _ _ _ Hm)) as [D | [e [He [Te Ee]]]];
      [discriminate |].
    unfold allEvents in He. apply in_flat_map in He. destruct He as [r [Hr He]].
    exists r, e. auto.
Qed.

Lemma EndTime_is_the_latest_end_witness :
  (forall r e, In r (GetRows gap) -> In e (events r) -> timed e = true -> 0 < endOf e)
  /\ EndTime gap = T0 + 7 * Second
  /\ (existsb timed (allEvents gap) = false -> EndTime gap = 0)
  /\ (forall r e, In r (GetRows gap) -> In e (events r) -> timed e = true ->
                  endOf e <= EndTime gap)
  /\ (existsb timed (allEvents gap) = true ->
      exists r e, In r (GetRows gap) /\ In e (events r) /\ timed e = true
                  /\ EndTime gap = endOf e).
Proof.
  assert (H : forall r e, In r (GetRows gap) -> In e (events r) -> timed e = true ->
                          0 < endOf e).
  { intros r e Hr He _. unfold GetRows in Hr.
    destruct Hr as [<- | [<- | [<- | []]]]; cbn [events] in He;
      repeat (destruct He as [<- | He]; [vm_compute; reflexivity |]); destruct He. }
  split; [exact H |]. split; [vm_compute; reflexivity |].
  exact (EndTime_is_the_latest_end gap H).
Defined.

(** *** Spans *)

Lemma fold_max_In (l : list Z) (a x : Z) : In x l -> x <= fold_left Z.max l a.
Proof.
  revert a. induction l as [| y l IH]; intros a H; [destruct H |].
  cbn [fold_left]. destruct H as [<- | H].
  - pose proof (LayoutFacts.fold_max_ge l (Z.max a y)). lia.
  - apply IH, H.
Qed.

Lemma fold_max_attained (l : list Z) (a : Z) :
  fold_left Z.max l a = a \/ In (fold_left Z.max l a) l.
Proof.
  revert a. induction l as [| y l IH]; intros a; cbn [fold_left]; [left; reflexivity |].
  destruct (IH (Z.max a y)) as [E | E]; [| right; right; exact E].
  rewrite E. destruct (Z.max_spec a y) as [[_ M] | [_ M]]; rewrite M.
  - right. left. reflexivity.
  - left. reflexivity.
Qed.

Lemma MaxDuration_bounds (t : Timeline) :
  0 <= MaxDuration t <= Int64.max_int
  /\ (forall r, In r (GetRows t) -> TotalDuration r (StartTime t) <= MaxDuration t)
  /\ (MaxDuration t = 0
      \/ exists r, In r (GetRows t) /\ MaxDuration t = TotalDuration r (StartTime t)).
Proof.
  unfold GetRows.
  assert (E : MaxDuration t
              = fold_left Z.max (map (fun r => TotalDuration r (StartTime t)) (rows t)) 0)
    by (apply LayoutFacts.MaxDuration_fold; reflexivity).
  split; [| split].
  - split; [rewrite E; apply LayoutFacts.fold_max_ge |].
    apply (LayoutFacts.MaxDuration_in_range t).
  - intros r Hr. rewrite E. apply fold_max_In.
    apply (in_map (fun r' => TotalDuration r' (StartTime t)) _ _ Hr).
  - rewrite E. destruct (fold_max_attained
                           (map (fun r => TotalDuration r (StartTime t)) (rows t)) 0)
      as [Z0 | Hin]; [left; exact Z0 | right].
    apply in_map_iff in Hin. destruct Hin as [r [Hr Hin]]. exists r. auto.
Qed.

(** X7.  [MaxDuration] is never negative and stays in the range of a
    Duration; no row has a larger [TotalDuration]; and it is zero or the
    [TotalDuration] of one of the rows. *)
Theorem MaxDuration_is_the_largest_TotalDuration (t : Timeline) :
  0 <= MaxDuration t <= Int64.max_int
  /\ (forall r, In r (GetRows t) -> TotalDuration r (StartTime t) <= MaxDuration t)
  /\ (MaxDuration t = 0
      \/ exists r, In r (GetRows t) /\ MaxDuration t = TotalDuration r (StartTime t)).
Proof. exact (MaxDuration_bounds t). Qed.

End ModelFacts.

(** ** timeline.go: validation *)

Module ValidationFacts.

Import GoTime Layout Spec Shape.

(** The scan of [setup] on events without a negative duration. *)
Lemma scanEvents_total (es : list Event) (s : scan) :
  existsb negativeDuration es = false ->
  scanEvents es s
  = inr (mkScan (hasTime s || existsb timed es) (hasNoTime s || existsb untimed es)
                (scannedTotal es (duration s))).
Proof.
  revert s. induction es as [| e es IH]; intros s H;
    cbn [scanEvents existsb scannedTotal fold_left].
  - rewrite !orb_false_r. destruct s; reflexivity.
  - cbn [existsb] in H. apply orb_false_iff in H. destruct H as [He H].
    unfold negativeDuration in He. rewrite He.
    unfold timed at 1, untimed at 1.
    destruct (IsZero (Time e)); cbn [negb]; rewrite (IH _ H); cbn [hasTime hasNoTime duration];
      rewrite ?orb_true_r, ?orb_false_r, ?orb_true_l, ?orb_false_l; reflexivity.
Qed.

Lemma setup_outcome (t : Timeline) :
  setup t
  = if existsb negativeDuration (allEvents t) then inl ErrNegativeDuration
    else if existsb timed (allEvents t) && existsb untimed (allEvents t)
         then inl ErrInconsistentTime
         else if scannedTotal (allEvents t) 0 =? 0 then inl ErrNoPositiveDuration
              else inr (initialise t).
Proof.
  destruct (existsb negativeDuration (allEvents t)) eqn:N.
  - apply LayoutFacts.setup_negative. exact N.
  - unfold setup. rewrite LayoutFacts.scanRows_flat.
    fold (allEvents t). rewrite (scanEvents_total _ _ N). reflexivity.
Qed.

Lemma scannedTotal_zero (es : list Event) :
  (forall e, In e es -> Duration e = 0) -> scannedTotal es 0 = 0.
Proof.
  unfold scannedTotal. induction es as [| e es IH]; intros H; cbn [fold_left]; [reflexivity |].
  rewrite (H e (or_introl eq_refl)). change (Int64.add 0 0) with 0.
  apply IH. intros e' He'. apply H. right. exact He'.
Qed.

Lemma scannedTotal_exact (es : list Event) :
  forall total : Z,
    (forall e, In e es -> 0 <= Duration e) -> 0 <= total ->
    fold_left Z.add (map Duration es) total <= Int64.max_int ->
    scannedTotal es total = fold_left Z.add (map Duration es) total.
Proof.
  unfold scannedTotal.
  induction es as [| e es IH]; intros total Hd Ht Hs; cbn [fold_left map]; [reflexivity |].
  cbn [map fold_left] in Hs.
  assert (De : 0 <= Duration e) by (apply Hd; left; reflexivity).
  assert (Hle : total + Duration e <= Int64.max_int).
  { etransitivity; [| exact Hs]. apply LayoutFacts.fold_add_ge.
    intros x Hx. apply in_map_iff in Hx. destruct Hx as [e' [<- He']].
    apply Hd. right. exact He'. }
  rewrite Int64Facts.add_small
    by (unfold Int64.in_range, Int64.min_int, Int64.max_int in *; lia).
  apply IH; try lia. intros e' He'. apply Hd. right. exact He'.
Qed.

Lemma In_allEvents (t : Timeline) (e : Event) :
  In e (allEvents t) <-> exists r, In r (rows t) /\ In e (events r).
Proof. unfold allEvents. apply in_flat_map. Qed.

Lemma accepted_timeline (t t' : Timeline) :
  setup t = inr t' ->
  (forall r e, In r (rows t) -> In e (events r) -> 0 <= Duration e)
  /\ consistentTimes t
  /\ (exists r e, In r (rows t) /\ In e (events r) /\ 0 < Duration e)
  /\ rows t' = rows t.
Proof.
  intros S. rewrite setup_outcome in S.
  destruct (existsb negativeDuration (allEvents t)) eqn:N; [discriminate |].
  destruct (existsb timed (allEvents t) && existsb untimed (allEvents t)) eqn:M;
    [discriminate |].
  destruct (scannedTotal (allEvents t) 0 =? 0) eqn:Z0; [discriminate |].
  injection S as <-.
  assert (Hd : forall e, In e (allEvents t) -> 0 <= Duration e).
  { intros e He. destruct (Z.ltb_spec (Duration e) 0) as [L | L]; [| exact L].
    assert (X : existsb negativeDuration (allEvents t) = true).
    { apply existsb_exists. exists e. split; [exact He |].
      unfold negativeDuration. apply Z.ltb_lt. exact L. }
    rewrite X in N. discriminate. }
  split; [| split; [| split; [| reflexivity]]].
  - intros r e Hr He. apply Hd. apply In_allEvents. exists r. auto.
  - unfold consistentTimes. apply andb_false_iff in M. exact M.
  - destruct (existsb positiveDuration (allEvents t)) eqn:P.
    + apply existsb_exists in P. destruct P as [e [He Pe]].
      apply In_allEvents in He. destruct He as [r [Hr He]].
      exists r, e. unfold positiveDuration in Pe. apply Z.ltb_lt in Pe. auto.
    + exfalso. apply Z.eqb_neq in Z0. apply Z0. apply scannedTotal_zero.
      intros e He. specialize (Hd e He).
      destruct (Z.ltb_spec 0 (Duration e)) as [L | L]; [| lia].
      assert (X : existsb positiveDuration (allEvents t) = true).
      { apply existsb_exists. exists e. split; [exact He |].
        unfold positiveDuration. apply Z.ltb_lt. exact L. }
      rewrite X in P. discriminate.
Qed.

(** X8.  A timeline that [setup] accepts has no event of negative duration,
    has start times that are all set or all unset, and has an event of
    positive duration; [setup] leaves its rows as they are. *)
Theorem an_accepted_timeline_is_consistent (t t' : Timeline) :
  setup t = inr t' ->
  (forall r e, In r (rows t) -> In e (events r) -> 0 <= Duration e)
  /\ consistentTimes t
  /\ (exists r e, In r (rows t) /\ In e (events r) /\ 0 < Duration e)
  /\ rows t' = rows t.
Proof. exact (accepted_timeline t t'). Qed.

Lemma an_accepted_timeline_is_consistent_witness :
  setup nested = inr (initialise nested)
  /\ (forall r e, In r (rows nested) -> In e (events r) -> 0 <= Duration e)
  /\ consistentTimes nested
  /\ (exists r e, In r (rows nested) /\ In e (events r) /\ 0 < Duration e)
  /\ rows (initialise nested) = rows nested.
Proof.
  assert (S : setup nested = inr (initialise nested)) by reflexivity.
  split; [exact S |].
  exact (an_accepted_timeline_is_consistent nested (initialise nested) S).
Defined.

(** X9.  Conversely [setup] accepts a timeline, and [Generate] returns what
    the encoder makes of its element tree, when no duration is negative, the
    start times are consistent, some duration is positive and the sum of all
    durations fits a Duration. *)
Theorem a_consistent_timeline_is_accepted
    fmt_f Duration_String Encode (t : Timeline) (r0 : Row) (e0 : Event) :
  (forall r e, In r (rows t) -> In e (events r) -> 0 <= Duration e) ->
  consistentTimes t ->
  In r0 (rows t) -> In e0 (events r0) -> 0 < Duration e0 ->
  fold_left Z.add (map Duration (allEvents t)) 0 <= Int64.max_int ->
  setup t = inr (initialise t)
  /\ Generate fmt_f Duration_String Encode t
     = match Encode (root fmt_f Duration_String (initialise t)) with
       | Some document => (document, None)
       | None => (EmptyString, Some EncodeFailed)
       end.
Proof.
  intros Hd Hc Hr0 He0 Hp Hs.
  assert (S : setup t = inr (initialise t)).
  { rewrite setup_outcome.
    rewrite (LayoutFacts.no_negative_duration t Hd).
    assert (M : existsb timed (allEvents t) && existsb untimed (allEvents t) = false)
      by (apply andb_false_iff; exact Hc).
    rewrite M.
    assert (Hd' : forall e, In e (allEvents t) -> 0 <= Duration e).
    { intros e He. apply In_allEvents in He. destruct He as [r [Hr He]].
      apply (Hd r e Hr He). }
    rewrite (scannedTotal_exact _ 0 Hd' (Z.le_refl 0) Hs).
    assert (P : 0 < fold_left Z.add (map Duration (allEvents t)) 0).
    { assert (I : In e0 (allEvents t)) by (apply In_allEvents; exists r0; auto).
      apply in_split in I. destruct I as [l1 [l2 I]]. rewrite I.
      rewrite map_app, fold_left_app. cbn [map fold_left].
      assert (A : 0 <= fold_left Z.add (map Duration l1) 0).
      { apply LayoutFacts.fold_add_ge. intros x Hx. apply in_map_iff in Hx.
        destruct Hx as [e [<- He]]. apply Hd'. rewrite I. apply in_or_app. left. exact He. }
      assert (B : fold_left Z.add (map Duration l1) 0 + Duration e0
                  <= fold_left Z.add (map Duration l2)
                               (fold_left Z.add (map Duration l1) 0 + Duration e0)).
      { apply LayoutFacts.fold_add_ge. intros x Hx. apply in_map_iff in Hx.
        destruct Hx as [e [<- He]]. apply Hd'. rewrite I. apply in_or_app.
        right. right. exact He. }
      lia. }
    destruct (Z.eqb_spec (fold_left Z.add (map Duration (allEvents t)) 0) 0); [lia |].
    reflexivity. }
  split; [exact S |]. unfold Generate. rewrite S.
  destruct (Encode (root fmt_f Duration_String (initialise t))); reflexivity.
Qed.

Lemma a_consistent_timeline_is_accepted_witness :
  exists r0 e0,
    (forall r e, In r (rows nested) -> In e (events r) -> 0 <= Duration e)
    /\ consistentTimes nested
    /\ In r0 (rows nested) /\ In e0 (events r0) /\ 0 < Duration e0
    /\ fold_left Z.add (map Duration (allEvents nested)) 0 <= Int64.max_int
    /\ setup nested = inr (initialise nested)
    /\ Generate plain_f plain_d plain_encode nested
       = match plain_encode (root plain_f plain_d (initialise nested)) with
         | Some document => (document, None)
         | None => (EmptyString, Some EncodeFailed)
         end.
Proof.
  exists (mkRow 20 0 [era "Process" (10 * Second) 0]), (era "Process" (10 * Second) 0).
  assert (Hd : forall r e, In r (rows nested) -> In e (events r) -> 0 <= Duration e).
  { intros r e [<- | [<- | []]] He; cbn [events] in He;
      repeat (destruct He as [<- | He]; [vm_compute; discriminate |]); destruct He. }
  assert (Hc : consistentTimes nested) by (left; reflexivity).
  assert (Hr : In (mkRow 20 0 [era "Process" (10 * Second) 0]) (rows nested))
    by (left; reflexivity).
  assert (He : In (era "Process" (10 * Second) 0)
                  (events (mkRow 20 0 [era "Process" (10 * Second) 0])))
    by (left; reflexivity).
  assert (Hp : 0 < Duration (era "Process" (10 * Second) 0)) by reflexivity.
  assert (Hs : fold_left Z.add (map Duration (allEvents nested)) 0 <= Int64.max_int)
    by (vm_compute; discriminate).
  split; [exact Hd |]. split; [exact Hc |]. split; [exact Hr |]. split; [exact He |].
  split; [exact Hp |]. split; [exact Hs |].
  exact (a_consistent_timeline_is_accepted plain_f plain_d plain_encode nested
           _ _ Hd Hc Hr He Hp Hs).
Defined.

(** X10.  A timeline whose events all have the duration zero (one without
    events among them) and whose start times are consistent is refused with
    the error of the zero total, and [Generate] returns no document. *)
Theorem zero_durations_are_refused fmt_f Duration_String Encode (t : Timeline) :
  (forall r e, In r (rows t) -> In e (events r) -> Duration e = 0) ->
  consistentTimes t ->
  setup t = inl ErrNoPositiveDuration
  /\ Generate fmt_f Duration_String Encode t
     = (EmptyString, Some (SetupFailed ErrNoPositiveDuration)).
Proof.
  intros Hz Hc.
  assert (S : setup t = inl ErrNoPositiveDuration).
  { rewrite setup_outcome.
    rewrite (LayoutFacts.no_negative_duration t)
      by (intros r e Hr He; rewrite (Hz r e Hr He); lia).
    assert (M : existsb timed (allEvents t) && existsb untimed (allEvents t) = false)
      by (apply andb_false_iff; exact Hc).
    rewrite M. rewrite scannedTotal_zero; [reflexivity |].
    intros e He. apply In_allEvents in He. destruct He as [r [Hr He]].
    apply (Hz r e Hr He). }
  split; [exact S |]. apply LayoutFacts.Generate_of_setup_error. exact S.
Qed.

Lemma zero_durations_are_refused_witness :
  (forall r e, In r (rows idle) -> In e (events r) -> Duration e = 0)
  /\ consistentTimes idle
  /\ setup idle = inl ErrNoPositiveDuration
  /\ Generate plain_f plain_d plain_encode idle
     = (EmptyString, Some (SetupFailed ErrNoPositiveDuration)).
Proof.
  assert (Hz : forall r e, In r (rows idle) -> In e (events r) -> Duration e = 0).
  { intros r e [<- | []] [<- | []]. reflexivity. }
  assert (Hc : consistentTimes idle) by (left; reflexivity).
  split; [exact Hz |]. split; [exact Hc |].
  exact (zero_durations_are_refused plain_f plain_d plain_encode idle Hz Hc).
Defined.

End ValidationFacts.

(** ** timeline.go: geometry *)

Module GeometryFacts.

Import GoTime Layout Spec Shape.

(** The first variable of the loop of [TotalDuration] is the exact sum. *)
Lemma TotalDuration_total (o : Z) (es : list Event) :
  forall total m : Z,
    (forall e, In e es -> 0 <= Duration e) -> 0 <= total ->
    fold_left Z.add (map Duration es) total <= Int64.max_int ->
    fst (fold_left (TotalDuration_step o) es (total, m))
    = fold_left Z.add (map Duration es) total.
Proof.
  induction es as [| e es IH]; intros total m Hd Ht Hs; cbn [fold_left map];
    [reflexivity |].
  cbn [map fold_left] in Hs.
  assert (De : 0 <= Duration e) by (apply Hd; left; reflexivity).
  assert (Hle : total + Duration e <= Int64.max_int).
  { etransitivity; [| exact Hs]. apply LayoutFacts.fold_add_ge.
    intros x Hx. apply in_map_iff in Hx. destruct Hx as [e' [<- He']].
    apply Hd. right. exact He'. }
  assert (Ea : Int64.add total (Duration e) = total + Duration e).
  { apply Int64Facts.add_small.
    unfold Int64.in_range, Int64.min_int, Int64.max_int in *. lia. }
  assert (Hd' : forall e', In e' es -> 0 <= Duration e')
    by (intros e' He'; apply Hd; right; exact He').
  unfold TotalDuration_step at 2. rewrite Ea.
  destruct (negb (IsZero o) && negb (IsZero (Time e)));
    [destruct (_ >? m) |]; apply IH; try assumption; lia.
Qed.

Lemma TotalDuration_ge_total (r : Row) (o : Z) :
  (forall e, In e (events r) -> 0 <= Duration e) ->
  fold_left Z.add (map Duration (events r)) 0 <= Int64.max_int ->
  fold_left Z.add (map Duration (events r)) 0 <= TotalDuration r o.
Proof.
  intros Hd Hs. unfold TotalDuration.
  pose proof (TotalDuration_total o (events r) 0 0 Hd (Z.le_refl 0) Hs) as T.
  destruct (fold_left (TotalDuration_step o) (events r) (0, 0)) as [total m].
  cbn [fst] in T. lia.
Qed.

Lemma sum_ge_member (es : list Event) (e : Event) :
  (forall e', In e' es -> 0 <= Duration e') -> In e es ->
  Duration e <= fold_left Z.add (map Duration es) 0.
Proof.
  intros Hd He. apply in_split in He. destruct He as [l1 [l2 ->]].
  rewrite map_app, fold_left_app. cbn [map fold_left].
  assert (A : 0 <= fold_left Z.add (map Duration l1) 0).
  { apply LayoutFacts.fold_add_ge. intros x Hx. apply in_map_iff in Hx.
    destruct Hx as [e' [<- He']]. apply Hd. apply in_or_app. left. exact He'. }
  assert (B : fold_left Z.add (map Duration l1) 0 + Duration e
              <= fold_left Z.add (map Duration l2)
                           (fold_left Z.add (map Duration l1) 0 + Duration e)).
  { apply LayoutFacts.fold_add_ge. intros x Hx. apply in_map_iff in Hx.
    destruct Hx as [e' [<- He']]. apply Hd. apply in_or_app. right. right. exact He'. }
  lia.
Qed.

Lemma splitsFrom_length (pre es : list Event) :
  List.length (splitsFrom pre es) = List.length es.
Proof.
  revert pre. induction es as [| e es IH]; intros pre; cbn [splitsFrom List.length];
    [reflexivity | rewrite IH; reflexivity].
Qed.

Lemma splits_length (rs : list Row) :
  List.length (flat_map (fun r => splits (events r)) rs)
  = List.length (flat_map events rs).
Proof.
  induction rs as [| r rs IH]; cbn [flat_map]; [reflexivity |].
  rewrite !length_app, IH. unfold splits. rewrite splitsFrom_length. reflexivity.
Qed.

Lemma accepted_span_is_positive (t t' : Timeline) :
  setup t = inr t' -> rowsFit t -> 0 < maxDuration t'.
Proof.
  intros S Hf.
  destruct (ValidationFacts.accepted_timeline t t' S)
    as [Hd [_ [[r [e [Hr [He Hp]]]] _]]].
  rewrite (LayoutFacts.setup_fields t t' S). cbn [maxDuration initialise].
  pose proof (proj1 (proj2 (ModelFacts.MaxDuration_bounds t)) r Hr) as M.
  pose proof (TotalDuration_ge_total r (StartTime t) (fun e' => Hd r e' Hr) (Hf r Hr)) as T.
  pose proof (sum_ge_member (events r) e (fun e' => Hd r e' Hr) He) as G.
  lia.
Qed.

(** X11.  In a timeline that [setup] accepts and whose rows have sums of
    durations that fit a Duration, the largest span is positive: the loop
    over the rows never takes its [break], and one group is drawn for each
    event. *)
Theorem every_event_of_an_accepted_timeline_is_drawn fmt_f (t t' : Timeline) :
  setup t = inr t' -> rowsFit t ->
  0 < maxDuration t'
  /\ List.length (drawn fmt_f t') = List.length (allEvents t).
Proof.
  intros S Hf. pose proof (accepted_span_is_positive t t' S Hf) as P.
  split; [exact P |].
  pose proof (LayoutFacts.drawRows_placed fmt_f t' (rows t') (marginTop t')) as F.
  destruct (Z.leb_spec (maxDuration t') 0) as [L | _]; [lia |].
  unfold drawn. rewrite (Forall2_length F), splits_length.
  rewrite (LayoutFacts.setup_fields t t' S). reflexivity.
Qed.

Lemma every_event_of_an_accepted_timeline_is_drawn_witness :
  setup nested = inr (initialise nested) /\ rowsFit nested
  /\ 0 < maxDuration (initialise nested)
  /\ List.length (drawn plain_f (initialise nested)) = List.length (allEvents nested).
Proof.
  assert (S : setup nested = inr (initialise nested)) by reflexivity.
  assert (Hf : rowsFit nested).
  { intros r [<- | [<- | []]]; vm_compute; discriminate. }
  split; [exact S |]. split; [exact Hf |].
  exact (every_event_of_an_accepted_timeline_is_drawn plain_f nested (initialise nested)
           S Hf).
Defined.

(** *** The rectangles stay inside the content *)

Lemma splitsFrom_In (p es pre : list Event) (e : Event) :
  In (pre, e) (splitsFrom p es) ->
  exists l1 post, pre = p ++ l1 /\ es = l1 ++ e :: post.
Proof.
  revert p. induction es as [| e' es IH]; intros p H; [destruct H |].
  cbn [splitsFrom] in H. destruct H as [H | H].
  - injection H as <- <-. exists [], es. rewrite app_nil_r. split; reflexivity.
  - destruct (IH _ H) as [l1 [post [-> ->]]].
    exists (e' :: l1), post. rewrite <- app_assoc. split; reflexivity.
Qed.

Lemma Forall2_Forall {A B : Type} (P : A -> B -> Prop) (Q : A -> Prop)
    (l1 : list A) (l2 : list B) :
  Forall2 P l1 l2 -> (forall a b, In b l2 -> P a b -> Q a) -> Forall Q l1.
Proof.
  induction 1 as [| a b l1 l2 Hab F IH]; intros H; constructor.
  - apply (H a b); [left; reflexivity | exact Hab].
  - apply IH. intros a' b' Hb'. apply H. right. exact Hb'.
Qed.

Lemma sum_app (l1 l2 : list Event) (a : Z) :
  fold_left Z.add (map Duration (l1 ++ l2)) a
  = fold_left Z.add (map Duration l1) a + fold_left Z.add (map Duration l2) 0.
Proof.
  rewrite map_app, fold_left_app. generalize (fold_left Z.add (map Duration l1) a).
  induction l2 as [| e l2 IH]; intros b; cbn [map fold_left]; [lia |].
  rewrite IH, (IH (0 + Duration e)). lia.
Qed.

(** Where an event of an accepted timeline is placed, in nanoseconds: not
    before the origin, and ending not after the largest span. *)
Lemma elapsed_bounds (t : Timeline) (r : Row) (pre post : list Event) (e : Event) :
  setup t = inr (initialise t) ->
  fits t ->
  existsb timed (allEvents t) = false
  \/ (forall r', In r' (rows t) -> existsb timed (events r') = true) ->
  In r (rows t) -> events r = pre ++ e :: post ->
  0 <= elapsed (initialise t) pre e
  /\ 0 <= Duration e
  /\ elapsed (initialise t) pre e + Duration e <= MaxDuration t.
Proof.
  intros S Hf Hm Hr Hev.
  destruct (ValidationFacts.accepted_timeline t _ S) as [Hd [Hc _]].
  destruct (LayoutFacts.spans_are_measured_from_the_earliest_start t Hd Hm Hf)
    as [St [Sp _]].
  pose proof (proj1 (proj2 (ModelFacts.MaxDuration_bounds t)) r Hr) as M.
  rewrite (Sp r Hr) in M.
  assert (He : In e (events r)) by (rewrite Hev; apply in_or_app; right; left; reflexivity).
  assert (De : 0 <= Duration e) by (apply (Hd r e Hr He)).
  destruct (Hf r Hr) as [Hsum Hb].
  assert (Hdr : forall e', In e' (events r) -> 0 <= Duration e')
    by (intros e'; apply Hd; exact Hr).
  assert (Tot : 0 <= fold_left Z.add (map Duration pre) 0
                /\ fold_left Z.add (map Duration pre) 0 + Duration e
                   <= fold_left Z.add (map Duration (events r)) 0).
  { rewrite Hev, sum_app. cbn [map fold_left].
    split.
    - apply LayoutFacts.fold_add_ge. intros x Hx. apply in_map_iff in Hx.
      destruct Hx as [e' [<- He']]. apply Hdr. rewrite Hev. apply in_or_app. left. exact He'.
    - assert (B : 0 + Duration e <= fold_left Z.add (map Duration post) (0 + Duration e)).
      { apply LayoutFacts.fold_add_ge. intros x Hx. apply in_map_iff in Hx.
        destruct Hx as [e' [<- He']]. apply Hdr. rewrite Hev. apply in_or_app.
        right. right. exact He'. }
      lia. }
  unfold elapsed. cbn [earliest initialise]. rewrite St.
  unfold rowSpan in M.
  destruct (origin t) as [start |] eqn:O; cbn [instant].
  - assert (Ns : start <> 0)
      by (apply (LayoutFacts.fold_earlier_nonzero (allEvents t) None
                   LayoutFacts.nonzero_None start O)).
    assert (Z0 : IsZero start = false) by (apply Z.eqb_neq; exact Ns).
    rewrite Z0.
    assert (Te : timed e = true).
    { destruct Hc as [Hc | Hc].
      - unfold origin in O. rewrite (LayoutFacts.fold_earlier_untimed _ _ Hc) in O.
        discriminate.
      - destruct (timed e) eqn:T; [reflexivity |].
        assert (X : existsb untimed (allEvents t) = true).
        { apply (LayoutFacts.existsb_allEvents untimed t r e Hr He).
          unfold untimed. unfold timed in T. apply negb_false_iff. exact T. }
        rewrite X in Hc. discriminate. }
    assert (Lb : start <= Time e).
    { apply (proj2 (LayoutFacts.fold_earlier_lower_bound _ _ _ O)); [| exact Te].
      apply ValidationFacts.In_allEvents. exists r. auto. }
    pose proof (Hb start e eq_refl He Te) as Ub.
    unfold Sub. rewrite Int64Facts.clamp_small
      by (unfold Int64.in_range, Int64.min_int, Int64.max_int in *; lia).
    split; [lia |]. split; [exact De |].
    etransitivity; [| exact M].
    apply ModelFacts.fold_max_In.
    apply (in_map (fun e' => Time e' - start + Duration e')).
    apply filter_In. auto.
  - change (IsZero 0) with true. cbv iota.
    assert (Ce : cursorAfter pre = fold_left Z.add (map Duration pre) 0).
    { apply (ValidationFacts.scannedTotal_exact pre 0).
      - intros e' He'. apply Hdr. rewrite Hev. apply in_or_app. left. exact He'.
      - lia.
      - lia. }
    rewrite Ce. lia.
Qed.

Lemma scale_nonneg (t : Timeline) :
  (0 <= contentWidth t)%Q -> 0 < maxDuration t -> (0 <= scale t)%Q.
Proof.
  intros Hc Hm. unfold scale, Qdiv. apply Qmult_le_0_compat; [exact Hc |].
  apply Qinv_le_0_compat. change 0%Q with (inject_Z 0). rewrite <- Zle_Qle. lia.
Qed.

Lemma scale_full (t : Timeline) :
  0 < maxDuration t -> (scale t * inject_Z (maxDuration t) == contentWidth t)%Q.
Proof.
  intros Hm. unfold scale. field.
  intros E. unfold Qeq in E. cbn [Qnum Qden inject_Z] in E. lia.
Qed.

Lemma placed_inside (t : Timeline) (el : Element) (pre : list Event) (e : Event) :
  (0 <= contentWidth t)%Q -> 0 < maxDuration t ->
  0 <= elapsed t pre e -> 0 <= Duration e ->
  elapsed t pre e + Duration e <= maxDuration t ->
  placed t el (pre, e) -> inside t el.
Proof.
  intros Hc Hm H0 Hd Hu [x [w [R [Ex Ew]]]]. cbn [fst snd] in Ex, Ew.
  pose proof (scale_nonneg t Hc Hm) as Sn.
  assert (A : (0 <= scale t * inject_Z (elapsed t pre e))%Q).
  { apply Qmult_le_0_compat; [exact Sn |].
    change 0%Q with (inject_Z 0). rewrite <- Zle_Qle. exact H0. }
  assert (B : (0 <= scale t * inject_Z (Duration e))%Q).
  { apply Qmult_le_0_compat; [exact Sn |].
    change 0%Q with (inject_Z 0). rewrite <- Zle_Qle. exact Hd. }
  assert (C : (scale t * inject_Z (elapsed t pre e + Duration e) <= contentWidth t)%Q).
  { rewrite <- (scale_full t Hm). rewrite !(Qmult_comm (scale t)).
    apply Qmult_le_compat_r; [| exact Sn]. rewrite <- Zle_Qle. exact Hu. }
  exists x, w. split; [exact R |]. rewrite Ex, Ew. split; [| split].
  - rewrite <- (Qplus_0_r (marginLeft t)) at 1. apply Qplus_le_r. exact A.
  - exact B.
  - rewrite inject_Z_plus in C.
    rewrite <- Qplus_assoc. apply Qplus_le_r.
    rewrite <- Qmult_plus_distr_r. exact C.
Qed.

(** X12.  In a timeline that [setup] accepts, whose sums fit a Duration and
    whose precision is not negative, every rectangle drawn lies inside the
    content: it starts at or after the left margin, has a width that is not
    negative and ends at or before [marginLeft + contentWidth].  (The
    timeline has no event with a start time, or an event with one in every
    row: the case in which [StartTime] is the earliest start time.) *)
Theorem drawn_rectangles_stay_inside_the_content fmt_f (t t' : Timeline) :
  setup t = inr t' ->
  fits t ->
  existsb timed (allEvents t) = false
  \/ (forall r, In r (rows t) -> existsb timed (events r) = true) ->
  (0 <= precision t)%Q ->
  Forall (inside t') (drawn fmt_f t').
Proof.
  intros S Hf Hm Hp.
  pose proof (LayoutFacts.setup_fields t t' S) as E. subst t'.
  assert (Hfit : rowsFit t) by (intros r Hr; apply (proj1 (Hf r Hr))).
  pose proof (accepted_span_is_positive t _ S Hfit) as P.
  assert (Hc : (0 <= contentWidth (initialise t))%Q).
  { cbn [contentWidth initialise]. apply Q.min_glb; [exact Hp |].
    change 0%Q with (inject_Z 0). rewrite <- Zle_Qle.
    apply (proj1 (proj1 (ModelFacts.MaxDuration_bounds t))). }
  pose proof (LayoutFacts.drawRows_placed fmt_f (initialise t) (rows (initialise t))
                (marginTop (initialise t))) as F.
  destruct (Z.leb_spec (maxDuration (initialise t)) 0) as [L | _]; [lia |].
  unfold drawn. refine (Forall2_Forall _ _ _ _ F _).
  intros el [pre e] Hin Hpl.
  apply in_flat_map in Hin. destruct Hin as [r [Hr Hin]].
  unfold splits in Hin. apply splitsFrom_In in Hin.
  destruct Hin as [l1 [post [Epre Eev]]]. cbn [app] in Epre. subst l1.
  change (rows (initialise t)) with (rows t) in Hr.
  destruct (elapsed_bounds t r pre post e S Hf Hm Hr Eev) as [B0 [Bd Bu]].
  apply (placed_inside (initialise t) el pre e Hc P B0 Bd Bu Hpl).
Qed.

Lemma fits_staggered : fits staggered.
Proof.
  intros r Hr. split.
  - destruct Hr as [<- | [<- | []]]; vm_compute; discriminate.
  - intros start e Ho He _. injection Ho as <-.
    destruct Hr as [<- | [<- | []]]; cbn [events] in He;
      repeat (destruct He as [<- | He]; [vm_compute; discriminate |]); destruct He.
Qed.

Lemma drawn_rectangles_stay_inside_the_content_witness :
  setup staggered = inr (initialise staggered)
  /\ fits staggered
  /\ (existsb timed (allEvents staggered) = false
      \/ (forall r, In r (rows staggered) -> existsb timed (events r) = true))
  /\ (0 <= precision staggered)%Q
  /\ Forall (inside (initialise staggered)) (drawn plain_f (initialise staggered)).
Proof.
  assert (S : setup staggered = inr (initialise staggered)) by reflexivity.
  assert (Hm : existsb timed (allEvents staggered) = false
               \/ (forall r, In r (rows staggered) -> existsb timed (events r) = true)).
  { right. intros r [<- | [<- | []]]; reflexivity. }
  assert (Hp : (0 <= precision staggered)%Q) by (vm_compute; discriminate).
  split; [exact S |]. split; [exact fits_staggered |]. split; [exact Hm |].
  split; [exact Hp |].
  exact (drawn_rectangles_stay_inside_the_content plain_f staggered (initialise staggered)
           S fits_staggered Hm Hp).
Defined.

(** *** The rows are stacked *)

Lemma drawEvent_box fmt_f (t : Timeline) (e : Event) (y h c : Z) :
  boxOf (fst (drawEvent fmt_f t e y h c))
  = Some (inject_Z y,
          inject_Z (match Type_ e with
                    | EventTypeEra => eraHeight t y
                    | EventTypeTask => h
                    end)).
Proof.
  unfold drawEvent, eraHeight.
  destruct (Type_ e); cbn [EventType_eqb fst boxOf];
    destruct (String.eqb (Title e) EmptyString); cbn; reflexivity.
Qed.

Lemma drawEvents_stacked fmt_f (t : Timeline) (y : Z) (r : Row) (es : list Event) :
  forall c : Z,
    Forall2 (stacked t) (drawEvents fmt_f t y (height r) es c)
            (map (fun e => (y, r, e)) es).
Proof.
  induction es as [| e es IH]; intros c; [constructor |].
  rewrite LayoutFacts.drawEvents_cons. cbn [map]. constructor; [| apply IH].
  unfold stacked. apply drawEvent_box.
Qed.

(** X13.  The groups are drawn row after row: the rectangle of an event
    starts at the ordinate of its row, the first row starting at the top
    margin and each next one lower by the height and the separator of the
    row before; it has the height of the row for a task, and for an era the
    height [totalHeight - y - marginBottom - 3 * tickHeight]. *)
Theorem drawn_rows_are_stacked fmt_f (t : Timeline) :
  Forall2 (stacked t) (drawn fmt_f t)
          (if maxDuration t <=? 0 then []
           else flat_map (fun yr => map (fun e => (fst yr, snd yr, e)) (events (snd yr)))
                         (rowTops (marginTop t) (rows t))).
Proof.
  unfold drawn. generalize (marginTop t). generalize (rows t). intros rs.
  induction rs as [| r rs IH]; intros y; cbn [drawRows rowTops flat_map].
  - destruct (maxDuration t <=? 0); constructor.
  - specialize (IH (Int64.add y (Int64.add (height r) (separatorHeight r)))).
    destruct (maxDuration t <=? 0); [constructor |].
    apply Forall2_app; [| exact IH]. cbn [fst snd]. apply drawEvents_stacked.
Qed.

(** *** Labels *)






(** *** The ticks stay on the axis *)





(** *** Spans *)

(** X16.  When no duration is negative, the sums fit a Duration, and the
    timeline has no event with a start time or one in every row, the span
    [TotalDuration] returns for a row, measured from [StartTime], is the
    larger of the sum of its durations and of the ends [Time - origin +
    Duration] of its timed events, the origin being the earliest start time
    of the timeline; and [MaxDuration] is the largest of these spans. *)
Theorem spans_follow_the_earliest_start (t : Timeline) :
  (forall r e, In r (rows t) -> In e (events r) -> 0 <= Duration e) ->
  existsb timed (allEvents t) = false
  \/ (forall r, In r (rows t) -> existsb timed (events r) = true) ->
  fits t ->
  StartTime t = instant (origin t)
  /\ (forall r, In r (rows t) -> TotalDuration r (StartTime t) = rowSpan (origin t) r)
  /\ MaxDuration t = maxSpan t.
Proof. exact (LayoutFacts.spans_are_measured_from_the_earliest_start t). Qed.

Lemma spans_follow_the_earliest_start_witness :
  (forall r e, In r (rows staggered) -> In e (events r) -> 0 <= Duration e)
  /\ (existsb timed (allEvents staggered) = false
      \/ (forall r, In r (rows staggered) -> existsb timed (events r) = true))
  /\ fits staggered
  /\ StartTime staggered = instant (origin staggered)
  /\ (forall r, In r (rows staggered) ->
                TotalDuration r (StartTime staggered) = rowSpan (origin staggered) r)
  /\ MaxDuration staggered = maxSpan staggered.
Proof.
  assert (Hd : forall r e, In r (rows staggered) -> In e (events r) -> 0 <= Duration e).
  { intros r e [<- | [<- | []]] He; cbn [events] in He;
      repeat (destruct He as [<- | He]; [vm_compute; discriminate |]); destruct He. }
  assert (Hm : existsb timed (allEvents staggered) = false
               \/ (forall r, In r (rows staggered) -> existsb timed (events r) = true)).
  { right. intros r [<- | [<- | []]]; reflexivity. }
  split; [exact Hd |]. split; [exact Hm |]. split; [exact fits_staggered |].
  exact (spans_follow_the_earliest_start staggered Hd Hm fits_staggered).
Defined.

(** *** Placement from the earliest start *)

Lemma Forall2_impl_In {A B : Type} (P Q : A -> B -> Prop) (l1 : list A) (l2 : list B) :
  Forall2 P l1 l2 -> (forall a b, In b l2 -> P a b -> Q a b) -> Forall2 Q l1 l2.
Proof.
  induction 1 as [| a b l1 l2 Hab F IH]; intros H; constructor.
  - apply (H a b); [left; reflexivity | exact Hab].
  - apply IH. intros a' b' Hb'. apply H. right. exact Hb'.
Qed.

(** Where the code places an event of an accepted timeline is where the
    specification does, when [StartTime] is the earliest start time. *)
Lemma elapsed_specified (t : Timeline) (r : Row) (pre post : list Event) (e : Event) :
  setup t = inr (initialise t) ->
  fits t ->
  existsb timed (allEvents t) = false
  \/ (forall r', In r' (rows t) -> existsb timed (events r') = true) ->
  In r (rows t) -> events r = pre ++ e :: post ->
  elapsed (initialise t) pre e = specElapsed t pre e.
Proof.
  intros S Hf Hm Hr Hev.
  destruct (ValidationFacts.accepted_timeline t _ S) as [Hd [Hc _]].
  destruct (LayoutFacts.spans_are_measured_from_the_earliest_start t Hd Hm Hf)
    as [St _].
  assert (He : In e (events r)) by (rewrite Hev; apply in_or_app; right; left; reflexivity).
  assert (De : 0 <= Duration e) by (apply (Hd r e Hr He)).
  destruct (Hf r Hr) as [Hsum Hb].
  assert (Hdr : forall e', In e' (events r) -> 0 <= Duration e')
    by (intros e'; apply Hd; exact Hr).
  unfold elapsed, specElapsed. cbn [earliest initialise]. rewrite St.
  destruct (origin t) as [start |] eqn:O; cbn [instant].
  - assert (Ns : start <> 0)
      by (apply (LayoutFacts.fold_earlier_nonzero (allEvents t) None
                   LayoutFacts.nonzero_None start O)).
    assert (Z0 : IsZero start = false) by (apply Z.eqb_neq; exact Ns).
    rewrite Z0.
    assert (Te : timed e = true).
    { destruct Hc as [Hc | Hc].
      - unfold origin in O. rewrite (LayoutFacts.fold_earlier_untimed _ _ Hc) in O.
        discriminate.
      - destruct (timed e) eqn:T; [reflexivity |].
        assert (X : existsb untimed (allEvents t) = true).
        { apply (LayoutFacts.existsb_allEvents untimed t r e Hr He).
          unfold untimed. unfold timed in T. apply negb_false_iff. exact T. }
        rewrite X in Hc. discriminate. }
    assert (Lb : start <= Time e).
    { apply (proj2 (LayoutFacts.fold_earlier_lower_bound _ _ _ O)); [| exact Te].
      apply ValidationFacts.In_allEvents. exists r. auto. }
    pose proof (Hb start e eq_refl He Te) as Ub.
    unfold Sub. apply Int64Facts.clamp_small.
    unfold Int64.in_range, Int64.min_int, Int64.max_int in *. lia.
  - change (IsZero 0) with true. cbv iota.
    assert (Tot : fold_left Z.add (map Duration pre) 0 + Duration e
                  <= fold_left Z.add (map Duration (events r)) 0).
    { rewrite Hev, sum_app. cbn [map fold_left].
      assert (B : 0 + Duration e <= fold_left Z.add (map Duration post) (0 + Duration e)).
      { apply LayoutFacts.fold_add_ge. intros x Hx. apply in_map_iff in Hx.
        destruct Hx as [e' [<- He']]. apply Hdr. rewrite Hev. apply in_or_app.
        right. right. exact He'. }
      lia. }
    apply (ValidationFacts.scannedTotal_exact pre 0).
    + intros e' He'. apply Hdr. rewrite Hev. apply in_or_app. left. exact He'.
    + lia.
    + lia.
Qed.

(** X28.  In a timeline that [setup] accepts, whose sums fit a Duration
    and which has no event with a start time or an event with one in every
    row, the groups drawn are those of the events, row after row and event
    after event, and the rectangle of each is the one of the specification:
    [x = marginLeft + scale * elapsed] and [width = scale * Duration], the
    scale being the content width over the largest span, and [elapsed] the
    start time less the earliest start time of the timeline when the events
    set start times, and otherwise the sum of the durations of the events
    before it in its row. *)
Theorem events_are_placed_from_the_earliest_start fmt_f (t t' : Timeline) :
  setup t = inr t' ->
  fits t ->
  existsb timed (allEvents t) = false
  \/ (forall r, In r (rows t) -> existsb timed (events r) = true) ->
  Forall2 (specified t t') (drawn fmt_f t')
          (flat_map (fun r => splits (events r)) (rows t)).
Proof.
  intros S Hf Hm.
  pose proof (LayoutFacts.setup_fields t t' S) as E. subst t'.
  assert (Hfit : rowsFit t) by (intros r Hr; apply (proj1 (Hf r Hr))).
  pose proof (accepted_span_is_positive t _ S Hfit) as P.
  destruct (ValidationFacts.accepted_timeline t _ S) as [Hd _].
  destruct (LayoutFacts.spans_are_measured_from_the_earliest_start t Hd Hm Hf)
    as [_ [_ M]].
  pose proof (LayoutFacts.drawRows_placed fmt_f (initialise t) (rows (initialise t))
                (marginTop (initialise t))) as F.
  destruct (Z.leb_spec (maxDuration (initialise t)) 0) as [L | _]; [lia |].
  unfold drawn. change (rows (initialise t)) with (rows t) in *.
  refine (Forall2_impl_In _ _ _ _ F _).
  intros el [pre e] Hin [x [w [R [Ex Ew]]]]. cbn [fst snd] in Ex, Ew.
  apply in_flat_map in Hin. destruct Hin as [r [Hr Hin]].
  unfold splits in Hin. apply splitsFrom_In in Hin.
  destruct Hin as [l1 [post [Epre Eev]]]. cbn [app] in Epre. subst l1.
  exists x, w. split; [exact R |]. cbn [fst snd].
  rewrite <- (elapsed_specified t r pre post e S Hf Hm Hr Eev).
  unfold specScale. rewrite <- M.
  change (MaxDuration t) with (maxDuration (initialise t)).
  split; [exact Ex | exact Ew].
Qed.

Lemma events_are_placed_from_the_earliest_start_witness :
  setup staggered = inr (initialise staggered)
  /\ fits staggered
  /\ (existsb timed (allEvents staggered) = false
      \/ (forall r, In r (rows staggered) -> existsb timed (events r) = true))
  /\ Forall2 (specified staggered (initialise staggered))
             (drawn plain_f (initialise staggered))
             (flat_map (fun r => splits (events r)) (rows staggered)).
Proof.
  assert (S : setup staggered = inr (initialise staggered)) by reflexivity.
  assert (Hm : existsb timed (allEvents staggered) = false
               \/ (forall r, In r (rows staggered) -> existsb timed (events r) = true)).
  { right. intros r [<- | [<- | []]]; reflexivity. }
  split; [exact S |]. split; [exact fits_staggered |]. split; [exact Hm |].
  exact (events_are_placed_from_the_earliest_start plain_f staggered (initialise staggered)
           S fits_staggered Hm).
Defined.

(** C1.  On the valid timeline [delayed] every event sets a start time, so
    that the specification places each at its start time less the earliest
    one, [T0]: the second task at ten seconds, under the scale of the
    largest span, thirteen seconds.  The second row has no events, and
    [StartTime] returns the zero instant for it: [setup] stores no origin,
    the largest span is the sum of the durations, seven seconds, and
    [drawEvent] places the second task by the cursor of its row, at four
    seconds.  (When every row holds a timed event, or no event is timed,
    the events are placed as specified:
    [events_are_placed_from_the_earliest_start].) *)
Theorem a_trailing_empty_row_places_timed_events_by_the_cursor fmt_f :
  exists t' first second x w,
    setup delayed = inr t'
    /\ existsb untimed (allEvents delayed) = false
    /\ origin delayed = Some T0
    /\ maxSpan delayed = 13 * Second
    /\ earliest t' = 0
    /\ maxDuration t' = 7 * Second
    /\ drawn fmt_f t' = [first; second]
    /\ rectangleOf second = Some (x, w)
    /\ (x == marginLeft t' + scale t' * inject_Z (4 * Second))%Q
    /\ (x == 4070 # 7)%Q
    /\ ~ (x == marginLeft t' + scale t' * inject_Z (T0 + 10 * Second - T0))%Q
    /\ ~ (x == marginLeft t'
               + specScale delayed t' * inject_Z (T0 + 10 * Second - T0))%Q.
Proof.
  exists (initialise delayed).
  pose proof (LayoutFacts.drawRows_placed fmt_f (initialise delayed)
                (rows (initialise delayed)) (marginTop (initialise delayed))) as F.
  change (maxDuration (initialise delayed) <=? 0) with false in F. cbv iota in F.
  change (flat_map (fun r => splits (events r)) (rows (initialise delayed)))
    with [([] : list Event, task "Long" (4 * Second) T0);
          ([task "Long" (4 * Second) T0], task "Short" (3 * Second) (T0 + 10 * Second))]
    in F.
  destruct (drawRows fmt_f (initialise delayed) (rows (initialise delayed))
                     (marginTop (initialise delayed)))
    as [| first [| second [| third rest]]] eqn:D;
    [inversion F | inversion F as [| ? ? ? ? _ F1]; inversion F1 |
     | inversion F as [| ? ? ? ? _ F1]; inversion F1 as [| ? ? ? ? _ F2]; inversion F2].
  assert (P2 : placed (initialise delayed) second
                      ([task "Long" (4 * Second) T0],
                       task "Short" (3 * Second) (T0 + 10 * Second))).
  { inversion F as [| ? ? ? ? _ F1]. inversion F1 as [| ? ? ? ? P2 _]. exact P2. }
  destruct P2 as [x [w [R [Ex _]]]]. cbn [fst snd] in Ex.
  exists first, second, x, w.
  split; [reflexivity |]. split; [reflexivity |]. split; [vm_compute; reflexivity |].
  split; [vm_compute; reflexivity |]. split; [vm_compute; reflexivity |].
  split; [vm_compute; reflexivity |].
  split; [exact D |]. split; [exact R |].
  change (elapsed (initialise delayed) [task "Long" (4 * Second) T0]
                  (task "Short" (3 * Second) (T0 + 10 * Second)))
    with (4 * Second) in Ex.
  split; [exact Ex |].
  split; [rewrite Ex; vm_compute; reflexivity |].
  split; intros H; rewrite Ex in H; vm_compute in H; discriminate H.
Qed.

End GeometryFacts.

(** ** timeline.go: the labels of the ticks *)

Module FormatFacts.

Import GoTime Spec.

(** [Round] of a duration that is not negative, to a positive unit: a
    multiple of the unit, at most half a unit away. *)
Lemma Round_nearest (d m : Z) :
  0 <= d -> 0 < m -> d + m <= Int64.max_int ->
  (m | Round d m) /\ 2 * Z.abs (Round d m - d) <= m.
Proof.
  intros Hd Hm Hs. unfold Round, lessThanHalf.
  destruct (Z.leb_spec m 0); [lia |].
  destruct (Z.ltb_spec d 0); [lia |].
  rewrite Z.rem_mod_nonneg by lia.
  pose proof (Z.mod_pos_bound d m Hm) as B.
  pose proof (Z.div_mod d m ltac:(lia)) as DM.
  unfold Int64.max_int in Hs.
  assert (S1 : Int64.sub d (d mod m) = d - d mod m)
    by (apply Int64Facts.wrap_small;
        unfold Int64.in_range, Int64.min_int, Int64.max_int; lia).
  assert (S2 : Int64.sub (Int64.add d m) (d mod m) = d + m - d mod m).
  { unfold Int64.add. rewrite (Int64Facts.wrap_small (d + m))
      by (unfold Int64.in_range, Int64.min_int, Int64.max_int; lia).
    apply Int64Facts.wrap_small.
    unfold Int64.in_range, Int64.min_int, Int64.max_int; lia. }
  destruct (Z.ltb_spec (d mod m + d mod m) m) as [L | L].
  - rewrite S1. split; [exists (d / m); lia | lia].
  - rewrite S2. destruct (Z.gtb_spec (d + m - d mod m) d) as [G | G]; [| lia].
    split; [exists (d / m + 1); lia | lia].
Qed.

(** X17.  The label of a time [d] that is not negative shows [d] itself up
    to a microsecond, and above it [d] rounded to the hundredth of the
    largest of the second, the millisecond and the microsecond that [d]
    exceeds: a multiple of that hundredth, at most half of it away. *)
Theorem formatDuration_keeps_two_digits (Duration_String : Z -> string) (d : Z) :
  0 <= d -> d + 10000000 <= Int64.max_int ->
  exists shown : Z,
    formatDuration Duration_String d 2 = Duration_String shown
    /\ (d <= Microsecond -> shown = d)
    /\ (Microsecond < d ->
        let hundredth :=
          if Second <? d then Second / 100
          else if Millisecond <? d then Millisecond / 100
               else Microsecond / 100 in
        (hundredth | shown) /\ 2 * Z.abs (shown - d) <= hundredth).
Proof.
  intros Hd Hs. unfold formatDuration.
  change (10 ^ 2) with 100.
  change (Z.quot Second 100) with 10000000.
  change (Z.quot Millisecond 100) with 10000.
  change (Z.quot Microsecond 100) with 10.
  change (Z.quot Nanosecond 100) with 0.
  change (Second / 100) with 10000000.
  change (Millisecond / 100) with 10000.
  change (Microsecond / 100) with 10.
  change Second with 1000000000. change Millisecond with 1000000.
  change Microsecond with 1000. change Nanosecond with 1.
  destruct (Z.gtb_spec d 1000000000) as [G1 | G1].
  { eexists. split; [reflexivity |]. split; [lia |]. intros _.
    destruct (Z.ltb_spec 1000000000 d); [| lia].
    apply Round_nearest; lia. }
  destruct (Z.gtb_spec d 1000000) as [G2 | G2].
  { eexists. split; [reflexivity |]. split; [lia |]. intros _.
    destruct (Z.ltb_spec 1000000000 d); [lia |].
    destruct (Z.ltb_spec 1000000 d); [| lia].
    apply Round_nearest; lia. }
  destruct (Z.gtb_spec d 1000) as [G3 | G3].
  { eexists. split; [reflexivity |]. split; [lia |]. intros _.
    destruct (Z.ltb_spec 1000000000 d); [lia |].
    destruct (Z.ltb_spec 1000000 d); [lia |].
    apply Round_nearest; lia. }
  destruct (Z.gtb_spec d 1) as [G4 | G4].
  { exists d. split; [reflexivity |]. split; [reflexivity | lia]. }
  exists d. split; [reflexivity |]. split; [reflexivity | lia].
Qed.

Lemma formatDuration_keeps_two_digits_witness :
  0 <= 333333333 /\ 333333333 + 10000000 <= Int64.max_int
  /\ exists shown : Z,
      formatDuration plain_d 333333333 2 = plain_d shown
      /\ (333333333 <= Microsecond -> shown = 333333333)
      /\ (Microsecond < 333333333 ->
          let hundredth :=
            if Second <? 333333333 then Second / 100
            else if Millisecond <? 333333333 then Millisecond / 100
                 else Microsecond / 100 in
          (hundredth | shown) /\ 2 * Z.abs (shown - 333333333) <= hundredth).
Proof.
  assert (Hd : 0 <= 333333333) by lia.
  assert (Hs : 333333333 + 10000000 <= Int64.max_int) by (vm_compute; discriminate).
  split; [exact Hd |]. split; [exact Hs |].
  exact (formatDuration_keeps_two_digits plain_d 333333333 Hd Hs).
Defined.

End FormatFacts.

(** ** svgtimeline.go: escaping *)

Module EscapeFacts.

Import Emitter Spec Markup.

Local Open Scope string_scope.

Lemma ReplaceAll_app (s1 s2 : string) (old : ascii) (new : string) :
  ReplaceAll (s1 ++ s2) old new = ReplaceAll s1 old new ++ ReplaceAll s2 old new.
Proof.
  induction s1 as [| c s1 IH]; cbn [append ReplaceAll]; [reflexivity |].
  destruct (Ascii.eqb c old); rewrite IH;
    [rewrite EmitterFacts.append_assoc |]; reflexivity.
Qed.

Lemma escapeXML_app (s1 s2 : string) :
  escapeXML (s1 ++ s2) = escapeXML s1 ++ escapeXML s2.
Proof. unfold escapeXML. rewrite !ReplaceAll_app. reflexivity. Qed.

Lemma escapeXML_byte (c : ascii) : escapeXML (String c EmptyString) = entity c.
Proof.
  unfold escapeXML, entity. cbn [ReplaceAll].
  destruct (Ascii.eqb_spec c amp) as [-> | _]; [reflexivity |]. cbn [ReplaceAll].
  destruct (Ascii.eqb_spec c lt) as [-> | _]; [reflexivity |]. cbn [ReplaceAll].
  destruct (Ascii.eqb_spec c gt) as [-> | _]; [reflexivity |]. cbn [ReplaceAll].
  destruct (Ascii.eqb_spec c quot) as [-> | _]; [reflexivity |]. cbn [ReplaceAll].
  destruct (Ascii.eqb_spec c apos) as [-> | _]; reflexivity.
Qed.

Lemma escapeXML_cons (c : ascii) (s : string) :
  escapeXML (String c s) = entity c ++ escapeXML s.
Proof.
  change (String c s) with (String c EmptyString ++ s).
  rewrite escapeXML_app, escapeXML_byte. reflexivity.
Qed.

(** X18.  [escapeXML] works byte by byte, in one pass over the text: each of
    the five bytes it replaces gives its entity, every other byte itself,
    the ampersand of an entity it wrote is not escaped again, and the
    escaped form of a concatenation is the concatenation of the escaped
    forms. *)
Theorem escapeXML_is_bytewise :
  escapeXML EmptyString = EmptyString
  /\ (forall (c : ascii) (s : string), escapeXML (String c s) = entity c ++ escapeXML s)
  /\ (forall s1 s2 : string, escapeXML (s1 ++ s2) = escapeXML s1 ++ escapeXML s2).
Proof.
  split; [reflexivity |]. split; [exact escapeXML_cons | exact escapeXML_app].
Qed.

Lemma entity_cases (c : ascii) :
  (c = amp /\ entity c = "&amp;")
  \/ (c = lt /\ entity c = "&lt;")
  \/ (c = gt /\ entity c = "&gt;")
  \/ (c = quot /\ entity c = "&quot;")
  \/ (c = apos /\ entity c = "&apos;")
  \/ (c <> amp /\ c <> lt /\ c <> gt /\ c <> quot /\ c <> apos
      /\ entity c = String c EmptyString).
Proof.
  unfold entity.
  destruct (Ascii.eqb_spec c amp) as [-> | N1]; [left; split; reflexivity |].
  destruct (Ascii.eqb_spec c lt) as [-> | N2]; [right; left; split; reflexivity |].
  destruct (Ascii.eqb_spec c gt) as [-> | N3];
    [right; right; left; split; reflexivity |].
  destruct (Ascii.eqb_spec c quot) as [-> | N4];
    [right; right; right; left; split; reflexivity |].
  destruct (Ascii.eqb_spec c apos) as [-> | N5];
    [right; right; right; right; left; split; reflexivity |].
  do 5 right. repeat split; assumption.
Qed.

Lemma occurs_false_cons (c c' : ascii) (s : string) :
  occurs c (String c' s) = false -> c' <> c /\ occurs c s = false.
Proof.
  cbn [occurs]. intros H. apply orb_false_iff in H. destruct H as [H1 H2].
  split; [| exact H2]. intros ->. rewrite Ascii.eqb_refl in H1. discriminate.
Qed.

(** X19.  What [escapeXML] returns holds none of the bytes [<], [>], the
    double quote and the apostrophe, whatever the text; and a text without
    any of the five bytes it replaces is returned as it is. *)
Theorem escapeXML_removes_the_markup (s : string) :
  occurs lt (escapeXML s) = false
  /\ occurs gt (escapeXML s) = false
  /\ occurs quot (escapeXML s) = false
  /\ occurs apos (escapeXML s) = false
  /\ (clean s -> escapeXML s = s).
Proof.
  pose proof (EmitterFacts.escapeXML_leaves_no_markup s) as [H1 [H2 [H3 H4]]].
  repeat (split; [assumption |]).
  induction s as [| c s IH]; intros C; [reflexivity |].
  destruct C as [C1 [C2 [C3 [C4 C5]]]].
  apply occurs_false_cons in C1, C2, C3, C4, C5.
  rewrite escapeXML_cons.
  destruct (entity_cases c) as [[E _] | [[E _] | [[E _] | [[E _] | [[E _] | E]]]]];
    try tauto.
  destruct E as [_ [_ [_ [_ [_ E]]]]]. rewrite E. cbn [append]. f_equal.
  apply IH.
  - apply (EmitterFacts.escapeXML_leaves_no_markup s).
  - apply (EmitterFacts.escapeXML_leaves_no_markup s).
  - apply (EmitterFacts.escapeXML_leaves_no_markup s).
  - apply (EmitterFacts.escapeXML_leaves_no_markup s).
  - unfold clean. tauto.
Qed.

(** X20.  [escapeXML] loses nothing: two texts with the same escaped form
    are the same text. *)
Theorem escapeXML_is_injective (s1 s2 : string) :
  escapeXML s1 = escapeXML s2 -> s1 = s2.
Proof.
  revert s2. induction s1 as [| c1 s1 IH]; intros [| c2 s2] H.
  - reflexivity.
  - rewrite escapeXML_cons in H. exfalso.
    destruct (entity_cases c2)
      as [[_ E] | [[_ E] | [[_ E] | [[_ E] | [[_ E] | [_ [_ [_ [_ [_ E]]]]]]]]]];
      rewrite E in H; discriminate H.
  - rewrite escapeXML_cons in H. exfalso.
    destruct (entity_cases c1)
      as [[_ E] | [[_ E] | [[_ E] | [[_ E] | [[_ E] | [_ [_ [_ [_ [_ E]]]]]]]]]];
      rewrite E in H; discriminate H.
  - rewrite !escapeXML_cons in H.
    assert (G : c1 = c2 /\ escapeXML s1 = escapeXML s2).
    { destruct (entity_cases c1)
        as [[A1 E1] | [[A1 E1] | [[A1 E1] | [[A1 E1] | [[A1 E1]
            | [A1 [_ [_ [_ [_ E1]]]]]]]]]];
        destruct (entity_cases c2)
          as [[A2 E2] | [[A2 E2] | [[A2 E2] | [[A2 E2] | [[A2 E2]
              | [A2 [_ [_ [_ [_ E2]]]]]]]]]];
        rewrite E1, E2 in H; cbn [append] in H;
        try discriminate H;
        try (injection H as H; split; [congruence | exact H]);
        try (injection H as Hc H; split; [exact Hc | exact H]);
        try (injection H as Hc H; exfalso; first [apply A1 | apply A2];
             first [exact Hc | symmetry; exact Hc]). }
    destruct G as [-> G]. f_equal. apply IH. exact G.
Qed.

Lemma escapeXML_is_injective_witness :
  escapeXML "a<b" = escapeXML "a<b" /\ "a<b" = "a<b".
Proof.
  assert (H : escapeXML "a<b" = escapeXML "a<b") by reflexivity.
  split; [exact H |]. exact (escapeXML_is_injective "a<b" "a<b" H).
Defined.

End EscapeFacts.

(** ** svgtimeline.go: what the document escapes *)

Module MarkupFacts.

Import Emitter Spec Markup.

Local Open Scope string_scope.

Lemma setup_initialises (t t' : Timeline) : setup t = inr t' -> t' = initialise t.
Proof.
  unfold setup. destruct (_ && _); [discriminate |].
  destruct (_ =? _)%Z; [discriminate |]. intros H. injection H as <-. reflexivity.
Qed.

(** The group of an event with a title holds the title, escaped. *)
Lemma drawEvent_title fmt_f (t : Timeline) (e : Event) (y h c : Z) :
  Title e <> EmptyString ->
  within ("<title>" ++ escapeXML (Title e) ++ "</title>")
         (fst (drawEvent fmt_f t e y h c)).
Proof.
  intros H. apply String.eqb_neq in H. unfold drawEvent. cbn [fst]. cbv zeta.
  rewrite H. cbn [negb].
  repeat match goal with
         | |- context [if ?b then _ else _] => destruct b
         end;
    first [ do 4 apply EmitterFacts.within_left; apply EmitterFacts.within_right;
            apply EmitterFacts.within_refl
          | do 3 apply EmitterFacts.within_left; apply EmitterFacts.within_right;
            apply EmitterFacts.within_refl ].
Qed.

(** The document of a timeline with an identifier opens with it, escaped. *)
Lemma document_opens fmt_f Duration_String defs (t : Timeline) :
  id t <> EmptyString ->
  exists rest,
    document fmt_f Duration_String defs t
    = "<svg id=" ++ dquote ++ escapeXML (id t) ++ dquote ++ rest.
Proof.
  intros H. apply String.eqb_neq in H. unfold document. cbv zeta. rewrite H.
  cbn [negb].
  destruct (negb (String.eqb (style t) EmptyString));
    eexists; rewrite !EmitterFacts.append_assoc; cbn [append]; reflexivity.
Qed.

(** X21.  The document the string generator writes for a validated timeline
    opens with the identifier of the timeline, when it has one, in its
    escaped form, and holds the title of every event it draws (the largest
    span being positive) between the tags of a title, in its escaped
    form. *)
Theorem titles_and_the_timeline_id_are_escaped
    fmt_f Duration_String defs (t t' : Timeline) :
  setup t = inr t' ->
  exists document,
    Generate fmt_f Duration_String defs t = (document, None)
    /\ (id t <> EmptyString ->
        exists rest,
          document = "<svg id=" ++ dquote ++ escapeXML (id t) ++ dquote ++ rest)
    /\ (0 < maxDuration t' ->
        forall (r : Row) (e : Event),
          In r (rows t) -> In e (events r) -> Title e <> EmptyString ->
          within ("<title>" ++ escapeXML (Title e) ++ "</title>") document).
Proof.
  intros S. exists (Emitter.document fmt_f Duration_String defs t').
  split; [unfold Generate; rewrite S; reflexivity |].
  pose proof (setup_initialises t t' S) as E.
  split.
  - intros Hid. replace (id t) with (id t') in * by (rewrite E; reflexivity).
    apply document_opens. exact Hid.
  - intros Hm r e Hr He Ht.
    replace (rows t) with (rows t') in Hr by (rewrite E; reflexivity).
    apply EmitterFacts.within_trans with (q := drawRows fmt_f t' (rows t') (marginTop t'));
      [| apply EmitterFacts.document_holds_the_rows].
    destruct (EmitterFacts.drawRows_hold fmt_f t' r e (rows t') Hm Hr He (marginTop t'))
      as [y' [c' H]].
    apply EmitterFacts.within_trans with (q := fst (drawEvent fmt_f t' e y' (height r) c'));
      [| exact H].
    apply drawEvent_title. exact Ht.
Qed.

Lemma titles_and_the_timeline_id_are_escaped_witness :
  setup named = inr (initialise named)
  /\ exists document,
      Generate plain_f plain_d EmptyString named = (document, None)
      /\ (id named <> EmptyString ->
          exists rest,
            document = "<svg id=" ++ dquote ++ escapeXML (id named) ++ dquote ++ rest)
      /\ (0 < maxDuration (initialise named) ->
          forall (r : Row) (e : Event),
            In r (rows named) -> In e (events r) -> Title e <> EmptyString ->
            within ("<title>" ++ escapeXML (Title e) ++ "</title>") document).
Proof.
  assert (S : setup named = inr (initialise named)) by reflexivity.
  split; [exact S |].
  exact (titles_and_the_timeline_id_are_escaped plain_f plain_d EmptyString
           named (initialise named) S).
Defined.

End MarkupFacts.

(** ** svgtimeline.go: durations are not checked *)

Module NegativeFacts.

Import GoTime Emitter Spec Markup.

Local Open Scope string_scope.

(** The rectangle [drawEvent] writes has the width the scale gives the
    duration, whatever its sign. *)
Lemma drawEvent_width fmt_f (t : Timeline) (e : Event) (y h c : Z) :
  within (" width=" ++ dquote
          ++ fmt_f (inject_Z (contentWidth t) * inject_Z (Duration e)
                    / inject_Z (maxDuration t))%Q
          ++ dquote)
         (fst (drawEvent fmt_f t e y h c)).
Proof.
  unfold drawEvent. cbn [fst]. cbv zeta.
  repeat match goal with
         | |- context [if ?b then _ else _] => destruct b
         end;
    first [ do 3 apply EmitterFacts.within_left; do 9 apply EmitterFacts.within_right;
            eexists EmptyString, _; rewrite !EmitterFacts.append_assoc; reflexivity
          | do 2 apply EmitterFacts.within_left; do 9 apply EmitterFacts.within_right;
            eexists EmptyString, _; rewrite !EmitterFacts.append_assoc; reflexivity ].
Qed.

(** C6.  The two generators of svgtimeline.go have no check of the sign
    of a duration.  On one row with a task of ten seconds and one of minus
    three, the test case of the negative duration, [checkEvents] of the
    first unit returns no error and [setup] of the second unit succeeds:
    [Generate] returns a document, in which the rectangle of the second
    task has a negative width.  [setup] of timeline.go refuses the same
    row with the negative-duration error. *)
Theorem the_string_generators_accept_a_negative_duration fmt_f Duration_String defs :
  Configured.rows negativeConfigured = [negativeRow]
  /\ Emitter.rows negativeBuilt = [negativeRow]
  /\ Layout.rows negative = [negativeRow]
  /\ existsb negativeDuration (events negativeRow) = true
  /\ Configured.checkEvents negativeConfigured = (0, None)
  /\ setup negativeBuilt = inr (initialise negativeBuilt)
  /\ (exists document w,
         Generate fmt_f Duration_String defs negativeBuilt = (document, None)
         /\ (w == - (2880 # 7))%Q /\ (w < 0)%Q
         /\ within (" width=" ++ dquote ++ fmt_f w ++ dquote) document)
  /\ Layout.setup negative = inl Layout.ErrNegativeDuration.
Proof.
  split; [reflexivity |]. split; [reflexivity |]. split; [reflexivity |].
  split; [reflexivity |]. split; [reflexivity |]. split; [reflexivity |].
  split; [| reflexivity].
  exists (document fmt_f Duration_String defs (initialise negativeBuilt)).
  exists (inject_Z (contentWidth (initialise negativeBuilt))
          * inject_Z (Duration (task "Short" (- 3 * Second) 0))
          / inject_Z (maxDuration (initialise negativeBuilt)))%Q.
  split; [reflexivity |]. split; [vm_compute; reflexivity |].
  split; [vm_compute; reflexivity |].
  apply EmitterFacts.within_trans
    with (q := drawRows fmt_f (initialise negativeBuilt) (rows (initialise negativeBuilt))
                        (marginTop (initialise negativeBuilt)));
    [| apply EmitterFacts.document_holds_the_rows].
  assert (Hm : 0 < maxDuration (initialise negativeBuilt)) by (vm_compute; reflexivity).
  assert (Hr : In negativeRow (rows (initialise negativeBuilt))) by (left; reflexivity).
  assert (He : In (task "Short" (- 3 * Second) 0) (events negativeRow))
    by (right; left; reflexivity).
  destruct (EmitterFacts.drawRows_hold fmt_f (initialise negativeBuilt) negativeRow
              (task "Short" (- 3 * Second) 0) (rows (initialise negativeBuilt))
              Hm Hr He (marginTop (initialise negativeBuilt)))
    as [y' [c' H]].
  apply EmitterFacts.within_trans
    with (q := fst (drawEvent fmt_f (initialise negativeBuilt)
                              (task "Short" (- 3 * Second) 0) y' (height negativeRow) c'));
    [| exact H].
  apply drawEvent_width.
Qed.

End NegativeFacts.

(** ** cmd/cli/svgtimeline.go: the scanning loop *)

Module ParserFacts.

Import Cfg Spec Files.

Local Open Scope string_scope.

Lemma Split_nonempty (s : string) (sep : ascii) : Split s sep <> [].
Proof.
  destruct s as [| c s]; cbn [Split]; [discriminate |].
  destruct (Ascii.eqb c sep); [discriminate |].
  destruct (Split s sep); discriminate.
Qed.

Lemma AddEventToLastRow_dims (t : Emitter.Timeline) (e : Event) :
  map dims (Emitter.rows (Emitter.AddEventToLastRow t e)) = map dims (Emitter.rows t).
Proof.
  unfold Emitter.AddEventToLastRow.
  destruct (rev (Emitter.rows t)) as [| r before] eqn:R; [reflexivity |].
  cbn [Emitter.with_rows Emitter.rows].
  rewrite <- (rev_involutive (Emitter.rows t)), R. cbn [rev].
  rewrite !map_app. reflexivity.
Qed.

Section Lines.

Variable Atoi : string -> string + Z.
Variable ParseDuration : string -> string + Z.
Variable time_Parse : string -> string -> option Z.
Variable DefaultStyle : string.


(** What a line that is read without error does to the state. *)
Lemma scanLine_Ok (st st' : state) (text : string) :
  scanLine Atoi ParseDuration time_Parse st text = Ok st' ->
  lineNum st' = Int64.add (lineNum st) 1
  /\ currentSection st'
     = match sectionOf text with Some x => x | None => currentSection st end
  /\ map dims (Emitter.rows (tl st'))
     = (map dims (Emitter.rows (tl st))
        ++ (if rowLine text then [rowDims Atoi text] else []))%list
  /\ (pendingInEventSections st -> pendingInEventSections st').
Proof.
  destruct st as [t m sm ce cs n].
  unfold Cfg.scanLine, rowLine, sectionOf, rowDims, pendingInEventSections,
    pending, eventSection.
  cbn [lineNum tl margins setMargins currentEvent currentSection with_lineNum].
  destruct (TrimSpace text) as [| first rest] eqn:T.
  { intros H. injection H as <-. cbn. rewrite app_nil_r. auto. }
  destruct (Ascii.eqb first (ascii_of_nat 35)) eqn:C.
  { intros H. injection H as <-. cbn. rewrite app_nil_r. auto. }
  destruct (Ascii.eqb first (ascii_of_nat 64)) eqn:A.
  - unfold sectionLine, flushEvent, addCurrentEvent.
    cbn [lineNum tl margins setMargins currentEvent currentSection with_lineNum
         with_tl with_event with_section].
    pose proof (Split_nonempty (String first rest) (ascii_of_nat 32)) as NE.
    destruct (Split (String first rest) (ascii_of_nat 32)) as [| sec more] eqn:P;
      [congruence |].
    cbn [hd_error]. intros H. split_on H; try discriminate H; injection H as <-;
      cbn [lineNum tl margins setMargins currentEvent currentSection with_lineNum
           with_tl with_event with_section Emitter.AddRow Emitter.with_rows
           Emitter.rows];
      rewrite ?map_app, ?AddEventToLastRow_dims, ?app_nil_r;
      repeat split; try reflexivity; intros _;
      repeat match goal with
             | E : String.eqb _ _ = true |- _ => apply String.eqb_eq in E; subst
             end;
      try reflexivity;
      repeat match goal with
             | E : String.eqb ?a ?b = false |- _ => rewrite E; clear E
             end; reflexivity.
  - unfold keyLine, timelineKey, eventKey, setEvent, parseTime.
    cbn [lineNum tl margins setMargins currentEvent currentSection with_lineNum
         with_tl with_event with_section with_margins].
    intros H. split_on H; try discriminate H; injection H as <-;
      cbn [lineNum tl margins setMargins currentEvent currentSection with_lineNum
           with_tl with_event with_section with_margins Emitter.SetWidth
           Emitter.SetNumTicks Emitter.SetTickHeight Emitter.SetID Emitter.rows];
      rewrite ?app_nil_r; repeat split; try reflexivity; auto.
Qed.



(** The line number of an error is the one of the line that gave it. *)
Lemma scanLine_Fail (st : state) (text : string) (err : CfgError) (k : Z) :
  scanLine Atoi ParseDuration time_Parse st text = Fail err -> lineOf err = Some k ->
  k = Int64.add (lineNum st) 1.
Proof.
  destruct st as [t m sm ce cs n].
  unfold Cfg.scanLine.
  cbn [lineNum tl margins setMargins currentEvent currentSection with_lineNum].
  destruct (TrimSpace text) as [| first rest] eqn:T; [discriminate |].
  destruct (Ascii.eqb first (ascii_of_nat 35)) eqn:C; [discriminate |].
  destruct (Ascii.eqb first (ascii_of_nat 64)) eqn:A.
  - unfold sectionLine, flushEvent, addCurrentEvent.
    cbn [lineNum tl margins setMargins currentEvent currentSection with_lineNum
         with_tl with_event with_section].
    intros H. split_on H; try discriminate H; injection H as <-;
      cbn [lineOf]; congruence.
  - unfold keyLine, timelineKey, eventKey, setEvent, parseTime.
    cbn [lineNum tl margins setMargins currentEvent currentSection with_lineNum
         with_tl with_event with_section with_margins].
    intros H. split_on H; try discriminate H; injection H as <-;
      cbn [lineOf]; congruence.
Qed.



Lemma scanLines_Ok (lines : list string) :
  forall st st' : state,
    scanLines Atoi ParseDuration time_Parse st lines = Ok st' ->
    currentSection st'
    = fold_left (fun s text => match sectionOf text with Some x => x | None => s end)
                lines (currentSection st)
    /\ map dims (Emitter.rows (tl st'))
       = (map dims (Emitter.rows (tl st))
          ++ map (rowDims Atoi) (filter rowLine lines))%list
    /\ (pendingInEventSections st -> pendingInEventSections st').
Proof.
  induction lines as [| text lines IH]; intros st st' H; cbn [Cfg.scanLines] in H.
  - injection H as <-. cbn [fold_left filter map]. rewrite app_nil_r. auto.
  - destruct (scanLine Atoi ParseDuration time_Parse st text) as [st1 | |] eqn:E;
      try discriminate H.
    destruct (scanLine_Ok st st1 text E) as [_ [S1 [R1 I1]]].
    destruct (IH st1 st' H) as [S2 [R2 I2]].
    cbn [fold_left filter]. rewrite S2, S1, R2, R1, <- app_assoc.
    repeat split; [| auto]. f_equal. destruct (rowLine text); reflexivity.
Qed.

Lemma scanLines_lineNum (lines : list string) :
  forall st st' : state,
    scanLines Atoi ParseDuration time_Parse st lines = Ok st' ->
    0 <= lineNum st -> lineNum st + len lines <= Int64.max_int ->
    lineNum st' = lineNum st + len lines.
Proof.
  unfold len.
  induction lines as [| text lines IH]; intros st st' H H0 Hm; cbn [Cfg.scanLines] in H.
  - injection H as <-. cbn [List.length]. lia.
  - destruct (scanLine Atoi ParseDuration time_Parse st text) as [st1 | |] eqn:E;
      try discriminate H.
    destruct (scanLine_Ok st st1 text E) as [L1 _].
    cbn [List.length] in *.
    rewrite Int64Facts.add_small in L1
      by (unfold Int64.in_range, Int64.min_int, Int64.max_int in *; lia).
    rewrite (IH st1 st' H) by lia. lia.
Qed.


(** An error of the loop is the error of one line, the lines before it
    having been read. *)
Lemma scanLines_Fail (lines : list string) :
  forall (st : state) (err : CfgError),
    scanLines Atoi ParseDuration time_Parse st lines = Fail err ->
    exists (pre : list string) (bad : string) (post : list string) (st1 : state),
      lines = (pre ++ bad :: post)%list
      /\ scanLines Atoi ParseDuration time_Parse st pre = Ok st1
      /\ scanLine Atoi ParseDuration time_Parse st1 bad = Fail err.
Proof.
  induction lines as [| text lines IH]; intros st err H; cbn [Cfg.scanLines] in H;
    [discriminate |].
  destruct (scanLine Atoi ParseDuration time_Parse st text) as [st1 | err1 |] eqn:E;
    try discriminate H.
  - destruct (IH st1 err H) as [pre [bad [post [st2 [L [P B]]]]]].
    exists (text :: pre), bad, post, st2. rewrite L. cbn [app Cfg.scanLines].
    rewrite E. auto.
  - injection H as <-. exists [], text, lines, st. auto.
Qed.

Lemma atLine_atLine (k k' : Z) (err : CfgError) :
  atLine k (atLine k' err) = atLine k err.
Proof. destruct err; reflexivity. Qed.




Lemma existsb_filter {A : Type} (f : A -> bool) (l : list A) :
  existsb f l = false <-> filter f l = [].
Proof.
  induction l as [| a l IH]; cbn [existsb filter]; [tauto |].
  destruct (f a); cbn [orb]; [split; discriminate | exact IH].
Qed.

Lemma GetLastRow_None (t : Emitter.Timeline) :
  Emitter.GetLastRow t = None <-> Emitter.rows t = [].
Proof.
  unfold Emitter.GetLastRow, len.
  destruct (Emitter.rows t) as [| r rs]; [cbn; tauto |].
  destruct (Z.eqb_spec (Z.of_nat (List.length (r :: rs))) 0) as [E | N];
    [cbn [List.length] in E; lia |].
  split; [| discriminate]. intros H. apply nth_error_None in H.
  cbn [List.length] in H. lia.
Qed.

(** The rows a scan from the start leaves, and whether one is there. *)
Lemma scanned_rows (lines : list string) (st : state) :
  scanLines Atoi ParseDuration time_Parse (initial DefaultStyle) lines = Ok st ->
  map dims (Emitter.rows (tl st)) = map (rowDims Atoi) (filter rowLine lines)
  /\ (Emitter.GetLastRow (tl st) = None <-> existsb rowLine lines = false).
Proof.
  intros E. destruct (scanLines_Ok lines _ st E) as [_ [R _]].
  cbn [initial tl Emitter.NewTimeline Emitter.rows map app] in R.
  split; [exact R |].
  rewrite GetLastRow_None, existsb_filter.
  destruct (Emitter.rows (tl st)), (filter rowLine lines); cbn [map] in R;
    try discriminate R; split; congruence.
Qed.



(** X24.  The number in an error of the parser is the position, counted
    from one, of the line it stopped at: the lines before it were read
    without error and that line gave the error.  The one exception is the
    error of the missing row at the end of a file without a row line, which
    carries the number of lines of the file. *)
Theorem errors_carry_the_line_that_failed
    (lines : list string) (cssStyle : string) (err : CfgError) (k : Z) :
  parse Atoi ParseDuration time_Parse DefaultStyle lines cssStyle = Fail err ->
  lineOf err = Some k ->
  len lines <= Int64.max_int ->
  (exists (pre : list string) (bad : string) (post : list string) (st : state),
      lines = (pre ++ bad :: post)%list
      /\ k = len pre + 1
      /\ scanLines Atoi ParseDuration time_Parse (initial DefaultStyle) pre = Ok st
      /\ scanLine Atoi ParseDuration time_Parse st bad = Fail err)
  \/ (err = ErrNoRow k /\ k = len lines /\ existsb rowLine lines = false
      /\ exists st,
          scanLines Atoi ParseDuration time_Parse (initial DefaultStyle) lines = Ok st).
Proof.
  unfold parse. intros H Hk Hl.
  destruct (scanLines Atoi ParseDuration time_Parse (initial DefaultStyle) lines)
    as [st | err' |] eqn:E;
    try discriminate H.
  - right.
    pose proof (scanLines_lineNum lines _ st E) as N.
    cbn [initial lineNum] in N. specialize (N ltac:(lia) ltac:(lia)).
    destruct (scanned_rows lines st E) as [_ G].
    unfold lastEvent, addCurrentEvent in H.
    destruct (Emitter.GetLastRow (tl st)) as [r |].
    + destruct (currentEvent st); discriminate H.
    + injection H as <-. cbn [lineOf] in Hk. injection Hk as <-.
      split; [reflexivity |]. split; [lia |].
      split; [apply G; reflexivity | exists st; reflexivity].
  - left. injection H as ->.
    destruct (scanLines_Fail lines _ err E) as [pre [bad [post [st1 [L [P B]]]]]].
    exists pre, bad, post, st1. split; [exact L |]. split; [| auto].
    assert (Hp : len pre + 1 <= len lines).
    { rewrite L. unfold len. rewrite length_app. cbn [List.length]. lia. }
    pose proof (scanLines_lineNum pre _ st1 P) as N.
    cbn [initial lineNum] in N.
    assert (0 <= len pre) by (unfold len; lia).
    specialize (N ltac:(lia) ltac:(lia)).
    rewrite (scanLine_Fail st1 bad err k B Hk), N.
    apply Int64Facts.add_small.
    unfold Int64.in_range, Int64.min_int, Int64.max_int in *. lia.
Qed.





















End Lines.


Lemma errors_carry_the_line_that_failed_witness :
  parse plain_Atoi plain_ParseDuration plain_Parse EmptyString rowWithKey EmptyString
  = Fail (ErrRowOption 2)
  /\ lineOf (ErrRowOption 2) = Some 2
  /\ len rowWithKey <= Int64.max_int
  /\ ((exists (pre : list string) (bad : string) (post : list string) (st : state),
          rowWithKey = (pre ++ bad :: post)%list
          /\ 2 = len pre + 1
          /\ scanLines plain_Atoi plain_ParseDuration plain_Parse (initial EmptyString) pre
             = Ok st
          /\ scanLine plain_Atoi plain_ParseDuration plain_Parse st bad
             = Fail (ErrRowOption 2))
      \/ (ErrRowOption 2 = ErrNoRow 2 /\ 2 = len rowWithKey
          /\ existsb rowLine rowWithKey = false
          /\ exists st,
              scanLines plain_Atoi plain_ParseDuration plain_Parse (initial EmptyString)
                        rowWithKey = Ok st)).
Proof.
  assert (H : parse plain_Atoi plain_ParseDuration plain_Parse EmptyString rowWithKey
                    EmptyString = Fail (ErrRowOption 2)) by reflexivity.
  assert (Hk : lineOf (ErrRowOption 2) = Some 2) by reflexivity.
  assert (Hl : len rowWithKey <= Int64.max_int) by (vm_compute; discriminate).
  split; [exact H |]. split; [exact Hk |]. split; [exact Hl |].
  exact (errors_carry_the_line_that_failed plain_Atoi plain_ParseDuration plain_Parse
           EmptyString rowWithKey EmptyString (ErrRowOption 2) 2 H Hk Hl).
Defined.




End ParserFacts.
